(** * Bedrock invocation logs over CloudWatch: a shallow embedding

    The development follows [cloudwatch_mcp_server.py]: the log fetcher
    [get_bedrock_logs] with its per-event extraction, and the four tools
    built on it.  Python values are dynamically typed, so the embedding
    keeps one type [value] of JSON-shaped Python objects and gives every
    operation the exception it raises on the wrong shape.  Of the
    library code the module calls, the data frame constructor and the
    aggregation [groupby], [agg], [round] of pandas, the validation of
    pydantic and the datetime arithmetic of CPython are modelled after
    their documentation; [json.loads], [boto3], [pd.to_datetime], the
    [.dt.date] accessor and the platform's time zone are taken as
    parameters, or as fields of the [world] the call runs in. *)

From Stdlib Require Import ZArith Ascii String List SpecFloat Lia.
From stdpp Require Import base strings gmap list.

Set Warnings "-register-all".
Local Open Scope Z_scope.
Local Open Scope string_scope.

(** ** Exceptions and results *)

(** The instances of class [Exception] the module can meet.  [OtherError]
    stands for any further subclass of [Exception] that is neither a
    [JSONDecodeError] nor a [KeyError] nor AWS's
    [ResourceNotFoundException] (throttling, credentials, network,
    recursion depth, ...). *)
Inductive exn : Type :=
| JSONDecodeError
| KeyError
| AttributeError
| TypeError
| ValueError
| OverflowError
| ResourceNotFoundException
| ValidationError
| OtherError (name : string).

Inductive result (A : Type) : Type :=
| Ok (a : A)
| Raise (e : exn).
Arguments Ok {A} a.
Arguments Raise {A} e.

#[global] Instance result_ret : MRet result := fun A a => Ok a.
#[global] Instance result_bind : MBind result := fun A B f m =>
  match m with
  | Ok a => f a
  | Raise e => Raise e
  end.

(** ** Python values *)

(** A Python [float] is an IEEE-754 binary64 number.  A Python [str] is
    held as its UTF-8 encoding. *)
Definition prec : Z := 53.
Definition emax : Z := 1024.

Inductive value : Type :=
| VNone
| VBool (b : bool)
| VInt (z : Z)
| VFloat (f : spec_float)
| VStr (s : string)
| VList (l : list value)
| VDict (d : gmap string value).

(** [float(z)] for a Python int: correctly rounded, [OverflowError] when
    the int is too large for a double. *)
Definition float_of_int (z : Z) : result spec_float :=
  match binary_normalize prec emax z 0 false with
  | S754_infinity _ => Raise OverflowError
  | f => Ok f
  end.

(** [int(f)]: truncation towards zero. *)
Definition int_of_float (f : spec_float) : result Z :=
  match f with
  | S754_zero _ => Ok 0
  | S754_finite s m e => Ok (cond_Zopp s (Z.shiftl (Zpos m) e))
  | S754_infinity _ => Raise OverflowError
  | S754_nan => Raise ValueError
  end.

(** Truth value testing ([if x:]). *)
Definition truthy (v : value) : bool :=
  match v with
  | VNone => false
  | VBool b => b
  | VInt z => negb (Z.eqb z 0)
  | VFloat (S754_zero _) => false
  | VFloat _ => true
  | VStr s => negb (String.eqb s "")
  | VList l => negb (Nat.eqb (length l) 0)
  | VDict d => negb (Nat.eqb (size d) 0)
  end.

(** [v.get(k, dflt)]: only a dict has the method. *)
Definition py_get (v : value) (k : string) (dflt : value) : result value :=
  match v with
  | VDict d => Ok (default dflt (d !! k))
  | _ => Raise AttributeError
  end.

(** [v[k]] for a string key. *)
Definition py_getitem (v : value) (k : string) : result value :=
  match v with
  | VDict d =>
      match d !! k with
      | Some x => Ok x
      | None => Raise KeyError
      end
  | _ => Raise TypeError
  end.

(** A byte that continues a UTF-8 sequence. *)
Definition is_continuation (c : ascii) : bool :=
  let n := N_of_ascii c in
  N.leb 128 n && N.ltb n 192.

(** The characters of a string: each leading byte with the continuation
    bytes after it. *)
Fixpoint utf8_chars (s : string) : list string :=
  match s with
  | EmptyString => []
  | String c rest =>
      match utf8_chars rest with
      | String d t :: chars =>
          if is_continuation d then String c (String d t) :: chars
          else String c EmptyString :: String d t :: chars
      | chars => String c EmptyString :: chars
      end
  end.

(** The items a [for] loop over [v] visits. *)
Definition py_iter (v : value) : result (list value) :=
  match v with
  | VList l => Ok l
  | VStr s => Ok (map VStr (utf8_chars s))
  | VDict d => Ok (map (fun kv => VStr (fst kv)) (map_to_list d))
  | _ => Raise TypeError
  end.

(** [v == s] for a string literal [s]. *)
Definition py_eq_str (v : value) (s : string) : bool :=
  match v with
  | VStr t => String.eqb t s
  | _ => false
  end.

(** An int operand of arithmetic; [bool] is a subclass of [int]. *)
Definition as_int (v : value) : option Z :=
  match v with
  | VInt z => Some z
  | VBool true => Some 1
  | VBool false => Some 0
  | _ => None
  end.

(** [a + b]. *)
Definition py_add (a b : value) : result value :=
  match as_int a, as_int b with
  | Some x, Some y => Ok (VInt (x + y))
  | Some x, None =>
      match b with
      | VFloat g => f ← float_of_int x; Ok (VFloat (SFadd prec emax f g))
      | _ => Raise TypeError
      end
  | None, Some y =>
      match a with
      | VFloat f => g ← float_of_int y; Ok (VFloat (SFadd prec emax f g))
      | _ => Raise TypeError
      end
  | None, None =>
      match a, b with
      | VFloat f, VFloat g => Ok (VFloat (SFadd prec emax f g))
      | VStr s, VStr t => Ok (VStr (String.append s t))
      | VList l, VList m => Ok (VList (l ++ m)%list)
      | _, _ => Raise TypeError
      end
  end.

(** The characters for which [str.isspace] holds, as UTF-8 byte
    sequences: U+0009..000D, U+001C..0020, U+0085, U+00A0, U+1680,
    U+2000..200A, U+2028, U+2029, U+202F, U+205F, U+3000. *)
Definition is_space (c : string) : bool :=
  match map N_of_ascii (list_ascii_of_string c) with
  | [n] => (N.leb 9 n && N.leb n 13) || (N.leb 28 n && N.leb n 32)
  | [a; n] => N.eqb a 194 && (N.eqb n 133 || N.eqb n 160)
  | [a; b; n] =>
      (N.eqb a 225 && N.eqb b 154 && N.eqb n 128)
      || (N.eqb a 226 && N.eqb b 128
          && ((N.leb 128 n && N.leb n 138) || N.eqb n 168 || N.eqb n 169 || N.eqb n 175))
      || (N.eqb a 226 && N.eqb b 129 && N.eqb n 159)
      || (N.eqb a 227 && N.eqb b 128 && N.eqb n 128)
  | _ => false
  end.

Fixpoint lstrip (chars : list string) : list string :=
  match chars with
  | c :: rest => if is_space c then lstrip rest else chars
  | [] => []
  end.

Definition rstrip (chars : list string) : list string :=
  rev (lstrip (rev chars)).

(** [s.strip()] *)
Definition py_strip (v : value) : result value :=
  match v with
  | VStr s => Ok (VStr (String.concat "" (rstrip (lstrip (utf8_chars s)))))
  | _ => Raise AttributeError
  end.

(** ** The event extractor (lines 55-93) *)

Record UsageRecord : Type := {
  timestamp : value;
  region : value;
  modelId : value;
  userId : value;
  inputTokens : value;
  completionTokens : value;
  totalTokens : value
}.

(** Lines 68-70: the loop over one message's content parts. *)
Fixpoint content_loop (contents : list value) (prompt : value) : result value :=
  match contents with
  | [] => Ok prompt
  | content :: rest =>
      text ← py_get content "text" VNone;
      if truthy text then
        t ← py_getitem content "text";
        piece ← py_add t (VStr " ");
        prompt' ← py_add prompt piece;
        content_loop rest prompt'
      else content_loop rest prompt
  end.

(** Lines 66-70: the loop over the input messages. *)
Fixpoint message_loop (msgs : list value) (prompt : value) : result value :=
  match msgs with
  | [] => Ok prompt
  | msg :: rest =>
      role ← py_get msg "role" VNone;
      cond ← (if py_eq_str role "user"
              then c ← py_get msg "content" VNone; Ok (truthy c)
              else Ok false);
      if (cond : bool) then
        c ← py_getitem msg "content";
        contents ← py_iter c;
        prompt' ← content_loop contents prompt;
        message_loop rest prompt'
      else message_loop rest prompt
  end.

(** Lines 60-71: the user prompt.  It is computed for every event and
    then dropped; what remains of it is the exception it may raise. *)
Definition user_prompt (message : value) : result value :=
  i ← py_get message "input" (VDict ∅);
  b ← py_get i "inputBodyJson" (VDict ∅);
  m ← py_get b "messages" VNone;
  if truthy m then
    i' ← py_getitem message "input";
    b' ← py_getitem i' "inputBodyJson";
    m' ← py_getitem b' "messages";
    msgs ← py_iter m';
    prompt ← message_loop msgs (VStr "");
    py_strip prompt
  else Ok (VStr "").

(** Lines 74-87: the projected record, fields evaluated in order. *)
Definition filtered_event (message : value) : result UsageRecord :=
  ts ← py_get message "timestamp" VNone;
  rg ← py_get message "region" VNone;
  mid ← py_get message "modelId" VNone;
  idn ← py_get message "identity" (VDict ∅);
  uid ← py_get idn "arn" VNone;
  inp ← py_get message "input" (VDict ∅);
  itk ← py_get inp "inputTokenCount" VNone;
  out ← py_get message "output" (VDict ∅);
  ctk ← py_get out "outputTokenCount" VNone;
  inp0 ← py_get message "input" (VDict ∅);
  a ← py_get inp0 "inputTokenCount" (VInt 0);
  out0 ← py_get message "output" (VDict ∅);
  b ← py_get out0 "outputTokenCount" (VInt 0);
  tot ← py_add a b;
  Ok {| timestamp := ts; region := rg; modelId := mid; userId := uid;
        inputTokens := itk; completionTokens := ctk; totalTokens := tot |}.

Section Extractor.

(** [json.loads] on a [str]: the decoded value, or the exception
    raised ([JSONDecodeError] for text that is not JSON). *)
Variable json_loads : string → result value.

(** [json.loads(x)] for any object [x]. *)
Definition loads (x : value) : result value :=
  match x with
  | VStr s => json_loads s
  | _ => Raise TypeError
  end.

(** Line 57: the parsed envelope of an event. *)
Definition envelope (event : value) : result value :=
  body ← py_getitem event "message";
  loads body.

(** Lines 56-87: the body of the inner [try]. *)
Definition process_event (event : value) : result UsageRecord :=
  message ← envelope event;
  _ ← user_prompt message;
  filtered_event message.

(** Lines 54-93: the loop over the events of a page, with the two
    handlers of the inner [try]. *)
Fixpoint event_loop (events : list value) (filtered_logs : list UsageRecord)
  : result (list UsageRecord) :=
  match events with
  | [] => Ok filtered_logs
  | event :: rest =>
      match process_event event with
      | Ok r => event_loop rest (filtered_logs ++ [r])%list
      | Raise JSONDecodeError => event_loop rest filtered_logs
      | Raise KeyError => event_loop rest filtered_logs
      | Raise e => Raise e
      end
  end.

(** Line 54: [page.get("events", [])], as the list the loop visits. *)
Definition page_events (page : value) : result (list value) :=
  evs ← py_get page "events" (VList []);
  py_iter evs.

(** Lines 53-93: the loop over the pages the paginator yields. *)
Fixpoint page_loop (pages : list value) (filtered_logs : list UsageRecord)
  : result (list UsageRecord) :=
  match pages with
  | [] => Ok filtered_logs
  | page :: rest =>
      events ← page_events page;
      filtered_logs' ← event_loop events filtered_logs;
      page_loop rest filtered_logs'
  end.

End Extractor.

(** ** The clock and the log source *)

(** A naive [datetime]: the proleptic Gregorian day number
    ([date.toordinal], 1 is 0001-01-01), the microseconds since
    midnight of the local wall clock, and the [fold] attribute that
    tells the two passes through a repeated hour apart. *)
Record datetime : Type := {
  ordinal : Z;
  usec : Z;
  fold : bool
}.

(** [date.max.toordinal()], the day 9999-12-31. *)
Definition max_ordinal : Z := 3652059.

(** [timedelta(days=d)]: the magnitude is bounded. *)
Definition timedelta (d : Z) : result Z :=
  if Z.leb (Z.abs d) 999999999 then Ok d else Raise OverflowError.

(** [dt - delta] for a delta of whole days: the time of day stays, the
    date must remain within years 1..9999, and the result of the
    arithmetic has [fold = 0]. *)
Definition datetime_sub (dt : datetime) (delta : Z) : result datetime :=
  let o := ordinal dt - delta in
  if Z.leb 1 o && Z.leb o max_ordinal
  then Ok {| ordinal := o; usec := usec dt; fold := false |}
  else Raise OverflowError.

(** The keyword arguments of [paginate] (lines 43-50). *)
Record query : Type := {
  logGroupName : string;
  logStreamNames : list string;
  startTime : Z;
  endTime : Z
}.

(** What [print] writes (lines 98-100 and 103). *)
Inductive diagnostic : Type :=
| NotFoundMessage
| ErrorMessage (e : exn).

(** The observable actions of a call, in order: the paginator is run
    on a query (it then sends one request for each page it yields), a
    message is printed. *)
Inductive effect : Type :=
| FilterLogEvents (q : query)
| Printed (d : diagnostic).

(** A CloudWatch Logs client: for a query, the pages the paginator
    yields and, when the iteration ends with one, the exception raised
    after the last of them. *)
Record client : Type := {
  paginate : query → list value * option exn
}.

(** What a call depends on besides its argument. *)
Record world : Type := {
  (** [datetime.now()] *)
  now : datetime;
  (** [dt.timestamp()] of a naive datetime: the platform's conversion of
      local time to seconds since the epoch *)
  local_timestamp : datetime → result spec_float;
  (** [boto3.client("logs")] *)
  boto3_client : result client
}.

(** Lines 34-35: [int(dt.timestamp() * 1000)]. *)
Definition epoch_millis (w : world) (dt : datetime) : result Z :=
  ts ← local_timestamp w dt;
  k ← float_of_int 1000;
  int_of_float (SFmul prec emax ts k).

(** Lines 30-35: the time range, start first. *)
Definition time_range (w : world) (days_back : Z) : result (Z * Z) :=
  let end_time := now w in
  delta ← timedelta days_back;
  start_time ← datetime_sub end_time delta;
  start_time_ms ← epoch_millis w start_time;
  end_time_ms ← epoch_millis w end_time;
  Ok (start_time_ms, end_time_ms).

(** Lines 43-50. *)
Definition fetch_params (start_time_ms end_time_ms : Z) : query :=
  {| logGroupName := "/aws/bedrock";
     logStreamNames := ["aws/bedrock/modelinvocations"];
     startTime := start_time_ms;
     endTime := end_time_ms |}.

(** The message printed by the handler that catches [e]
    (lines 97-104). *)
Definition on_fault (e : exn) : diagnostic :=
  match e with
  | ResourceNotFoundException => NotFoundMessage
  | _ => ErrorMessage e
  end.

Section Fetcher.

Variable json_loads : string → result value.

(** Lines 40-95: the body of the outer [try].  The pages are consumed
    as they come, so a fault of the paginator is met after the pages
    before it have been processed. *)
Definition try_fetch (c : client) (params : query) : result (list UsageRecord) :=
  let '(pages, fault) := paginate c params in
  filtered_logs ← page_loop json_loads pages [];
  match fault with
  | Some e => Raise e
  | None => Ok filtered_logs
  end.

(** Lines 16-104. *)
Definition get_bedrock_logs (w : world) (days_back : Z)
  : result (list UsageRecord) * list effect :=
  match boto3_client w with
  | Raise e => (Raise e, [])
  | Ok c =>
      match time_range w days_back with
      | Raise e => (Raise e, [])
      | Ok (start_time_ms, end_time_ms) =>
          let params := fetch_params start_time_ms end_time_ms in
          match try_fetch c params with
          | Ok filtered_logs => (Ok filtered_logs, [FilterLogEvents params])
          | Raise e => (Ok [], [FilterLogEvents params; Printed (on_fault e)])
          end
      end
  end.

End Fetcher.

(** ** The tool interface (lines 107-232) *)

(** Lines 107-110. *)
Record DaysParam : Type := {
  days : Z
}.

(** The [days] argument of a tool call as it arrives: the key is
    absent, or it holds a JSON value. *)
Inductive days_input : Type :=
| DaysOmitted
| DaysGiven (v : value).

(** The integer a float stands for, when it is finite and has no
    fractional part. *)
Definition whole_of_float (f : spec_float) : option Z :=
  match f with
  | S754_zero _ => Some 0
  | S754_finite s m e =>
      if Z.leb 0 e then Some (cond_Zopp s (Z.shiftl (Zpos m) e))
      else if Z.eqb (Zpos m mod 2 ^ (- e)) 0
           then Some (cond_Zopp s (Z.shiftr (Zpos m) (- e)))
           else None
  | S754_infinity _ => None
  | S754_nan => None
  end.

Section Validation.

(** The integer pydantic reads from a string, when it reads one. *)
Variable int_of_str : string → option Z.

(** What the [int] field makes of a value.  The model is not strict,
    so besides an int it takes a bool, a float that is a whole number
    of 64-bit size, and a string that reads as an integer; it refuses
    everything else. *)
Definition lax_int (v : value) : result Z :=
  match v with
  | VInt n => Ok n
  | VBool b => Ok (if b then 1 else 0)
  | VFloat f =>
      match whole_of_float f with
      | Some n =>
          if Z.ltb (- 2 ^ 63) n && Z.ltb n (2 ^ 63) then Ok n
          else Raise ValidationError
      | None => Raise ValidationError
      end
  | VStr s =>
      match int_of_str s with
      | Some n => Ok n
      | None => Raise ValidationError
      end
  | VNone => Raise ValidationError
  | VList _ => Raise ValidationError
  | VDict _ => Raise ValidationError
  end.

(** Validation of the arguments against [DaysParam]: the field has a
    default and no constraint besides its type. *)
Definition validate_DaysParam (i : days_input) : result DaysParam :=
  match i with
  | DaysOmitted => Ok {| days := 7 |}
  | DaysGiven v => n ← lax_int v; Ok {| days := n |}
  end.

End Validation.

(** A data frame, column by column. *)
Definition DataFrame : Type := list (string * list value).

(** The type pandas gives a column. *)
Inductive dtype : Type :=
| Int64
| Float64
| Bool
| Object.

Definition in_int64 (n : Z) : bool :=
  Z.leb (- 2 ^ 63) n && Z.ltb n (2 ^ 63).

Definition is_int64_cell (v : value) : bool :=
  match v with
  | VInt n => in_int64 n
  | _ => false
  end.

Definition is_bool_cell (v : value) : bool :=
  match v with
  | VBool _ => true
  | _ => false
  end.

(** A cell a float64 column can hold: a number, or a missing value. *)
Definition is_float_cell (v : value) : bool :=
  match v with
  | VInt n => in_int64 n
  | VFloat _ => true
  | VNone => true
  | _ => false
  end.

Definition is_number_cell (v : value) : bool :=
  match v with
  | VInt _ => true
  | VFloat _ => true
  | _ => false
  end.

(** The type pandas infers for a column of Python objects: int64 for
    ints, bool for bools, float64 for numbers mixed with each other or
    with [None], object for everything else, a column of nothing but
    [None] included. *)
Definition infer_dtype (col : list value) : dtype :=
  match col with
  | [] => Object
  | _ =>
      if forallb is_int64_cell col then Int64
      else if forallb is_bool_cell col then Bool
      else if forallb is_float_cell col && existsb is_number_cell col then Float64
      else Object
  end.

(** The double nearest to an int. *)
Definition to_float64 (n : Z) : spec_float :=
  binary_normalize prec emax n 0 false.

(** A cell of a float64 column: [None] is stored as NaN. *)
Definition float64_cell (v : value) : value :=
  match v with
  | VInt n => VFloat (to_float64 n)
  | VNone => VFloat S754_nan
  | _ => v
  end.

(** A column as pandas stores it. *)
Definition infer_column (col : list value) : list value :=
  match infer_dtype col with
  | Float64 => map float64_cell col
  | _ => col
  end.

(** [pd.DataFrame(logs)] for a list of projected records: no record, no
    column; otherwise the seven keys of the records as columns, each of
    the type inferred for it. *)
Definition pd_DataFrame (logs : list UsageRecord) : DataFrame :=
  match logs with
  | [] => []
  | _ =>
      [("timestamp", infer_column (map timestamp logs));
       ("region", infer_column (map region logs));
       ("modelId", infer_column (map modelId logs));
       ("userId", infer_column (map userId logs));
       ("inputTokens", infer_column (map inputTokens logs));
       ("completionTokens", infer_column (map completionTokens logs));
       ("totalTokens", infer_column (map totalTokens logs))]
  end.

(** [df.empty] *)
Definition df_empty (df : DataFrame) : bool :=
  match df with
  | [] => true
  | (_, col) :: _ => Nat.eqb (length col) 0
  end.

(** [df[name]] *)
Fixpoint df_column (df : DataFrame) (name : string) : result (list value) :=
  match df with
  | [] => Raise KeyError
  | (n, col) :: rest => if String.eqb n name then Ok col else df_column rest name
  end.

(** [df[name] = col] *)
Fixpoint df_set_column (df : DataFrame) (name : string) (col : list value) : DataFrame :=
  match df with
  | [] => [(name, col)]
  | (n, c) :: rest =>
      if String.eqb n name then (n, col) :: rest
      else (n, c) :: df_set_column rest name col
  end.

(** The aggregation a tool asks pandas for. *)
Inductive group_key : Type :=
| ByColumn (name : string)
| ByDateOf (name : string).

Inductive agg_fn : Type :=
| Count
| Sum
| Mean
| ListOfSet.

Record agg_request : Type := {
  by_key : group_key;
  agg : list (string * list agg_fn);
  round_decimals : Z
}.

Definition token_metrics : list (string * list agg_fn) :=
  [("inputTokens", [Count; Sum; Mean]);
   ("completionTokens", [Sum; Mean]);
   ("totalTokens", [Sum; Mean])].

(** ** The aggregation: [groupby], [agg] and [round]

    The statistics tools end in [df.groupby(key).agg(spec).round(2)].
    The functions of this part follow what pandas documents for these
    methods with their default arguments: a row whose key is missing
    belongs to no group, the groups come in the order of their keys,
    [count] counts the values that are not missing, [sum] and [mean]
    skip missing values, the sum of no value is 0 and the mean of no
    value is NaN, and [round] touches floating-point columns only.
    Sums of floats are accumulated with Kahan's compensation, as pandas
    does for groups. *)

Definition Z_sum (l : list Z) : Z := foldr Z.add 0 l.

Definition is_nan (f : spec_float) : bool :=
  match f with
  | S754_nan => true
  | _ => false
  end.

(** [pd.isna] on a cell. *)
Definition is_na (v : value) : bool :=
  match v with
  | VNone => true
  | VFloat f => is_nan f
  | _ => false
  end.

Definition non_missing (cells : list value) : list value :=
  List.filter (fun v => negb (is_na v)) cells.

(** Lists and dicts have no hash. *)
Definition hashable (v : value) : bool :=
  match v with
  | VList _ | VDict _ => false
  | _ => true
  end.

(** Equality of two hashable values, as a set or a group index sees it:
    numbers are compared by value ([1 == 1.0 == True]), NaN differs from
    everything. *)
Definition key_eqb (a b : value) : bool :=
  match a, b with
  | VNone, VNone => true
  | VStr s, VStr t => String.eqb s t
  | VFloat f, VFloat g => SFeqb f g
  | VFloat f, _ =>
      match whole_of_float f, as_int b with
      | Some m, Some n => Z.eqb m n
      | _, _ => false
      end
  | _, VFloat g =>
      match as_int a, whole_of_float g with
      | Some m, Some n => Z.eqb m n
      | _, _ => false
      end
  | _, _ =>
      match as_int a, as_int b with
      | Some m, Some n => Z.eqb m n
      | _, _ => false
      end
  end.

(** The distinct values of a list.  A Python set has no order of its
    own; the model keeps the order of first occurrence. *)
Fixpoint distinct (l : list value) : list value :=
  match l with
  | [] => []
  | v :: rest => v :: List.filter (fun x => negb (key_eqb v x)) (distinct rest)
  end.

(** The order of group keys: strings by code point, numbers by value;
    keys that do not compare stay where they are. *)
Definition key_leb (a b : value) : bool :=
  match a, b with
  | VStr s, VStr t => String.leb s t
  | VInt m, VInt n => Z.leb m n
  | VFloat f, VFloat g => SFleb f g
  | _, _ => true
  end.

Fixpoint insert_key (k : value) (l : list value) : list value :=
  match l with
  | [] => [k]
  | x :: rest => if key_leb k x then k :: l else x :: insert_key k rest
  end.

Definition sort_keys (l : list value) : list value :=
  foldr insert_key [] l.

(** The keys of the groups of a key column. *)
Definition group_index (keys : list value) : result (list value) :=
  if forallb hashable keys then Ok (sort_keys (distinct (non_missing keys)))
  else Raise TypeError.

(** The rows of a column that belong to the group of key [k]. *)
Definition select {A : Type} (keys : list value) (k : value) (col : list A) : list A :=
  map snd (List.filter (fun p => key_eqb k (fst p)) (zip keys col)).

(** [numpy.rint]: the nearest whole number, ties to even. *)
Definition SFrint (f : spec_float) : spec_float :=
  match f with
  | S754_finite s m e =>
      if Z.leb 0 e then f
      else
        let q := Z.pos m / 2 ^ (- e) in
        let r := Z.pos m mod 2 ^ (- e) in
        let half := 2 ^ (- e - 1) in
        if Z.eqb r 0 then f
        else
          let n := if Z.ltb r half then q
                   else if Z.ltb half r then q + 1
                   else if Z.even q then q else q + 1 in
          binary_normalize prec emax (cond_Zopp s n) 0 s
  | _ => f
  end.

(** [numpy.round]: scale by the power of ten, [rint], scale back. *)
Definition np_round (decimals : Z) (f : spec_float) : spec_float :=
  if Z.leb 0 decimals
  then SFdiv prec emax (SFrint (SFmul prec emax f (to_float64 (10 ^ decimals))))
         (to_float64 (10 ^ decimals))
  else SFmul prec emax (SFrint (SFdiv prec emax f (to_float64 (10 ^ (- decimals)))))
         (to_float64 (10 ^ (- decimals))).

(** One step of the compensated sum of a group: the running sum and its
    compensation. *)
Definition kahan_step (acc : spec_float * spec_float) (val : spec_float)
  : spec_float * spec_float :=
  let y := SFsub prec emax val (snd acc) in
  let t := SFadd prec emax (fst acc) y in
  let c := SFsub prec emax (SFsub prec emax t (fst acc)) y in
  (t, match c with S754_nan => S754_zero false | _ => c end).

Definition kahan_sum (vals : list spec_float) : spec_float :=
  fst (fold_left kahan_step vals (S754_zero false, S754_zero false)).

Definition mean_of (vals : list spec_float) : spec_float :=
  match vals with
  | [] => S754_nan
  | _ => SFdiv prec emax (kahan_sum vals) (to_float64 (Z.of_nat (length vals)))
  end.

Definition wrap_int64 (n : Z) : Z :=
  (n + 2 ^ 63) mod 2 ^ 64 - 2 ^ 63.

(** The cells of an int64 or bool column, as integers. *)
Definition int_cells (cells : list value) : list Z :=
  map (fun v => default 0 (as_int v)) cells.

(** The cells of a float64 column that are not NaN. *)
Definition float_cells (cells : list value) : list spec_float :=
  flat_map (fun v => match v with
                     | VFloat f => if is_nan f then [] else [f]
                     | _ => []
                     end) cells.

(** The sum of the cells of an object column: Python's [+], starting
    from the first cell. *)
Definition python_sum (cells : list value) : result value :=
  match cells with
  | [] => Ok (VInt 0)
  | v :: rest => fold_left (fun acc x => a ← acc; py_add a x) rest (Ok v)
  end.

(** The mean of the cells of an object column: their sum, which must be
    a number, over their count. *)
Definition python_mean (cells : list value) : result value :=
  match cells with
  | [] => Ok (VFloat S754_nan)
  | _ =>
      s ← python_sum cells;
      let n := to_float64 (Z.of_nat (length cells)) in
      match s with
      | VFloat f => Ok (VFloat (SFdiv prec emax f n))
      | _ =>
          match as_int s with
          | Some z => f ← float_of_int z; Ok (VFloat (SFdiv prec emax f n))
          | None => Raise TypeError
          end
      end
  end.

(** One aggregate over the cells of one group, for a column of type
    [dt]. *)
Definition agg_cell (fn : agg_fn) (dt : dtype) (cells : list value) : result value :=
  match fn with
  | Count => Ok (VInt (Z.of_nat (length (non_missing cells))))
  | Sum =>
      match dt with
      | Int64 | Bool => Ok (VInt (wrap_int64 (Z_sum (int_cells cells))))
      | Float64 => Ok (VFloat (kahan_sum (float_cells cells)))
      | Object => python_sum (non_missing cells)
      end
  | Mean =>
      match dt with
      | Int64 | Bool => Ok (VFloat (mean_of (map to_float64 (int_cells cells))))
      | Float64 => Ok (VFloat (mean_of (float_cells cells)))
      | Object => python_mean (non_missing cells)
      end
  | ListOfSet =>
      if forallb hashable cells then Ok (VList (distinct cells))
      else Raise TypeError
  end.

(** [round] on a cell of the result: means are floats, and so are the
    sums of a float64 column; counts, integer sums, sums of objects and
    lists are left as they are. *)
Definition round_result (decimals : Z) (fn : agg_fn) (dt : dtype) (v : value) : value :=
  match v with
  | VFloat f =>
      match fn, dt with
      | Mean, _ | Sum, Float64 => VFloat (np_round decimals f)
      | _, _ => v
      end
  | _ => v
  end.

Fixpoint traverse {A B : Type} (f : A → result B) (l : list A) : result (list B) :=
  match l with
  | [] => Ok []
  | x :: rest => y ← f x; ys ← traverse f rest; Ok (y :: ys)
  end.

(** The label of a column of the result: the column aggregated and the
    function, written [column.function]; pandas names a lambda
    [<lambda>]. *)
Definition fn_name (fn : agg_fn) : string :=
  match fn with
  | Count => "count"
  | Sum => "sum"
  | Mean => "mean"
  | ListOfSet => "<lambda>"
  end.

Definition metric_name (column : string) (fn : agg_fn) : string :=
  String.append column (String.append "." (fn_name fn)).

Definition key_name (by_key : group_key) : string :=
  match by_key with
  | ByColumn name => name
  | ByDateOf name => name
  end.

Section Aggregation.

(** [column.dt.date] *)
Variable dt_date : list value → result (list value).

(** The key of every row. *)
Definition key_column (df : DataFrame) (by_key : group_key) : result (list value) :=
  match by_key with
  | ByColumn name => df_column df name
  | ByDateOf name => col ← df_column df name; dt_date col
  end.

(** One aggregate of one column, group by group, rounded. *)
Definition agg_column (decimals : Z) (keys index col : list value) (fn : agg_fn)
  : result (list value) :=
  traverse (fun k =>
              v ← agg_cell fn (infer_dtype col) (select keys k col);
              Ok (round_result decimals fn (infer_dtype col) v)) index.

(** The aggregates asked for one column. *)
Definition agg_columns (decimals : Z) (df : DataFrame) (keys index : list value)
    (spec : string * list agg_fn) : result (list (string * list value)) :=
  col ← df_column df (fst spec);
  traverse (fun fn =>
              cells ← agg_column decimals keys index col fn;
              Ok (metric_name (fst spec) fn, cells)) (snd spec).

(** [df.groupby(key).agg(spec).round(n)]: the index of the result comes
    first, under the name of the key; the aggregates follow. *)
Definition pandas_groupby_agg_round (req : agg_request) (df : DataFrame)
  : result DataFrame :=
  keys ← key_column df (by_key req);
  index ← group_index keys;
  cols ← traverse (agg_columns (round_decimals req) df keys index) (agg req);
  Ok ((key_name (by_key req), index) :: concat cols).

End Aggregation.

(** The four registered tools. *)
Inductive tool : Type :=
| GetBedrockLogsDf
| GetModelUsageStats
| GetUserUsageStats
| GetDailyUsageStats.

Section Tools.

Variable json_loads : string → result value.

(** [pd.to_datetime] on a column. *)
Variable to_datetime : list value → result (list value).

(** [df.groupby(key).agg(spec).round(n)], all of it pandas. *)
Variable groupby_agg_round : agg_request → DataFrame → result DataFrame.

(** The integer pydantic reads from a string. *)
Variable int_of_str : string → option Z.

(** Lines 117-143. *)
Definition get_bedrock_logs_df (w : world) (params : DaysParam)
  : result DataFrame * list effect :=
  let '(r, trace) := get_bedrock_logs json_loads w (days params) in
  (logs ← r;
   let df := pd_DataFrame logs in
   if negb (df_empty df) then
     col ← df_column df "timestamp";
     col' ← to_datetime col;
     Ok (df_set_column df "timestamp" col')
   else Ok df,
   trace).

(** Lines 146-172. *)
Definition get_model_usage_stats (w : world) (params : DaysParam)
  : result DataFrame * list effect :=
  let '(r, trace) := get_bedrock_logs_df w params in
  (df ← r;
   if df_empty df then Ok (pd_DataFrame [])
   else groupby_agg_round
          {| by_key := ByColumn "modelId";
             agg := token_metrics;
             round_decimals := 2 |} df,
   trace).

(** Lines 175-202. *)
Definition get_user_usage_stats (w : world) (params : DaysParam)
  : result DataFrame * list effect :=
  let '(r, trace) := get_bedrock_logs_df w params in
  (df ← r;
   if df_empty df then Ok (pd_DataFrame [])
   else groupby_agg_round
          {| by_key := ByColumn "userId";
             agg := token_metrics ++ [("modelId", [ListOfSet])];
             round_decimals := 2 |} df,
   trace).

(** Lines 205-232. *)
Definition get_daily_usage_stats (w : world) (params : DaysParam)
  : result DataFrame * list effect :=
  let '(r, trace) := get_bedrock_logs_df w params in
  (df ← r;
   if df_empty df then Ok (pd_DataFrame [])
   else groupby_agg_round
          {| by_key := ByDateOf "timestamp";
             agg := token_metrics ++ [("modelId", [ListOfSet])];
             round_decimals := 2 |} df,
   trace).

Definition run_tool (t : tool) : world → DaysParam → result DataFrame * list effect :=
  match t with
  | GetBedrockLogsDf => get_bedrock_logs_df
  | GetModelUsageStats => get_model_usage_stats
  | GetUserUsageStats => get_user_usage_stats
  | GetDailyUsageStats => get_daily_usage_stats
  end.

(** A tool call as the server handles it: the arguments are validated
    against [DaysParam], then the tool runs. *)
Definition call_tool (t : tool) (w : world) (i : days_input)
  : result DataFrame * list effect :=
  match validate_DaysParam int_of_str i with
  | Raise e => (Raise e, [])
  | Ok params => run_tool t w params
  end.

End Tools.

(** ** Vocabulary of the statements *)

(** An operand of [totalTokens] as read back from a record: a field that
    is [None] counts as 0. *)
Definition zero_if_none (v : value) : value :=
  match v with
  | VNone => VInt 0
  | _ => v
  end.

(** The envelope's nested field [m[outer][inner]], when both levels are
    there. *)
Definition envelope_field (m : value) (outer inner : string) : option value :=
  match m with
  | VDict d =>
      match d !! outer with
      | Some (VDict d') => d' !! inner
      | _ => None
      end
  | _ => None
  end.

(** The events a list of pages carries, in page order and then in-page
    order. *)
Definition input_events (pages : list value) : list value :=
  flat_map (fun page =>
              match page_events page with
              | Ok events => events
              | Raise _ => []
              end) pages.

(** The exceptions the inner [try] handles by skipping the event. *)
Definition skippable (e : exn) : bool :=
  match e with
  | JSONDecodeError | KeyError => true
  | _ => false
  end.

(** Milliseconds of the wall clock reading [dt], counted from the start
    of day number 0. *)
Definition wall_millis (dt : datetime) : Z :=
  ordinal dt * 86400000 + usec dt / 1000.

(** The whole number a token count stands for; a count that is [None]
    stands for 0. *)
Definition count_value (v : value) : Z :=
  match v with
  | VInt n => n
  | _ => 0
  end.

(** The sum of a field over records. *)
Definition col_sum (f : UsageRecord → value) (l : list UsageRecord) : Z :=
  Z_sum (map (fun r => count_value (f r)) l).

(** The number of records whose field is not null. *)
Definition col_count (f : UsageRecord → value) (l : list UsageRecord) : Z :=
  Z.of_nat (length (List.filter (fun r => negb (is_na (f r))) l)).

(** A token count as the projection delivers it for an envelope of the
    service: absent, or a non-negative int. *)
Definition is_token_count (v : value) : bool :=
  match v with
  | VNone => true
  | VInt n => Z.leb 0 n
  | _ => false
  end.

(** A model identifier: absent, or a string. *)
Definition is_model_id (v : value) : bool :=
  match v with
  | VNone => true
  | VStr _ => true
  | _ => false
  end.

Definition usage_ok (r : UsageRecord) : bool :=
  is_token_count (inputTokens r) && is_token_count (completionTokens r)
  && is_token_count (totalTokens r) && is_model_id (modelId r).

(** The counts of the records add up to numbers whose hundredfold a
    double holds exactly. *)
Definition within_double (l : list UsageRecord) : Prop :=
  100 * col_sum inputTokens l < 2 ^ 53
  ∧ 100 * col_sum completionTokens l < 2 ^ 53
  ∧ 100 * col_sum totalTokens l < 2 ^ 53.

(** Cells that are token counts. *)
Definition token_cells (cells : list value) : Prop :=
  Forall (fun v => is_token_count v = true) cells.

(** The counts a list of cells holds. *)
Definition present (cells : list value) : list Z :=
  flat_map (fun v => match v with
                     | VInt n => [n]
                     | _ => []
                     end) cells.

(** The mean of [count] values that add up to [total], rounded to two
    decimals; NaN when there is no value. *)
Definition mean2 (total count : Z) : spec_float :=
  np_round 2 (if Z.eqb count 0 then S754_nan
              else SFdiv prec emax (to_float64 total) (to_float64 count)).

(** A cell that holds the whole number [n], as an int or as a float. *)
Definition whole_cell (v : value) (n : Z) : Prop :=
  v = VInt n ∨ v = VFloat (to_float64 n).

(** The cell of a table in the column [name], row [i]. *)
Definition table_cell (table : DataFrame) (name : string) (i : nat) : option value :=
  match df_column table name with
  | Ok col => col !! i
  | Raise _ => None
  end.

(** The key the statistics tools group by. *)
Definition grouping (t : tool) : option group_key :=
  match t with
  | GetBedrockLogsDf => None
  | GetModelUsageStats => Some (ByColumn "modelId")
  | GetUserUsageStats => Some (ByColumn "userId")
  | GetDailyUsageStats => Some (ByDateOf "timestamp")
  end.

(** The frame of records that are not empty, with the timestamps as
    pandas converted them. *)
Definition usage_frame (logs : list UsageRecord) (timestamps : list value) : DataFrame :=
  [("timestamp", timestamps);
   ("region", infer_column (map region logs));
   ("modelId", infer_column (map modelId logs));
   ("userId", infer_column (map userId logs));
   ("inputTokens", infer_column (map inputTokens logs));
   ("completionTokens", infer_column (map completionTokens logs));
   ("totalTokens", infer_column (map totalTokens logs))].

(** What a table reports for the group of [records] in row [i]: the
    count, sum and mean of the input counts, and the sum and mean of the
    completion and total counts. *)
Definition reports (table : DataFrame) (i : nat) (records : list UsageRecord) : Prop :=
  table_cell table "inputTokens.count" i = Some (VInt (col_count inputTokens records))
  ∧ (∃ v, table_cell table "inputTokens.sum" i = Some v
          ∧ whole_cell v (col_sum inputTokens records))
  ∧ table_cell table "inputTokens.mean" i
    = Some (VFloat (mean2 (col_sum inputTokens records) (col_count inputTokens records)))
  ∧ (∃ v, table_cell table "completionTokens.sum" i = Some v
          ∧ whole_cell v (col_sum completionTokens records))
  ∧ table_cell table "completionTokens.mean" i
    = Some (VFloat (mean2 (col_sum completionTokens records)
                      (col_count completionTokens records)))
  ∧ (∃ v, table_cell table "totalTokens.sum" i = Some v
          ∧ whole_cell v (col_sum totalTokens records))
  ∧ table_cell table "totalTokens.mean" i
    = Some (VFloat (mean2 (col_sum totalTokens records) (col_count totalTokens records))).

(** What a table reports of the models of the group in row [i]: their
    distinct identifiers, in some order. *)
Definition reports_models (table : DataFrame) (i : nat) (records : list UsageRecord) : Prop :=
  ∃ l, table_cell table "modelId.<lambda>" i = Some (VList l)
       ∧ NoDup l
       ∧ ∀ v, v ∈ l ↔ v ∈ map modelId records.

(** ** Platforms and log sources for the examples *)

(** Seconds from the start of day 0 to 1970-01-01. *)
Definition epoch_seconds : Z := 719163 * 86400.

(** CPython's [local(u)]: the wall clock, in seconds from the start of
    day 0, at the instant [u], for a zone whose UTC offset in seconds
    at the instant [x] seconds after the epoch is [utcoffset x].  A
    wall clock outside years 1..9999 is a [ValueError]. *)
Definition local_seconds (utcoffset : Z → Z) (u : Z) : result Z :=
  let l := u + utcoffset (u - epoch_seconds) in
  if Z.leb 86400 l && Z.ltb l ((max_ordinal + 1) * 86400)
  then Ok l
  else Raise ValueError.

(** CPython's [local_to_seconds]: the instant at which the wall clock
    reads [t], the earlier one in a repeated hour when [fold] is 0 and
    the later one when it is 1.  The search looks a day back (or ahead)
    for the other offset. *)
Definition local_to_seconds (utcoffset : Z → Z) (t : Z) (fold : bool) : result Z :=
  lt ← local_seconds utcoffset t;
  let a := lt - t in
  let u1 := t - a in
  t1 ← local_seconds utcoffset u1;
  let finish (b : Z) : result Z :=
    let u2 := t - b in
    t2 ← local_seconds utcoffset u2;
    if Z.eqb t2 t then Ok u2
    else if Z.eqb t1 t then Ok u1
    else Ok (if fold then Z.min u1 u2 else Z.max u1 u2) in
  if Z.eqb t1 t then
    let u2 := if fold then u1 + 86400 else u1 - 86400 in
    lt' ← local_seconds utcoffset u2;
    let b := lt' - u2 in
    if Z.eqb a b then Ok u1 else finish b
  else finish (t1 - u1).

(** CPython's [timestamp()] of a naive datetime in such a zone: the
    whole seconds since the epoch, plus [microsecond / 1e6]. *)
Definition timestamp_in_zone (utcoffset : Z → Z) (dt : datetime)
  : result spec_float :=
  let t := ordinal dt * 86400 + usec dt / 1000000 in
  seconds ← local_to_seconds utcoffset t (fold dt);
  s ← float_of_int (seconds - epoch_seconds);
  us ← float_of_int (usec dt mod 1000000);
  mega ← float_of_int 1000000;
  Ok (SFadd prec emax s (SFdiv prec emax us mega)).

Definition utc (u : Z) : Z := 0.

(** US Eastern time around the end of daylight saving time in 2026:
    UTC-4 before 06:00 UTC on 1 November (02:00 on the wall clock),
    UTC-5 from then on. *)
Definition us_eastern_autumn_2026 (u : Z) : Z :=
  if Z.ltb u 1793512800 then -14400 else -18000.

(** 2026-11-04 12:00:00.000500 on the wall clock. *)
Definition wednesday_noon : datetime :=
  {| ordinal := 739924; usec := 43200000500; fold := false |}.

(** A client whose paginator yields [pages] and then ends with [fault]. *)
Definition serving (pages : list value) (fault : option exn) : client :=
  {| paginate := fun _ => (pages, fault) |}.

Definition world_of (utcoffset : Z → Z) (c : result client) : world :=
  {| now := wednesday_noon;
     local_timestamp := timestamp_in_zone utcoffset;
     boto3_client := c |}.

(** A decoder given by the finite table of the texts it accepts. *)
Fixpoint table_loads (table : list (string * value)) (s : string) : result value :=
  match table with
  | [] => Raise JSONDecodeError
  | (text, v) :: rest => if String.eqb text s then Ok v else table_loads rest s
  end.

Definition quoted (s : string) : string :=
  String "034" s +:+ String "034" "".

(** An envelope with a model and both token counts. *)
Definition invocation (model : string) (n_in n_out : Z) : value :=
  VDict (<["modelId" := VStr model]>
        (<["input" := VDict {["inputTokenCount" := VInt n_in]}]>
        {["output" := VDict {["outputTokenCount" := VInt n_out]}]})).

Definition invocation_text (model n_in n_out : string) : string :=
  "{" +:+ quoted "modelId" +:+ ": " +:+ quoted model +:+ ", "
  +:+ quoted "input" +:+ ": {" +:+ quoted "inputTokenCount" +:+ ": " +:+ n_in +:+ "}, "
  +:+ quoted "output" +:+ ": {" +:+ quoted "outputTokenCount" +:+ ": " +:+ n_out +:+ "}}".

(** An envelope whose single user message carries its content as a plain
    string rather than as a list of parts. *)
Definition plain_content : value :=
  VDict {["input" :=
    VDict {["inputBodyJson" :=
      VDict {["messages" :=
        VList [VDict (<["role" := VStr "user"]> {["content" := VStr "hello"]})]]}]}]}.

Definition plain_content_text : string :=
  "{" +:+ quoted "input" +:+ ": {" +:+ quoted "inputBodyJson" +:+ ": {"
  +:+ quoted "messages" +:+ ": [{" +:+ quoted "role" +:+ ": " +:+ quoted "user" +:+ ", "
  +:+ quoted "content" +:+ ": " +:+ quoted "hello" +:+ "}]}}}".

(** An envelope whose user message has two text parts, followed by an
    assistant message. *)
Definition two_part_content : value :=
  VDict {["input" :=
    VDict {["inputBodyJson" :=
      VDict {["messages" :=
        VList [VDict (<["role" := VStr "user"]>
                      {["content" := VList [VDict {["text" := VStr "hello"]};
                                            VDict {["text" := VStr "world"]}]]});
               VDict (<["role" := VStr "assistant"]>
                      {["content" := VList [VDict {["text" := VStr "hi"]}]]})]]}]}]}.

(** [json.loads] on the texts of the examples. *)
Definition example_loads : string → result value :=
  table_loads
    [(invocation_text "m1" "10" "5", invocation "m1" 10 5);
     (invocation_text "m1" "20" "0", invocation "m1" 20 0);
     (plain_content_text, plain_content);
     ("{}", VDict ∅)].

Definition log_event (text : string) : value :=
  VDict (<["timestamp" := VInt 1793793000000]> {["message" := VStr text]}).

Definition page_of (events : list value) : value :=
  VDict {["events" := VList events]}.

(** The scenario of the specification: a valid event, a message that is
    not JSON, a second valid event. *)
Definition scenario_events : list value :=
  [log_event (invocation_text "m1" "10" "5");
   log_event "not json";
   log_event (invocation_text "m1" "20" "0")].

Definition usage (model : string) (n_in n_out : Z) : UsageRecord :=
  {| timestamp := VNone; region := VNone; modelId := VStr model; userId := VNone;
     inputTokens := VInt n_in; completionTokens := VInt n_out;
     totalTokens := VInt (n_in + n_out) |}.

(** The reading of strings as integers on the strings of the
    examples. *)
Definition example_int_of_str (s : string) : option Z :=
  if String.eqb s "7" then Some 7
  else if String.eqb s "7.0" then Some 7
  else None.

(** The floats 7.0 and 7.5. *)
Definition seven_point_zero : spec_float := S754_finite false 7881299347898368 (-50).
Definition seven_point_five : spec_float := S754_finite false 8444249301319680 (-50).

(** A pandas stand-in that refuses every call. *)
Definition no_to_datetime (col : list value) : result (list value) :=
  Raise (OtherError "to_datetime").

Definition no_groupby (req : agg_request) (df : DataFrame) : result DataFrame :=
  Raise (OtherError "groupby").

(** The log source of the scenario, on a machine whose clock is set to
    UTC, and the records and the seven-day window of that call. *)
Definition scenario_world : world :=
  world_of utc (Ok (serving [page_of scenario_events] None)).

Definition scenario_logs : list UsageRecord :=
  [usage "m1" 10 5; usage "m1" 20 0].

Definition scenario_window : query :=
  fetch_params 1793188800000 1793793600000.

(** The same source without the message that is not JSON. *)
Definition scenario_world_cleaned : world :=
  world_of utc
    (Ok (serving [page_of [log_event (invocation_text "m1" "10" "5");
                           log_event (invocation_text "m1" "20" "0")]] None)).

(** The scenario with the middle message replaced by the envelope whose
    content is a plain string. *)
Definition plain_content_world : world :=
  world_of utc
    (Ok (serving [page_of [log_event (invocation_text "m1" "10" "5");
                           log_event plain_content_text;
                           log_event (invocation_text "m1" "20" "0")]] None)).

(** A log group that does not exist. *)
Definition missing_group_world : world :=
  world_of utc (Ok (serving [] (Some ResourceNotFoundException))).

(** A source without events. *)
Definition quiet_world (utcoffset : Z → Z) : world :=
  world_of utcoffset (Ok (serving [] None)).

(** ** Shapes of envelopes *)

Definition is_str (v : value) : bool :=
  match v with
  | VStr _ => true
  | _ => false
  end.

(** A content part the loop of lines 68-70 passes over without an
    exception: a dict whose [text] is absent, falsy or a string. *)
Definition text_part_ok (content : value) : bool :=
  match content with
  | VDict d =>
      let t := default VNone (d !! "text") in
      negb (truthy t) || is_str t
  | _ => false
  end.

(** A message the loop of lines 66-70 passes over: a dict that is not a
    user message, or has no truthy content, or has a list of such parts
    as content. *)
Definition message_ok (msg : value) : bool :=
  match msg with
  | VDict d =>
      if py_eq_str (default VNone (d !! "role")) "user" then
        let c := default VNone (d !! "content") in
        negb (truthy c)
        || match c with
           | VList parts => forallb text_part_ok parts
           | _ => false
           end
      else true
  | _ => false
  end.

Definition messages_ok (ms : value) : bool :=
  negb (truthy ms)
  || match ms with
     | VList msgs => forallb message_ok msgs
     | _ => false
     end.

(** The path [input.inputBodyJson.messages] of an envelope: every level
    is absent or a dict, and the messages, if any, are of that shape. *)
Definition prompt_path_ok (m : value) : bool :=
  match m with
  | VDict d =>
      match d !! "input" with
      | None => true
      | Some (VDict i) =>
          match i !! "inputBodyJson" with
          | None => true
          | Some (VDict b) => messages_ok (default VNone (b !! "messages"))
          | Some _ => false
          end
      | Some _ => false
      end
  | _ => false
  end.

Definition absent_or_dict (o : option value) : bool :=
  match o with
  | None => true
  | Some (VDict _) => true
  | Some _ => false
  end.

(** What the projection of lines 74-87 needs of an envelope: a dict
    whose [identity], [input] and [output] are absent or dicts, and
    whose two counts, 0 for an absent one, can be added. *)
Definition projection_ok (m : value) : bool :=
  match m with
  | VDict d =>
      absent_or_dict (d !! "identity")
      && absent_or_dict (d !! "input")
      && absent_or_dict (d !! "output")
      && match py_add (default (VInt 0) (envelope_field m "input" "inputTokenCount"))
                      (default (VInt 0) (envelope_field m "output" "outputTokenCount")) with
         | Ok _ => true
         | Raise _ => false
         end
  | _ => false
  end.

(** The record an event contributes, if it contributes one. *)
Definition kept_record (json_loads : string → result value) (event : value)
  : option UsageRecord :=
  match process_event json_loads event with
  | Ok r => Some r
  | Raise _ => None
  end.

(** A page whose events the loop of line 54 can visit. *)
Definition page_readable (page : value) : bool :=
  match page_events page with
  | Ok _ => true
  | Raise _ => false
  end.

(** ** Further log sources for the examples *)

(** An envelope whose input count is an explicit JSON null. *)
Definition null_count : value :=
  VDict {["input" := VDict {["inputTokenCount" := VNone]}]}.

Definition null_count_text : string :=
  "{" +:+ quoted "input" +:+ ": {" +:+ quoted "inputTokenCount" +:+ ": null}}".

(** [json.loads] on the texts of the further examples. *)
Definition more_loads : string → result value :=
  table_loads
    [(invocation_text "m1" "10" "5", invocation "m1" 10 5);
     (invocation_text "m1" "20" "0", invocation "m1" 20 0);
     (null_count_text, null_count);
     ("{}", VDict ∅)].

(** The scenario followed by the envelope with the null count. *)
Definition null_count_world : world :=
  world_of utc
    (Ok (serving [page_of scenario_events; page_of [log_event null_count_text]] None)).

(** The scenario with its events spread over three pages, the second of
    which has no [events] key. *)
Definition scenario_world_repaged : world :=
  world_of utc
    (Ok (serving [page_of [log_event (invocation_text "m1" "10" "5");
                           log_event "not json"];
                  VDict ∅;
                  page_of [log_event (invocation_text "m1" "20" "0")]] None)).

(** A quiet source on a machine on US Eastern time whose clock reads
    01:30 on 1 November 2026 for the second time. *)
Definition repeated_hour_world : world :=
  {| now := {| ordinal := 739921; usec := 5400000000; fold := true |};
     local_timestamp := timestamp_in_zone us_eastern_autumn_2026;
     boto3_client := Ok (serving [] None) |}.

(** A source whose only event is the empty envelope. *)
Definition empty_envelope_world : world :=
  world_of utc (Ok (serving [page_of [log_event "{}"]] None)).

(** The record of the empty envelope. *)
Definition null_usage : UsageRecord :=
  {| timestamp := VNone; region := VNone; modelId := VNone; userId := VNone;
     inputTokens := VNone; completionTokens := VNone; totalTokens := VInt 0 |}.

(** A source with one complete envelope and the empty envelope. *)
Definition missing_count_world : world :=
  world_of utc
    (Ok (serving [page_of [log_event (invocation_text "m1" "10" "5");
                           log_event "{}"]] None)).

(** A pandas stand-in that leaves the timestamps as they are. *)
Definition keep_timestamps (col : list value) : result (list value) :=
  Ok col.

(** A stand-in for [.dt.date] on timestamps kept as ISO strings: the
    first ten characters. *)
Definition iso_date (col : list value) : result (list value) :=
  traverse (fun v => match v with
                     | VStr s => Ok (VStr (substring 0 10 s))
                     | VNone => Ok VNone
                     | _ => Raise AttributeError
                     end) col.

(** Three records of two callers on two days; one lacks its input
    count. *)
Definition three_calls : list UsageRecord :=
  [{| timestamp := VStr "2026-11-02T09:00:00Z"; region := VNone;
      modelId := VStr "m1"; userId := VStr "alice";
      inputTokens := VInt 10; completionTokens := VInt 5; totalTokens := VInt 15 |};
   {| timestamp := VStr "2026-11-03T10:30:00Z"; region := VNone;
      modelId := VStr "m2"; userId := VStr "bob";
      inputTokens := VNone; completionTokens := VInt 7; totalTokens := VInt 7 |};
   {| timestamp := VStr "2026-11-03T23:59:59Z"; region := VNone;
      modelId := VStr "m2"; userId := VStr "alice";
      inputTokens := VInt 21; completionTokens := VInt 0; totalTokens := VInt 21 |}].

(** * Properties *)

(** ** The model on concrete inputs *)

Example add_bool_int : py_add (VBool true) (VInt 2) = Ok (VInt 3).
Proof. reflexivity. Qed.

Example add_none_int : py_add VNone (VInt 0) = Raise TypeError.
Proof. reflexivity. Qed.

Example add_str_int : py_add (VInt 5) (VStr " ") = Raise TypeError.
Proof. reflexivity. Qed.

Example get_on_list : py_get (VList []) "input" (VDict ∅) = Raise AttributeError.
Proof. reflexivity. Qed.

Example strip_both_ends : py_strip (VStr "  hello world ") = Ok (VStr "hello world").
Proof. reflexivity. Qed.

Example prompt_of_two_parts : user_prompt two_part_content = Ok (VStr "hello world").
Proof. vm_compute; reflexivity. Qed.

Example prompt_of_plain_content : user_prompt plain_content = Raise AttributeError.
Proof. vm_compute; reflexivity. Qed.

Example timedelta_bound :
  timedelta 999999999 = Ok 999999999 ∧ timedelta 1000000000 = Raise OverflowError.
Proof. by split. Qed.

Example seven_days_utc :
  time_range (quiet_world utc) 7 = Ok (1793188800000, 1793793600000).
Proof. vm_compute; reflexivity. Qed.

(** A no-break space (U+00A0, bytes C2 A0) and a thin space (U+2009,
    bytes E2 80 89) are stripped like a blank. *)
Example strip_unicode_space :
  py_strip (VStr (String (ascii_of_nat 194) (String (ascii_of_nat 160)
                   (String.append "hi"
                      (String (ascii_of_nat 226) (String (ascii_of_nat 128)
                         (String (ascii_of_nat 137) EmptyString)))))))
  = Ok (VStr "hi").
Proof. vm_compute; reflexivity. Qed.

(** Noon of the first day of year 1 has no timestamp: the search for
    its offset leaves the range of [datetime]. *)
Example first_day_has_no_timestamp :
  timestamp_in_zone utc {| ordinal := 1; usec := 43200000000; fold := false |}
  = Raise ValueError.
Proof. vm_compute; reflexivity. Qed.

(** What the [days] field reads from JSON values. *)
Example lax_int_examples :
  lax_int example_int_of_str (VStr "7") = Ok 7
  ∧ lax_int example_int_of_str (VFloat seven_point_zero) = Ok 7
  ∧ lax_int example_int_of_str (VBool true) = Ok 1
  ∧ lax_int example_int_of_str (VInt (-3)) = Ok (-3)
  ∧ lax_int example_int_of_str (VFloat seven_point_five) = Raise ValidationError
  ∧ lax_int example_int_of_str VNone = Raise ValidationError.
Proof. vm_compute. done. Qed.

(** The scenario of the specification: two records, both of model
    [m1], in the order of their events. *)
Example scenario_extraction :
  get_bedrock_logs example_loads scenario_world 7
  = (Ok [usage "m1" 10 5; usage "m1" 20 0],
     [FilterLogEvents (fetch_params 1793188800000 1793793600000)]).
Proof. vm_compute; reflexivity. Qed.

(** ** Results and Python operations *)

Lemma bind_Ok {A B} (m : result A) (k : A → result B) (b : B) :
  (x ← m; k x) = Ok b ↔ ∃ a, m = Ok a ∧ k a = Ok b.
Proof.
  destruct m as [a|e]; simpl; split.
  - eauto.
  - intros (a' & Ha & Hk). by injection Ha as ->.
  - discriminate.
  - intros (a' & Ha & _). discriminate.
Qed.

Lemma bind_Raise {A B} (m : result A) (k : A → result B) (x : exn) :
  (a ← m; k a) = Raise x ↔ m = Raise x ∨ ∃ a, m = Ok a ∧ k a = Raise x.
Proof.
  destruct m as [a|e]; simpl; split.
  - eauto.
  - intros [?|(a' & [= <-] & ?)]; [discriminate | done].
  - intros [= <-]. by left.
  - intros [[= <-]|(a' & ? & _)]; [done | discriminate].
Qed.

Ltac bind_inv H :=
  repeat (apply bind_Ok in H; destruct H as (? & ? & H)).

(** Hypotheses that evaluate the same expression name the same value. *)
Ltac same_reads :=
  repeat match goal with
  | H1 : ?e = Ok ?a, H2 : ?e = Ok ?b |- _ =>
      assert (a = b) by congruence; subst b; clear H2
  end.

Lemma py_add_None_l b : py_add VNone b = Raise TypeError.
Proof. unfold py_add. simpl. by destruct (as_int b), b. Qed.

Lemma py_add_None_r a : py_add a VNone = Raise TypeError.
Proof. unfold py_add. destruct (as_int a); simpl; [done|]. by destruct a. Qed.

(** The two reads of one key, with defaults [None] and 0, differ only
    when the key is absent. *)
Lemma py_get_defaults v k x a :
  py_get v k VNone = Ok x → py_get v k (VInt 0) = Ok a →
  x = a ∨ (x = VNone ∧ a = VInt 0).
Proof.
  destruct v; simpl; try discriminate.
  destruct (d !! k); simpl; intros [= <-] [= <-]; auto.
Qed.

Lemma operand_l x a b t :
  x = a ∨ (x = VNone ∧ a = VInt 0) →
  py_add a b = Ok t → zero_if_none x = a.
Proof.
  intros [->|[-> ->]] Hadd; [|done].
  destruct a; try done. by rewrite py_add_None_l in Hadd.
Qed.

Lemma operand_r x a b t :
  x = b ∨ (x = VNone ∧ b = VInt 0) →
  py_add a b = Ok t → zero_if_none x = b.
Proof.
  intros [->|[-> ->]] Hadd; [|done].
  destruct b; try done. by rewrite py_add_None_r in Hadd.
Qed.

(** ** The projection of one envelope *)

Lemma filtered_event_total m r :
  filtered_event m = Ok r →
  py_add (zero_if_none (inputTokens r)) (zero_if_none (completionTokens r))
  = Ok (totalTokens r).
Proof.
  unfold filtered_event. intros H. bind_inv H.
  injection H as <-. simpl. same_reads.
  match goal with
  | Hi : py_get ?i "inputTokenCount" VNone = Ok ?x,
    Hi0 : py_get ?i "inputTokenCount" (VInt 0) = Ok ?a,
    Ho : py_get ?o "outputTokenCount" VNone = Ok ?y,
    Ho0 : py_get ?o "outputTokenCount" (VInt 0) = Ok ?b,
    Hadd : py_add ?a ?b = Ok _ |- _ =>
      pose proof (py_get_defaults _ _ _ _ Hi Hi0) as Hx;
      pose proof (py_get_defaults _ _ _ _ Ho Ho0) as Hy;
      rewrite (operand_l _ _ _ _ Hx Hadd), (operand_r _ _ _ _ Hy Hadd);
      exact Hadd
  end.
Qed.

(** A nested [get] with an empty dict as the outer default reads the
    envelope field. *)
Lemma nested_get_field m outer inner dflt i x :
  py_get m outer (VDict ∅) = Ok i → py_get i inner dflt = Ok x →
  x = default dflt (envelope_field m outer inner).
Proof.
  destruct m; simpl; try discriminate.
  intros [= <-]. destruct (d !! outer) as [v|]; simpl.
  - destruct v; simpl; try discriminate. by intros [= <-].
  - intros [= <-]. by rewrite lookup_empty.
Qed.

Lemma filtered_event_fields m r :
  filtered_event m = Ok r →
  inputTokens r = default VNone (envelope_field m "input" "inputTokenCount")
  ∧ completionTokens r = default VNone (envelope_field m "output" "outputTokenCount")
  ∧ py_add (default (VInt 0) (envelope_field m "input" "inputTokenCount"))
           (default (VInt 0) (envelope_field m "output" "outputTokenCount"))
    = Ok (totalTokens r).
Proof.
  unfold filtered_event. intros H. bind_inv H.
  injection H as <-. simpl. same_reads.
  repeat match goal with
  | Ho : py_get m ?outer (VDict ∅) = Ok ?i, Hi : py_get ?i ?inner ?dflt = Ok ?x |- _ =>
      apply (nested_get_field _ _ _ _ _ _ Ho) in Hi
  end.
  by subst.
Qed.

(** ** Which exceptions the code after decoding can raise *)

Lemma py_get_raise v k dflt x : py_get v k dflt = Raise x → x = AttributeError.
Proof. destruct v; simpl; congruence. Qed.

Lemma py_iter_raise v x : py_iter v = Raise x → x = TypeError.
Proof. destruct v; simpl; congruence. Qed.

Lemma py_strip_raise v x : py_strip v = Raise x → x = AttributeError.
Proof. destruct v; simpl; congruence. Qed.

Lemma float_of_int_raise z x : float_of_int z = Raise x → x = OverflowError.
Proof.
  unfold float_of_int. destruct (binary_normalize prec emax z 0 false); congruence.
Qed.

Lemma py_add_raise a b x : py_add a b = Raise x → skippable x = false.
Proof.
  unfold py_add. intros H.
  destruct (as_int a) as [n|], (as_int b) as [n'|]; [discriminate| | |].
  - destruct b; try (by injection H as <-).
    destruct (float_of_int n) eqn:Hf; simpl in H; [discriminate|].
    injection H as <-. by rewrite (float_of_int_raise _ _ Hf).
  - destruct a; try (by injection H as <-).
    destruct (float_of_int n') eqn:Hf; simpl in H; [discriminate|].
    injection H as <-. by rewrite (float_of_int_raise _ _ Hf).
  - destruct a, b; try discriminate; by injection H as <-.
Qed.

(** A subscript guarded by a truthy [get] of the same key finds it. *)
Lemma guarded_getitem v k x :
  py_get v k VNone = Ok x → truthy x = true → py_getitem v k = Ok x.
Proof.
  destruct v; simpl; try discriminate.
  destruct (d !! k); simpl; intros [= <-]; [done | discriminate].
Qed.

Lemma content_loop_raise contents : ∀ prompt x,
  content_loop contents prompt = Raise x → skippable x = false.
Proof.
  induction contents as [|content rest IH]; intros prompt x H; simpl in H;
    [discriminate|].
  apply bind_Raise in H as [H | (text & Htext & H)];
    [by rewrite (py_get_raise _ _ _ _ H)|].
  destruct (truthy text) eqn:Htruthy; [|by eapply IH].
  rewrite (guarded_getitem _ _ _ Htext Htruthy) in H. simpl in H.
  apply bind_Raise in H as [H | (piece & _ & H)]; [by eapply py_add_raise|].
  apply bind_Raise in H as [H | (prompt' & _ & H)]; [by eapply py_add_raise|].
  by eapply IH.
Qed.

Lemma message_loop_raise msgs : ∀ prompt x,
  message_loop msgs prompt = Raise x → skippable x = false.
Proof.
  induction msgs as [|msg rest IH]; intros prompt x H; simpl in H; [discriminate|].
  apply bind_Raise in H as [H | (role & Hrole & H)];
    [by rewrite (py_get_raise _ _ _ _ H)|].
  destruct (py_eq_str role "user"); simpl in H; [|by eapply IH].
  apply bind_Raise in H as [H | (cond & Hcond & H)].
  - apply bind_Raise in H as [H | (c & _ & H)]; [|discriminate].
    by rewrite (py_get_raise _ _ _ _ H).
  - apply bind_Ok in Hcond as (c & Hc & [= <-]).
    destruct (truthy c) eqn:Htruthy; [|by eapply IH].
    rewrite (guarded_getitem _ _ _ Hc Htruthy) in H. simpl in H.
    apply bind_Raise in H as [H | (contents & _ & H)];
      [by rewrite (py_iter_raise _ _ H)|].
    apply bind_Raise in H as [H | (prompt' & _ & H)];
      [by eapply content_loop_raise|].
    by eapply IH.
Qed.

(** The chain of [get]s that guards the loop finds its three keys when
    it ends on a truthy value. *)
Lemma guarded_messages m i b ms :
  py_get m "input" (VDict ∅) = Ok i →
  py_get i "inputBodyJson" (VDict ∅) = Ok b →
  py_get b "messages" VNone = Ok ms →
  truthy ms = true →
  py_getitem m "input" = Ok i
  ∧ py_getitem i "inputBodyJson" = Ok b
  ∧ py_getitem b "messages" = Ok ms.
Proof.
  intros Hi Hb Hms Htruthy.
  pose proof (guarded_getitem _ _ _ Hms Htruthy) as Hms'.
  destruct m as [| | | | | |d]; simpl in Hi; try discriminate.
  destruct (d !! "input") as [v|] eqn:Hd; simpl in Hi; injection Hi as <-.
  - destruct v as [| | | | | |d']; simpl in Hb; try discriminate.
    destruct (d' !! "inputBodyJson") as [v'|] eqn:Hd'; simpl in Hb; injection Hb as <-.
    + simpl. by rewrite Hd, Hd'.
    + simpl in Hms'. by rewrite lookup_empty in Hms'.
  - simpl in Hb. rewrite lookup_empty in Hb. simpl in Hb. injection Hb as <-.
    simpl in Hms'. by rewrite lookup_empty in Hms'.
Qed.

Lemma user_prompt_raise m x : user_prompt m = Raise x → skippable x = false.
Proof.
  unfold user_prompt. intros H.
  apply bind_Raise in H as [H | (i & Hi & H)]; [by rewrite (py_get_raise _ _ _ _ H)|].
  apply bind_Raise in H as [H | (b & Hb & H)]; [by rewrite (py_get_raise _ _ _ _ H)|].
  apply bind_Raise in H as [H | (ms & Hms & H)]; [by rewrite (py_get_raise _ _ _ _ H)|].
  destruct (truthy ms) eqn:Htruthy; [|discriminate].
  destruct (guarded_messages _ _ _ _ Hi Hb Hms Htruthy) as (Hi' & Hb' & Hms').
  rewrite Hi' in H. simpl in H. rewrite Hb' in H. simpl in H.
  rewrite Hms' in H. simpl in H.
  apply bind_Raise in H as [H | (msgs & _ & H)]; [by rewrite (py_iter_raise _ _ H)|].
  apply bind_Raise in H as [H | (prompt & _ & H)]; [by eapply message_loop_raise|].
  by rewrite (py_strip_raise _ _ H).
Qed.

Lemma filtered_event_raise m x : filtered_event m = Raise x → skippable x = false.
Proof.
  unfold filtered_event. intros H.
  repeat (apply bind_Raise in H as [H | (? & _ & H)];
          [first [by rewrite (py_get_raise _ _ _ _ H) | by eapply py_add_raise]|]).
  discriminate.
Qed.

(** Once the message is decoded, no exception of the event is one the
    inner [try] handles: the [KeyError] handler can only be reached by
    an event without a message. *)
Lemma decoded_event_not_skipped json_loads event m x :
  envelope json_loads event = Ok m →
  process_event json_loads event = Raise x →
  skippable x = false.
Proof.
  intros Hm H. unfold process_event in H. rewrite Hm in H. simpl in H.
  apply bind_Raise in H as [H | (p & _ & H)];
    [by eapply user_prompt_raise | by eapply filtered_event_raise].
Qed.

(** ** The loops over events and pages *)

Section LoopFacts.

Variable json_loads : string → result value.

Lemma event_loop_kept events : ∀ acc logs,
  event_loop json_loads events acc = Ok logs →
  ∃ kept new,
    sublist kept events
    ∧ Forall2 (fun ev r => process_event json_loads ev = Ok r) kept new
    ∧ logs = (acc ++ new)%list.
Proof.
  induction events as [|ev rest IH]; intros acc logs H; simpl in H.
  - injection H as <-. exists [], []. by rewrite app_nil_r.
  - destruct (process_event json_loads ev) as [r|x] eqn:Hev.
    + apply IH in H as (kept & new & Hsub & Hall & ->).
      exists (ev :: kept), (r :: new). split_and!.
      * by apply sublist_skip.
      * by constructor.
      * by rewrite <- app_assoc.
    + assert (event_loop json_loads rest acc = Ok logs) as H'
        by (destruct x; try discriminate; exact H).
      apply IH in H' as (kept & new & Hsub & Hall & ->).
      exists kept, new. split_and!; [by apply sublist_cons | done | done].
Qed.

Lemma page_loop_kept pages : ∀ acc logs,
  page_loop json_loads pages acc = Ok logs →
  ∃ kept new,
    sublist kept (input_events pages)
    ∧ Forall2 (fun ev r => process_event json_loads ev = Ok r) kept new
    ∧ logs = (acc ++ new)%list.
Proof.
  induction pages as [|page rest IH]; intros acc logs H; simpl in H.
  - injection H as <-. exists [], []. by rewrite app_nil_r.
  - bind_inv H. rename x into events, x0 into acc'.
    match goal with
    | He : event_loop _ _ _ = Ok _ |- _ =>
        apply event_loop_kept in He as (k1 & n1 & Hs1 & Ha1 & ->)
    end.
    apply IH in H as (k2 & n2 & Hs2 & Ha2 & ->).
    exists (k1 ++ k2)%list, (n1 ++ n2)%list. split_and!.
    + simpl. match goal with Hp : page_events page = Ok _ |- _ => rewrite Hp end.
      by apply sublist_app.
    + by apply Forall2_app.
    + by rewrite <- app_assoc.
Qed.

(** A skipped event leaves no mark on the loop. *)
Lemma event_loop_skip pre bad post : ∀ acc,
  (process_event json_loads bad = Raise JSONDecodeError
   ∨ process_event json_loads bad = Raise KeyError) →
  event_loop json_loads (pre ++ bad :: post) acc
  = event_loop json_loads (pre ++ post) acc.
Proof.
  intros acc Hbad. revert acc.
  induction pre as [|ev pre IH]; intros acc; simpl.
  - by destruct Hbad as [-> | ->].
  - destruct (process_event json_loads ev) as [r|x]; [apply IH|].
    destruct x; try done; apply IH.
Qed.

Lemma page_loop_skip before page page' after pre bad post : ∀ acc,
  page_events page = Ok (pre ++ bad :: post)%list →
  page_events page' = Ok (pre ++ post)%list →
  (process_event json_loads bad = Raise JSONDecodeError
   ∨ process_event json_loads bad = Raise KeyError) →
  page_loop json_loads (before ++ page :: after) acc
  = page_loop json_loads (before ++ page' :: after) acc.
Proof.
  intros acc Hp Hp' Hbad. revert acc.
  induction before as [|p before IH]; intros acc; simpl.
  - rewrite Hp, Hp'. simpl. by rewrite event_loop_skip.
  - destruct (page_events p) as [evs|]; simpl; [|done].
    destruct (event_loop json_loads evs acc); simpl; [apply IH | done].
Qed.

(** A loop that completes has met no exception besides the two it
    handles. *)
Lemma event_loop_Ok_skippable events : ∀ acc logs,
  event_loop json_loads events acc = Ok logs →
  ∀ ev x, ev ∈ events → process_event json_loads ev = Raise x → skippable x = true.
Proof.
  induction events as [|ev0 rest IH]; intros acc logs H ev x Hin Hx.
  - by apply elem_of_nil in Hin.
  - simpl in H. apply elem_of_cons in Hin as [-> | Hin].
    + rewrite Hx in H. by destruct x.
    + destruct (process_event json_loads ev0) as [r|y]; [by eapply IH|].
      destruct y; try discriminate; by eapply IH.
Qed.

Lemma page_loop_Ok_pages pages : ∀ acc logs,
  page_loop json_loads pages acc = Ok logs →
  ∀ page, page ∈ pages → ∃ events, page_events page = Ok events.
Proof.
  induction pages as [|p rest IH]; intros acc logs H page Hin.
  - by apply elem_of_nil in Hin.
  - simpl in H. bind_inv H. apply elem_of_cons in Hin as [-> | Hin]; [eauto|].
    by eapply IH.
Qed.

Lemma page_loop_Ok_skippable pages : ∀ acc logs,
  page_loop json_loads pages acc = Ok logs →
  ∀ ev x, ev ∈ input_events pages →
    process_event json_loads ev = Raise x → skippable x = true.
Proof.
  induction pages as [|p rest IH]; intros acc logs H ev x Hin Hx.
  - by apply elem_of_nil in Hin.
  - simpl in H. bind_inv H. simpl in Hin.
    match goal with Hp : page_events p = Ok _ |- _ => rewrite Hp in Hin end.
    apply elem_of_app in Hin as [Hin | Hin].
    + by eapply event_loop_Ok_skippable.
    + by eapply IH.
Qed.

(** ** The fetcher *)

Lemma get_bedrock_logs_unfold w days_back c s e :
  boto3_client w = Ok c → time_range w days_back = Ok (s, e) →
  get_bedrock_logs json_loads w days_back
  = match try_fetch json_loads c (fetch_params s e) with
    | Ok logs => (Ok logs, [FilterLogEvents (fetch_params s e)])
    | Raise x => (Ok [], [FilterLogEvents (fetch_params s e); Printed (on_fault x)])
    end.
Proof. intros Hc Ht. unfold get_bedrock_logs. by rewrite Hc, Ht. Qed.

Lemma try_fetch_unfold c q pages fault :
  paginate c q = (pages, fault) →
  try_fetch json_loads c q
  = (logs ← page_loop json_loads pages [];
     match fault with Some x => Raise x | None => Ok logs end).
Proof. intros H. unfold try_fetch. by rewrite H. Qed.

(** Every returned record is the projection of the envelope of an input
    event. *)
Lemma get_bedrock_logs_origin w days_back logs trace r :
  get_bedrock_logs json_loads w days_back = (Ok logs, trace) → r ∈ logs →
  ∃ ev m, envelope json_loads ev = Ok m ∧ filtered_event m = Ok r.
Proof.
  unfold get_bedrock_logs. intros H Hr.
  destruct (boto3_client w) as [c|]; [|discriminate].
  destruct (time_range w days_back) as [[s e]|]; [|discriminate].
  destruct (try_fetch json_loads c (fetch_params s e)) as [l|x] eqn:Hf.
  - injection H as <- <-. unfold try_fetch in Hf.
    destruct (paginate c (fetch_params s e)) as [pages fault].
    bind_inv Hf. destruct fault; [discriminate|]. injection Hf as ->.
    match goal with
    | Hp : page_loop _ _ _ = Ok _ |- _ =>
        apply page_loop_kept in Hp as (kept & new & _ & Hall & ->)
    end.
    simpl in Hr. apply list_elem_of_lookup in Hr as [i Hi].
    destruct (Forall2_lookup_r _ _ _ _ _ Hall Hi) as (ev & _ & Hev).
    unfold process_event in Hev.
    apply bind_Ok in Hev as (m & Hm & Hev).
    apply bind_Ok in Hev as (p & _ & Hev). eauto.
  - injection H as <- <-. by apply elem_of_nil in Hr.
Qed.

End LoopFacts.

(** * The claims *)

(** ** C4: the total is the sum of the two counts *)

(** C4. Every record [get_bedrock_logs] returns satisfies
    [totalTokens = inputTokens + completionTokens], an operand that is
    [None] in the record counting as 0; and the record comes from the
    envelope of an input event whose fields
    [input.inputTokenCount] and [output.outputTokenCount] are the two
    operands, each replaced by 0 when the envelope does not have it. *)
Theorem total_tokens_is_sum json_loads w days_back logs trace r :
  get_bedrock_logs json_loads w days_back = (Ok logs, trace) →
  r ∈ logs →
  py_add (zero_if_none (inputTokens r)) (zero_if_none (completionTokens r))
  = Ok (totalTokens r)
  ∧ ∃ ev m,
      envelope json_loads ev = Ok m
      ∧ inputTokens r = default VNone (envelope_field m "input" "inputTokenCount")
      ∧ completionTokens r
        = default VNone (envelope_field m "output" "outputTokenCount")
      ∧ py_add (default (VInt 0) (envelope_field m "input" "inputTokenCount"))
               (default (VInt 0) (envelope_field m "output" "outputTokenCount"))
        = Ok (totalTokens r).
Proof.
  intros Hrun Hr.
  destruct (get_bedrock_logs_origin _ _ _ _ _ _ Hrun Hr) as (ev & m & Hm & Hf).
  split; [by eapply filtered_event_total|].
  exists ev, m. split; [done|]. by apply filtered_event_fields.
Qed.

Lemma total_tokens_is_sum_witness :
  get_bedrock_logs example_loads scenario_world 7
  = (Ok scenario_logs, [FilterLogEvents scenario_window])
  ∧ py_add (zero_if_none (VInt 10)) (zero_if_none (VInt 5)) = Ok (VInt 15).
Proof.
  assert (get_bedrock_logs example_loads scenario_world 7
          = (Ok scenario_logs, [FilterLogEvents scenario_window])) as Hrun
    by (vm_compute; reflexivity).
  split; [exact Hrun|].
  refine (proj1 (total_tokens_is_sum example_loads scenario_world 7 scenario_logs
                   [FilterLogEvents scenario_window] (usage "m1" 10 5) Hrun _)).
  apply list_elem_of_here.
Defined.

(** ** C5: a count the envelope lacks *)

(** C5, the claim as written fails: the envelope [{}] has no
    [input.inputTokenCount], its record is emitted, and the record's
    [inputTokens] is [None], not 0. *)
Lemma missing_count_is_null :
  envelope example_loads (log_event "{}") = Ok (VDict ∅)
  ∧ envelope_field (VDict ∅) "input" "inputTokenCount" = None
  ∧ ∃ r, fst (get_bedrock_logs example_loads
                (world_of utc (Ok (serving [page_of [log_event "{}"]] None))) 7)
         = Ok [r]
         ∧ inputTokens r = VNone
         ∧ inputTokens r ≠ VInt 0.
Proof.
  split; [by vm_compute|]. split; [by vm_compute|].
  eexists. split; [vm_compute; reflexivity|]. by split.
Qed.

(** C5, amended. In the record projected from an envelope that lacks
    [input.inputTokenCount], the field [inputTokens] is [None]; the 0
    stands in for it only as an operand of [totalTokens].  The same
    holds of [output.outputTokenCount] and [completionTokens]. *)
Theorem missing_count_projection json_loads event m r :
  envelope json_loads event = Ok m →
  process_event json_loads event = Ok r →
  (envelope_field m "input" "inputTokenCount" = None →
     inputTokens r = VNone
     ∧ py_add (VInt 0) (zero_if_none (completionTokens r)) = Ok (totalTokens r))
  ∧ (envelope_field m "output" "outputTokenCount" = None →
     completionTokens r = VNone
     ∧ py_add (zero_if_none (inputTokens r)) (VInt 0) = Ok (totalTokens r)).
Proof.
  intros Hm Hev. unfold process_event in Hev. rewrite Hm in Hev. simpl in Hev.
  apply bind_Ok in Hev as (p & _ & Hf).
  pose proof (filtered_event_total _ _ Hf) as Htot.
  destruct (filtered_event_fields _ _ Hf) as (Hi & Ho & _).
  split; intros Hnone.
  - rewrite Hnone in Hi. simpl in Hi. rewrite Hi in Htot. by rewrite Hi.
  - rewrite Hnone in Ho. simpl in Ho. rewrite Ho in Htot. by rewrite Ho.
Qed.

Lemma missing_count_projection_witness :
  envelope example_loads (log_event "{}") = Ok (VDict ∅)
  ∧ process_event example_loads (log_event "{}")
    = Ok {| timestamp := VNone; region := VNone; modelId := VNone; userId := VNone;
            inputTokens := VNone; completionTokens := VNone;
            totalTokens := VInt 0 |}
  ∧ envelope_field (VDict ∅) "input" "inputTokenCount" = None
  ∧ py_add (VInt 0) (zero_if_none VNone) = Ok (VInt 0).
Proof.
  assert (envelope example_loads (log_event "{}") = Ok (VDict ∅)) as Hm
    by (vm_compute; reflexivity).
  assert (process_event example_loads (log_event "{}")
          = Ok {| timestamp := VNone; region := VNone; modelId := VNone;
                  userId := VNone; inputTokens := VNone; completionTokens := VNone;
                  totalTokens := VInt 0 |}) as Hev
    by (vm_compute; reflexivity).
  assert (envelope_field (VDict ∅) "input" "inputTokenCount" = None) as Hnone
    by (vm_compute; reflexivity).
  split; [exact Hm|]. split; [exact Hev|]. split; [exact Hnone|].
  exact (proj2 (proj1 (missing_count_projection example_loads _ _ _ Hm Hev) Hnone)).
Defined.

(** ** C8: no more records than events, in the order of the events *)

(** C8. The records returned are at most as many as the events the
    pages carried, and they are the projections, in order, of a
    subsequence of those events. *)
Theorem extraction_length_and_order json_loads w days_back c s e pages fault logs trace :
  boto3_client w = Ok c →
  time_range w days_back = Ok (s, e) →
  paginate c (fetch_params s e) = (pages, fault) →
  get_bedrock_logs json_loads w days_back = (Ok logs, trace) →
  (length logs ≤ length (input_events pages))%nat
  ∧ ∃ kept,
      sublist kept (input_events pages)
      ∧ Forall2 (fun ev r => process_event json_loads ev = Ok r) kept logs.
Proof.
  intros Hc Ht Hp Hrun.
  rewrite (get_bedrock_logs_unfold _ _ _ _ _ _ Hc Ht) in Hrun.
  rewrite (try_fetch_unfold _ _ _ _ _ Hp) in Hrun.
  assert (∃ kept, sublist kept (input_events pages)
          ∧ Forall2 (fun ev r => process_event json_loads ev = Ok r) kept logs)
    as (kept & Hsub & Hall).
  { destruct (page_loop json_loads pages []) as [l|x] eqn:Hloop; simpl in Hrun.
    - apply page_loop_kept in Hloop as (kept & new & Hsub & Hall & ->).
      destruct fault; injection Hrun as <- _.
      + exists []. split; [apply sublist_nil_l | constructor].
      + by exists kept.
    - injection Hrun as <- _. exists []. split; [apply sublist_nil_l | constructor]. }
  split; [|by exists kept].
  rewrite <- (Forall2_length _ _ _ Hall). by apply sublist_length.
Qed.

Lemma extraction_length_and_order_witness :
  get_bedrock_logs example_loads scenario_world 7
  = (Ok scenario_logs, [FilterLogEvents scenario_window])
  ∧ (length scenario_logs ≤ length (input_events [page_of scenario_events]))%nat.
Proof.
  assert (get_bedrock_logs example_loads scenario_world 7
          = (Ok scenario_logs, [FilterLogEvents scenario_window])) as Hrun
    by (vm_compute; reflexivity).
  split; [exact Hrun|].
  refine (proj1 (extraction_length_and_order example_loads scenario_world 7
                   (serving [page_of scenario_events] None)
                   1793188800000 1793793600000
                   [page_of scenario_events] None scenario_logs
                   [FilterLogEvents scenario_window] _ _ _ Hrun)).
  - reflexivity.
  - vm_compute; reflexivity.
  - reflexivity.
Defined.

(** ** C2: what a malformed event does to its batch *)

(** C2, the claim as written fails: an envelope that is valid JSON but
    carries its message content as a plain string raises
    [AttributeError], which is not one of the two exceptions handled
    per event; the two valid events around it are lost with it. *)
Lemma unexpected_shape_aborts_batch :
  example_loads plain_content_text = Ok plain_content
  ∧ process_event example_loads (log_event plain_content_text) = Raise AttributeError
  ∧ get_bedrock_logs example_loads plain_content_world 7
    = (Ok [], [FilterLogEvents scenario_window; Printed (ErrorMessage AttributeError)])
  ∧ get_bedrock_logs example_loads scenario_world_cleaned 7
    = (Ok scenario_logs, [FilterLogEvents scenario_window]).
Proof. split_and!; vm_compute; reflexivity. Qed.

(** C2, amended. An event whose message is not valid JSON
    ([JSONDecodeError]), or which has no message at all ([KeyError]),
    is skipped on its own: the call returns what it returns on the same
    pages without that event. *)
Theorem skipped_event_leaves_rest json_loads w w' days_back c c' s e
    before page page' after fault pre bad post :
  boto3_client w = Ok c → boto3_client w' = Ok c' →
  time_range w days_back = Ok (s, e) → time_range w' days_back = Ok (s, e) →
  paginate c (fetch_params s e) = ((before ++ page :: after)%list, fault) →
  paginate c' (fetch_params s e) = ((before ++ page' :: after)%list, fault) →
  page_events page = Ok (pre ++ bad :: post)%list →
  page_events page' = Ok (pre ++ post)%list →
  ((∃ text, py_getitem bad "message" = Ok (VStr text)
            ∧ json_loads text = Raise JSONDecodeError)
   ∨ py_getitem bad "message" = Raise KeyError) →
  get_bedrock_logs json_loads w days_back = get_bedrock_logs json_loads w' days_back.
Proof.
  intros Hc Hc' Ht Ht' Hp Hp' Hev Hev' Hbad.
  rewrite (get_bedrock_logs_unfold _ _ _ _ _ _ Hc Ht).
  rewrite (get_bedrock_logs_unfold _ _ _ _ _ _ Hc' Ht').
  rewrite (try_fetch_unfold _ _ _ _ _ Hp), (try_fetch_unfold _ _ _ _ _ Hp').
  rewrite (page_loop_skip json_loads before page page' after pre bad post [] Hev Hev');
    [done|].
  unfold process_event, envelope.
  destruct Hbad as [(text & -> & Hl) | ->]; simpl; [left | right]; [|done].
  by rewrite Hl.
Qed.

Lemma skipped_event_leaves_rest_witness :
  example_loads "not json" = Raise JSONDecodeError
  ∧ get_bedrock_logs example_loads scenario_world 7
    = get_bedrock_logs example_loads scenario_world_cleaned 7.
Proof.
  split; [vm_compute; reflexivity|].
  refine (skipped_event_leaves_rest example_loads scenario_world scenario_world_cleaned 7
            _ _ 1793188800000 1793793600000
            [] (page_of scenario_events) _ [] None
            [log_event (invocation_text "m1" "10" "5")] (log_event "not json")
            [log_event (invocation_text "m1" "20" "0")] _ _ _ _ _ _ _ _ _).
  - reflexivity.
  - reflexivity.
  - vm_compute; reflexivity.
  - vm_compute; reflexivity.
  - reflexivity.
  - reflexivity.
  - vm_compute; reflexivity.
  - vm_compute; reflexivity.
  - left. exists "not json". split; vm_compute; reflexivity.
Defined.

(** ** C3: which exceptions the fetcher keeps to itself *)

(** C3, the claim as written fails: the time range is computed before
    the [try] block is entered, and [timedelta] refuses ten thousand
    million days with an [OverflowError] that reaches the caller. *)
Lemma window_overflow_propagates :
  get_bedrock_logs example_loads (quiet_world utc) 10000000000
  = (Raise OverflowError, []).
Proof. vm_compute; reflexivity. Qed.

(** C3, amended. Once the client is created and the time range is
    computed, [get_bedrock_logs] returns a list whatever the fetch does:
    a missing log group or stream gives the empty list and the
    not-found message, any other exception raised while paginating or
    extracting gives the empty list and the error message. *)
Theorem fetch_faults_become_empty json_loads w days_back c s e :
  boto3_client w = Ok c →
  time_range w days_back = Ok (s, e) →
  ∃ logs trace,
    get_bedrock_logs json_loads w days_back = (Ok logs, trace)
    ∧ (paginate c (fetch_params s e) = ([], Some ResourceNotFoundException) →
         logs = []
         ∧ trace = [FilterLogEvents (fetch_params s e); Printed NotFoundMessage])
    ∧ (∀ x, try_fetch json_loads c (fetch_params s e) = Raise x →
         logs = []
         ∧ trace = [FilterLogEvents (fetch_params s e); Printed (on_fault x)]).
Proof.
  intros Hc Ht. rewrite (get_bedrock_logs_unfold _ _ _ _ _ _ Hc Ht).
  destruct (try_fetch json_loads c (fetch_params s e)) as [l|x] eqn:Hf.
  - exists l, [FilterLogEvents (fetch_params s e)]. split_and!; [done| |done].
    intros Hp. rewrite (try_fetch_unfold _ _ _ _ _ Hp) in Hf. discriminate.
  - exists [], [FilterLogEvents (fetch_params s e); Printed (on_fault x)].
    split_and!; [done| |by intros ? [= <-]].
    intros Hp. rewrite (try_fetch_unfold _ _ _ _ _ Hp) in Hf.
    by injection Hf as <-.
Qed.

Lemma fetch_faults_become_empty_witness :
  boto3_client missing_group_world = Ok (serving [] (Some ResourceNotFoundException))
  ∧ time_range missing_group_world 7 = Ok (1793188800000, 1793793600000)
  ∧ ∃ logs trace,
      get_bedrock_logs example_loads missing_group_world 7 = (Ok logs, trace)
      ∧ logs = []
      ∧ trace = [FilterLogEvents scenario_window; Printed NotFoundMessage].
Proof.
  assert (time_range missing_group_world 7 = Ok (1793188800000, 1793793600000)) as Ht
    by (vm_compute; reflexivity).
  split; [reflexivity|]. split; [exact Ht|].
  destruct (fetch_faults_become_empty example_loads missing_group_world 7
              (serving [] (Some ResourceNotFoundException))
              1793188800000 1793793600000 eq_refl Ht)
    as (logs & trace & Hrun & Hmissing & _).
  exists logs, trace. split; [exact Hrun|]. exact (Hmissing eq_refl).
Defined.

(** ** C10: a fault discards what was accumulated *)

(** C10. When the paginator ends with an exception, or a page cannot be
    read, or some event raises anything but [JSONDecodeError] and
    [KeyError], [get_bedrock_logs] returns the empty list, whatever the
    events before the fault had contributed. *)
Theorem fault_discards_accumulated json_loads w days_back c s e pages fault :
  boto3_client w = Ok c →
  time_range w days_back = Ok (s, e) →
  paginate c (fetch_params s e) = (pages, fault) →
  (fault ≠ None
   ∨ (∃ page x, page ∈ pages ∧ page_events page = Raise x)
   ∨ (∃ ev x, ev ∈ input_events pages
              ∧ process_event json_loads ev = Raise x ∧ skippable x = false)) →
  ∃ x, get_bedrock_logs json_loads w days_back
       = (Ok [], [FilterLogEvents (fetch_params s e); Printed (on_fault x)]).
Proof.
  intros Hc Ht Hp Hcause.
  rewrite (get_bedrock_logs_unfold _ _ _ _ _ _ Hc Ht).
  rewrite (try_fetch_unfold _ _ _ _ _ Hp).
  destruct (page_loop json_loads pages []) as [l|x] eqn:Hloop; simpl; [|by exists x].
  destruct fault as [x|]; [by exists x|].
  exfalso. destruct Hcause as [Hf | [(page & x & Hin & Hx) | (ev & x & Hin & Hx & Hs)]].
  - done.
  - destruct (page_loop_Ok_pages _ _ _ _ Hloop page Hin) as [evs Hevs]. congruence.
  - pose proof (page_loop_Ok_skippable _ _ _ _ Hloop ev x Hin Hx). congruence.
Qed.

Lemma fault_discards_accumulated_witness :
  process_event example_loads (log_event (invocation_text "m1" "10" "5"))
  = Ok (usage "m1" 10 5)
  ∧ process_event example_loads (log_event plain_content_text) = Raise AttributeError
  ∧ ∃ x, get_bedrock_logs example_loads plain_content_world 7
         = (Ok [], [FilterLogEvents scenario_window; Printed (on_fault x)]).
Proof.
  assert (process_event example_loads (log_event plain_content_text)
          = Raise AttributeError) as Hbad by (vm_compute; reflexivity).
  split; [vm_compute; reflexivity|]. split; [exact Hbad|].
  refine (fault_discards_accumulated example_loads plain_content_world 7
            _ 1793188800000 1793793600000 _ None eq_refl _ eq_refl _).
  - vm_compute; reflexivity.
  - right. right. exists (log_event plain_content_text), AttributeError.
    split; [|split; [exact Hbad | reflexivity]].
    apply list_elem_of_further, list_elem_of_here.
Defined.

(** ** C6: nothing fetched, nothing grouped *)

(** C6. When the fetcher returns the empty list, each of the four tools
    returns the empty data frame and raises nothing.  The pandas
    operations are parameters of the statement: the result is the same
    for every [to_datetime] and every [groupby_agg_round], also for ones
    that raise on every call, so neither is reached. *)
Theorem empty_fetch_empty_result json_loads to_datetime groupby_agg_round t w params trace :
  get_bedrock_logs json_loads w (days params) = (Ok [], trace) →
  run_tool json_loads to_datetime groupby_agg_round t w params
  = (Ok (pd_DataFrame []), trace)
  ∧ df_empty (pd_DataFrame []) = true.
Proof.
  intros Hrun. split; [|done].
  destruct t; simpl;
    unfold get_model_usage_stats, get_user_usage_stats, get_daily_usage_stats,
           get_bedrock_logs_df;
    by rewrite Hrun.
Qed.

Lemma empty_fetch_empty_result_witness :
  get_bedrock_logs example_loads missing_group_world 7
  = (Ok [], [FilterLogEvents scenario_window; Printed NotFoundMessage])
  ∧ run_tool example_loads no_to_datetime no_groupby GetModelUsageStats
      missing_group_world {| days := 7 |}
    = (Ok [], [FilterLogEvents scenario_window; Printed NotFoundMessage]).
Proof.
  assert (get_bedrock_logs example_loads missing_group_world 7
          = (Ok [], [FilterLogEvents scenario_window; Printed NotFoundMessage])) as Hrun
    by (vm_compute; reflexivity).
  split; [exact Hrun|].
  exact (proj1 (empty_fetch_empty_result example_loads no_to_datetime no_groupby
                  GetModelUsageStats missing_group_world {| days := 7 |} _ Hrun)).
Defined.

(** ** C1: what the tool interface makes of [days] *)

(** C1, the claim as written fails on both counts: [days = -1] passes
    validation, and the fetch is issued with a window that starts a day
    after it ends; and [days = 7.0], which is not an integer, is taken
    as 7 and fetched for. *)
Lemma negative_days_reach_the_fetch :
  call_tool example_loads no_to_datetime no_groupby example_int_of_str GetBedrockLogsDf
    (quiet_world utc) (DaysGiven (VInt (-1)))
  = (Ok [], [FilterLogEvents (fetch_params 1793880000000 1793793600000)])
  ∧ call_tool example_loads no_to_datetime no_groupby example_int_of_str GetBedrockLogsDf
      (quiet_world utc) (DaysGiven (VFloat seven_point_zero))
    = (Ok [], [FilterLogEvents scenario_window]).
Proof. split; vm_compute; reflexivity. Qed.

(** C1, amended. An omitted [days] is 7.  A [days] value is accepted,
    and the fetch issued for its window, when the [int] field can read
    an integer from it: an integer, negative ones included; a boolean
    (as 0 or 1); a float that is a whole number of 64-bit size; a
    string that reads as an integer.  It is rejected with a validation
    error, before anything is fetched, when it is [null], a list, an
    object, a float with a fractional part, NaN, an infinity or a whole
    number outside the 64-bit range, or a string that does not read as
    an integer. *)
Theorem days_validation json_loads to_datetime groupby_agg_round int_of_str t w :
  call_tool json_loads to_datetime groupby_agg_round int_of_str t w DaysOmitted
  = run_tool json_loads to_datetime groupby_agg_round t w {| days := 7 |}
  ∧ (∀ n, call_tool json_loads to_datetime groupby_agg_round int_of_str t w
            (DaysGiven (VInt n))
          = run_tool json_loads to_datetime groupby_agg_round t w {| days := n |})
  ∧ (∀ b, call_tool json_loads to_datetime groupby_agg_round int_of_str t w
            (DaysGiven (VBool b))
          = run_tool json_loads to_datetime groupby_agg_round t w
              {| days := if b then 1 else 0 |})
  ∧ (∀ f n, whole_of_float f = Some n → (- 2 ^ 63 < n < 2 ^ 63)%Z →
            call_tool json_loads to_datetime groupby_agg_round int_of_str t w
              (DaysGiven (VFloat f))
            = run_tool json_loads to_datetime groupby_agg_round t w {| days := n |})
  ∧ (∀ s n, int_of_str s = Some n →
            call_tool json_loads to_datetime groupby_agg_round int_of_str t w
              (DaysGiven (VStr s))
            = run_tool json_loads to_datetime groupby_agg_round t w {| days := n |})
  ∧ (∀ v, (v = VNone ∨ (∃ l, v = VList l) ∨ (∃ d, v = VDict d)
           ∨ (∃ f, v = VFloat f ∧ whole_of_float f = None)
           ∨ (∃ f n, v = VFloat f ∧ whole_of_float f = Some n
                     ∧ (n ≤ - 2 ^ 63 ∨ 2 ^ 63 ≤ n)%Z)
           ∨ (∃ s, v = VStr s ∧ int_of_str s = None)) →
          call_tool json_loads to_datetime groupby_agg_round int_of_str t w (DaysGiven v)
          = (Raise ValidationError, []))
  ∧ (∀ i n c s e,
       validate_DaysParam int_of_str i = Ok {| days := n |} →
       boto3_client w = Ok c → time_range w n = Ok (s, e) →
       ∃ r rest,
         call_tool json_loads to_datetime groupby_agg_round int_of_str t w i
         = (r, FilterLogEvents (fetch_params s e) :: rest)).
Proof.
  split_and!; try done.
  - intros f n Hf [Hlo Hhi]. unfold call_tool. simpl. rewrite Hf.
    replace (Z.ltb (- 2 ^ 63) n) with true by (symmetry; by apply Z.ltb_lt).
    by replace (Z.ltb n (2 ^ 63)) with true by (symmetry; by apply Z.ltb_lt).
  - intros s n Hs. unfold call_tool. simpl. by rewrite Hs.
  - intros v Hv. unfold call_tool.
    destruct Hv as [-> | [[l ->] | [[d ->] | [(f & -> & Hf) | [(f & n & -> & Hf & Hn)
                   | (s & -> & Hs)]]]]]; simpl; try done.
    + by rewrite Hf.
    + rewrite Hf. destruct Hn as [Hn | Hn].
      * by replace (Z.ltb (- 2 ^ 63) n) with false by (symmetry; by apply Z.ltb_ge).
      * replace (Z.ltb n (2 ^ 63)) with false by (symmetry; by apply Z.ltb_ge).
        by rewrite andb_false_r.
    + by rewrite Hs.
  - intros i n c s e Hi Hc Ht. unfold call_tool. rewrite Hi.
    pose proof (get_bedrock_logs_unfold json_loads _ _ _ _ _ Hc Ht) as Hrun.
    destruct t; simpl;
      unfold get_model_usage_stats, get_user_usage_stats, get_daily_usage_stats,
             get_bedrock_logs_df; simpl; rewrite Hrun;
      destruct (try_fetch json_loads c (fetch_params s e)); eauto.
Qed.

Lemma days_validation_witness :
  time_range (quiet_world utc) (-1) = Ok (1793880000000, 1793793600000)
  ∧ (∃ r rest,
       call_tool example_loads no_to_datetime no_groupby example_int_of_str
         GetUserUsageStats (quiet_world utc) (DaysGiven (VInt (-1)))
       = (r, FilterLogEvents (fetch_params 1793880000000 1793793600000) :: rest))
  ∧ whole_of_float seven_point_five = None
  ∧ call_tool example_loads no_to_datetime no_groupby example_int_of_str
      GetUserUsageStats (quiet_world utc) (DaysGiven (VFloat seven_point_five))
    = (Raise ValidationError, []).
Proof.
  assert (time_range (quiet_world utc) (-1) = Ok (1793880000000, 1793793600000)) as Ht
    by (vm_compute; reflexivity).
  assert (whole_of_float seven_point_five = None) as Hf by (vm_compute; reflexivity).
  pose proof (days_validation example_loads no_to_datetime no_groupby example_int_of_str
                GetUserUsageStats (quiet_world utc))
    as (_ & _ & _ & _ & _ & Hrefused & Hfetch).
  split; [exact Ht|]. split; [|split; [exact Hf|]].
  - exact (Hfetch (DaysGiven (VInt (-1))) (-1) (serving [] None)
             1793880000000 1793793600000 eq_refl eq_refl Ht).
  - apply Hrefused. right. right. right. left. exists seven_point_five. by split.
Defined.

(** ** C9: the length of the time window *)

(** C9, the claim as written fails: on a machine on US Eastern time,
    seven days back from noon on 4 November 2026 reach across the end
    of daylight saving time, and the window is an hour longer than
    seven days. *)
Lemma window_across_dst_change :
  snd (get_bedrock_logs example_loads (quiet_world us_eastern_autumn_2026) 7)
  = [FilterLogEvents (fetch_params 1793203200000 1793811600000)]
  ∧ 1793811600000 - 1793203200000 = 7 * 86400000 + 3600000.
Proof. split; vm_compute; reflexivity. Qed.

(** C9, amended. The window runs from the wall-clock reading
    [days_back] days before [now] to [now], both taken from one reading
    of the clock and converted to epoch milliseconds; when the two
    conversions apply the same offset, its length is exactly
    [days_back * 86400000] milliseconds. *)
Theorem window_duration_same_offset json_loads w days_back c start off :
  (0 ≤ days_back)%Z → (days_back ≤ 999999999)%Z →
  boto3_client w = Ok c →
  datetime_sub (now w) days_back = Ok start →
  epoch_millis w start = Ok (wall_millis start - off) →
  epoch_millis w (now w) = Ok (wall_millis (now w) - off) →
  ∃ q rest,
    snd (get_bedrock_logs json_loads w days_back) = FilterLogEvents q :: rest
    ∧ startTime q = wall_millis start - off
    ∧ endTime q = wall_millis (now w) - off
    ∧ endTime q - startTime q = days_back * 86400000.
Proof.
  intros Hpos Hmax Hc Hsub Hs He.
  assert (time_range w days_back
          = Ok (wall_millis start - off, wall_millis (now w) - off)) as Ht.
  { unfold time_range, timedelta.
    replace (Z.leb (Z.abs days_back) 999999999) with true
      by (symmetry; apply Z.leb_le; lia).
    simpl. rewrite Hsub. simpl. rewrite Hs. simpl. by rewrite He. }
  rewrite (get_bedrock_logs_unfold _ _ _ _ _ _ Hc Ht).
  exists (fetch_params (wall_millis start - off) (wall_millis (now w) - off)).
  assert (wall_millis (now w) - wall_millis start = days_back * 86400000) as Hlen.
  { unfold datetime_sub in Hsub.
    destruct (Z.leb 1 (ordinal (now w) - days_back)
              && Z.leb (ordinal (now w) - days_back) max_ordinal); [|discriminate].
    injection Hsub as <-. unfold wall_millis. simpl. lia. }
  destruct (try_fetch json_loads c _); eexists; simpl; split_and!; try done; lia.
Qed.

Lemma window_duration_same_offset_witness :
  datetime_sub (now (quiet_world utc)) 7 = Ok {| ordinal := 739917; usec := 43200000500; fold := false |}
  ∧ ∃ q rest,
      snd (get_bedrock_logs example_loads (quiet_world utc) 7)
      = FilterLogEvents q :: rest
      ∧ endTime q - startTime q = 7 * 86400000.
Proof.
  split; [reflexivity|].
  destruct (window_duration_same_offset example_loads (quiet_world utc) 7
              (serving [] None) {| ordinal := 739917; usec := 43200000500; fold := false |}
              (719163 * 86400000))
    as (q & rest & Hq & _ & _ & Hlen).
  - lia.
  - lia.
  - reflexivity.
  - reflexivity.
  - vm_compute; reflexivity.
  - vm_compute; reflexivity.
  - exists q, rest. split; [exact Hq | exact Hlen].
Defined.

(** * Further properties of the extractor *)

Lemma py_add_str_r t s v :
  py_add t (VStr s) = Ok v → ∃ t', t = VStr t' ∧ v = VStr (String.append t' s).
Proof.
  unfold py_add. destruct t as [|[]| | | | |]; simpl; try discriminate.
  intros [= <-]. eauto.
Qed.

Lemma content_loop_ok parts : ∀ p,
  (∃ s, content_loop parts (VStr p) = Ok (VStr s)) ↔ forallb text_part_ok parts = true.
Proof.
  induction parts as [|c rest IH]; intros p; simpl.
  - split; [done | eauto].
  - destruct c as [| | | | | |d]; simpl;
      try (split; [by intros [? ?] | done]).
    destruct (d !! "text") as [t|] eqn:Ht; simpl.
    + destruct (truthy t) eqn:Htruthy; simpl; [|apply IH].
      destruct t as [|[]| | | | |]; simpl in Htruthy |- *; try discriminate;
        try (split; [by intros [? ?] | done]).
      apply IH.
    + apply IH.
Qed.

Lemma content_loop_str parts : ∀ p v,
  content_loop parts (VStr p) = Ok v → ∃ s, v = VStr s.
Proof.
  induction parts as [|c rest IH]; intros p v H; simpl in H.
  - injection H as <-. eauto.
  - apply bind_Ok in H as (t & _ & H).
    destruct (truthy t); [|by eapply IH].
    apply bind_Ok in H as (t' & _ & H).
    apply bind_Ok in H as (piece & Hpiece & H).
    apply py_add_str_r in Hpiece as (t'' & -> & ->).
    simpl in H. by eapply IH.
Qed.

Lemma decide_list (c : value) : (∃ l, c = VList l) ∨ (∀ l, c ≠ VList l).
Proof. destruct c; eauto. Qed.

Lemma utf8_chars_cons a s : ∃ c rest, utf8_chars (String a s) = c :: rest.
Proof.
  simpl. destruct (utf8_chars s) as [|[|d t] chars]; eauto.
  destruct (is_continuation d); eauto.
Qed.

(** A truthy string or dict has a first item, and that item is a
    string; the other values that are not lists cannot be iterated. *)
Lemma py_iter_not_list c :
  truthy c = true → (∀ l, c ≠ VList l) →
  (∃ x, py_iter c = Raise x) ∨ (∃ s rest, py_iter c = Ok (VStr s :: rest)).
Proof.
  intros Htruthy Hlist. destruct c as [| | | |s|l|d]; simpl in *; eauto.
  - right. destruct s as [|a s]; [discriminate|].
    destruct (utf8_chars_cons a s) as (c & rest & ->). simpl. eauto.
  - by destruct (Hlist l).
  - right. destruct (map_to_list d) as [|[k v] l] eqn:Hl; simpl; [|eauto].
    apply map_to_list_empty_iff in Hl as ->. by rewrite map_size_empty in Htruthy.
Qed.

Lemma contents_not_list c p (k : value → result value) :
  truthy c = true → (∀ l, c ≠ VList l) →
  ∃ x, (contents ← py_iter c; prompt' ← content_loop contents p; k prompt') = Raise x.
Proof.
  intros Htruthy Hlist.
  destruct (py_iter_not_list c Htruthy Hlist) as [[x ->] | (s & rest & ->)]; simpl; eauto.
Qed.

Lemma msgs_not_list ms p (k : value → result value) :
  truthy ms = true → (∀ l, ms ≠ VList l) →
  ∃ x, (msgs ← py_iter ms; prompt ← message_loop msgs p; k prompt) = Raise x.
Proof.
  intros Htruthy Hlist.
  destruct (py_iter_not_list ms Htruthy Hlist) as [[x ->] | (s & rest & ->)]; simpl; eauto.
Qed.

Lemma message_loop_ok msgs : ∀ p,
  (∃ s, message_loop msgs (VStr p) = Ok (VStr s)) ↔ forallb message_ok msgs = true.
Proof.
  induction msgs as [|msg rest IH]; intros p; simpl.
  - split; [done | eauto].
  - destruct msg as [| | | | | |d]; simpl;
      try (split; [by intros [? ?] | done]).
    destruct (py_eq_str (default VNone (d !! "role")) "user"); simpl; [|apply IH].
    destruct (d !! "content") as [c|] eqn:Hc; simpl; [|apply IH].
    destruct (truthy c) eqn:Htruthy; simpl; [|apply IH].
    destruct (decide_list c) as [[l ->] | Hlist].
    + simpl. destruct (content_loop l (VStr p)) as [v|x] eqn:Hloop; simpl.
      * destruct (content_loop_str _ _ _ Hloop) as [s ->].
        assert (forallb text_part_ok l = true) as ->
          by (apply (content_loop_ok l p); eauto).
        apply IH.
      * split; [by intros [? ?]|]. intros [Hparts _]%andb_prop.
        apply (content_loop_ok l p) in Hparts as [s Hs]. congruence.
    + destruct (contents_not_list c (VStr p) (message_loop rest) Htruthy Hlist)
        as [x ->].
      split; [by intros [? ?]|]. destruct c; try done. by destruct (Hlist l).
Qed.

Lemma message_loop_str msgs : ∀ p v,
  message_loop msgs (VStr p) = Ok v → ∃ s, v = VStr s.
Proof.
  induction msgs as [|msg rest IH]; intros p v H; simpl in H.
  - injection H as <-. eauto.
  - apply bind_Ok in H as (role & _ & H).
    apply bind_Ok in H as (cond & _ & H).
    destruct cond; [|by eapply IH].
    apply bind_Ok in H as (c & _ & H).
    apply bind_Ok in H as (contents & _ & H).
    apply bind_Ok in H as (p' & Hp' & H).
    destruct (content_loop_str _ _ _ Hp') as [s ->]. by eapply IH.
Qed.

(** The prompt of a chain of [get]s that ends on these messages. *)
Lemma prompt_of_messages ms (k : result value) :
  k = (if truthy ms then
         msgs ← py_iter ms; prompt ← message_loop msgs (VStr ""); py_strip prompt
       else Ok (VStr "")) →
  ((∃ v, k = Ok v) ↔ messages_ok ms = true) ∧ (∀ v, k = Ok v → ∃ s, v = VStr s).
Proof.
  intros ->. unfold messages_ok.
  destruct (truthy ms) eqn:Htruthy; simpl; [|split; [split; eauto | intros ? [= <-]; eauto]].
  destruct (decide_list ms) as [[l ->] | Hlist].
  - simpl. destruct (message_loop l (VStr "")) as [v|x] eqn:Hloop; simpl.
    + destruct (message_loop_str _ _ _ Hloop) as [s ->]. simpl.
      split; [|intros ? [= <-]; eauto].
      split; [intros _; apply (message_loop_ok l ""); eauto | eauto].
    + split; [|discriminate].
      split; [by intros [? ?]|]. intros [s Hs]%(message_loop_ok l ""). congruence.
  - destruct (msgs_not_list ms (VStr "") py_strip Htruthy Hlist) as [x ->].
    split; [|discriminate].
    split; [by intros [? ?]|]. destruct ms; try done. by destruct (Hlist l).
Qed.

(** ** X1: which envelopes the prompt loop accepts *)

(** X1. The prompt computation of lines 60-71 returns, and then returns
    a string, exactly for the envelopes in which every level of
    [input.inputBodyJson.messages] is absent or a dict and the messages,
    when truthy, are a list of dicts whose user messages carry no
    content or a list of dicts with an absent, falsy or string [text];
    on every other envelope it raises. *)
Theorem prompt_succeeds_iff_well_shaped m :
  ((∃ v, user_prompt m = Ok v) ↔ prompt_path_ok m = true)
  ∧ (∀ v, user_prompt m = Ok v → ∃ s, v = VStr s).
Proof.
  destruct m as [| | | | | |d];
    try (split; [split; [by intros [? ?] | done] | discriminate]).
  unfold user_prompt, prompt_path_ok. simpl.
  destruct (d !! "input") as [i|] eqn:Hd; simpl.
  - destruct i as [| | | | | |di];
      try (split; [split; [by intros [? ?] | done] | discriminate]).
    simpl. destruct (di !! "inputBodyJson") as [b|] eqn:Hdi; simpl.
    + destruct b as [| | | | | |db];
        try (split; [split; [by intros [? ?] | done] | discriminate]).
      simpl. apply prompt_of_messages.
      destruct (truthy (default VNone (db !! "messages"))) eqn:Htruthy; [|done].
      destruct (db !! "messages") as [ms|]; [done|discriminate].
    + rewrite lookup_empty. simpl. split; [split; eauto | intros ? [= <-]; eauto].
  - rewrite lookup_empty. simpl. rewrite lookup_empty. simpl.
    split; [split; eauto | intros ? [= <-]; eauto].
Qed.

(** ** X2: which envelopes the projection accepts *)

(** X2. The projection of lines 74-87 yields a record exactly for the
    envelopes that are dicts whose [identity], [input] and [output] are
    each absent or a dict and whose two token counts, an absent one
    taken as 0, Python can add; on every other envelope it raises. *)
Theorem projection_succeeds_iff m :
  (∃ r, filtered_event m = Ok r) ↔ projection_ok m = true.
Proof.
  destruct m as [| | | | | |d]; try (split; [by intros [? ?] | done]).
  unfold filtered_event, projection_ok, envelope_field. simpl.
  destruct (d !! "identity") as [[| | | | | |idn]|]; simpl;
    try (split; [by intros [? ?] | done]);
  (destruct (d !! "input") as [[| | | | | |inp]|]; simpl;
    try (split; [by intros [? ?] | done]));
  (destruct (d !! "output") as [[| | | | | |out]|]; simpl;
    try (split; [by intros [? ?] | done]));
  rewrite ?lookup_empty; simpl;
  try match goal with
      | |- context [py_add ?a ?b] => destruct (py_add a b); simpl
      end;
  (split; [by intros [? ?] || eauto | eauto || done]).
Qed.

(** ** X3: which events are skipped *)

(** X3. An event is skipped by one of the two handlers of the inner
    [try] exactly when it has no [message] key, or when its message is
    a string on which the decoder raises [JSONDecodeError] (or
    [KeyError]); nothing that happens after decoding is ever skipped. *)
Theorem skipped_iff_no_message_or_undecodable json_loads event x :
  (process_event json_loads event = Raise x ∧ skippable x = true)
  ↔ ((py_getitem event "message" = Raise KeyError ∧ x = KeyError)
     ∨ (∃ text, py_getitem event "message" = Ok (VStr text)
                ∧ json_loads text = Raise x ∧ skippable x = true)).
Proof.
  split.
  - intros [H Hskip]. unfold process_event in H.
    apply bind_Raise in H as [H | (m & Hm & H)].
    + unfold envelope in H. apply bind_Raise in H as [H | (body & Hbody & H)].
      * left. destruct event as [| | | | | |d]; simpl in H;
          try (injection H as <-; discriminate).
        simpl. destruct (d !! "message"); [discriminate|]. by injection H as <-.
      * right. destruct body; simpl in H; try (injection H as <-; discriminate).
        eauto.
    + apply bind_Raise in H as [H | (p & _ & H)].
      * apply user_prompt_raise in H. congruence.
      * apply filtered_event_raise in H. congruence.
  - unfold process_event, envelope.
    intros [[-> ->] | (text & -> & Hl & Hskip)]; simpl; [done|]. by rewrite Hl.
Qed.

(** ** X4: an envelope without the fields *)

(** X4. An envelope that decodes to a dict with no [input], [output]
    and [identity] is not skipped: its record is emitted with the
    top-level fields it has, [None] for the caller and for both counts,
    and 0 as total. *)
Theorem missing_fields_emitted_as_null json_loads event d :
  envelope json_loads event = Ok (VDict d) →
  d !! "input" = None → d !! "output" = None → d !! "identity" = None →
  process_event json_loads event
  = Ok {| timestamp := default VNone (d !! "timestamp");
          region := default VNone (d !! "region");
          modelId := default VNone (d !! "modelId");
          userId := VNone;
          inputTokens := VNone;
          completionTokens := VNone;
          totalTokens := VInt 0 |}.
Proof.
  intros Hm Hi Ho Hidn. unfold process_event. rewrite Hm. simpl.
  unfold user_prompt, filtered_event. simpl.
  rewrite Hi, Ho, Hidn. simpl. by rewrite !lookup_empty.
Qed.

Lemma missing_fields_emitted_as_null_witness :
  envelope example_loads (log_event "{}") = Ok (VDict ∅)
  ∧ process_event example_loads (log_event "{}")
    = Ok {| timestamp := VNone; region := VNone; modelId := VNone; userId := VNone;
            inputTokens := VNone; completionTokens := VNone; totalTokens := VInt 0 |}.
Proof.
  assert (envelope example_loads (log_event "{}") = Ok (VDict ∅)) as Hm
    by (vm_compute; reflexivity).
  split; [exact Hm|].
  exact (missing_fields_emitted_as_null example_loads (log_event "{}") ∅ Hm
           eq_refl eq_refl eq_refl).
Defined.

(** ** X5: a count that is null *)

Lemma bad_event_empties_fetch json_loads w days_back c s e pages fault ev x :
  boto3_client w = Ok c →
  time_range w days_back = Ok (s, e) →
  paginate c (fetch_params s e) = (pages, fault) →
  ev ∈ input_events pages →
  process_event json_loads ev = Raise x → skippable x = false →
  ∃ y, get_bedrock_logs json_loads w days_back
       = (Ok [], [FilterLogEvents (fetch_params s e); Printed (on_fault y)]).
Proof.
  intros Hc Ht Hp Hin Hx Hskip.
  rewrite (get_bedrock_logs_unfold _ _ _ _ _ _ Hc Ht).
  rewrite (try_fetch_unfold _ _ _ _ _ Hp).
  destruct (page_loop json_loads pages []) as [l|y] eqn:Hloop; simpl; [|by exists y].
  pose proof (page_loop_Ok_skippable _ _ _ _ Hloop ev x Hin Hx). congruence.
Qed.

Lemma null_count_raises json_loads ev m :
  envelope json_loads ev = Ok m →
  (envelope_field m "input" "inputTokenCount" = Some VNone
   ∨ envelope_field m "output" "outputTokenCount" = Some VNone) →
  ∃ x, process_event json_loads ev = Raise x ∧ skippable x = false.
Proof.
  intros Hm Hnull.
  destruct (process_event json_loads ev) as [r|x] eqn:Hev.
  - exfalso. unfold process_event in Hev. rewrite Hm in Hev. simpl in Hev.
    apply bind_Ok in Hev as (p & _ & Hf).
    destruct (filtered_event_fields _ _ Hf) as (_ & _ & Hadd).
    destruct Hnull as [Hn | Hn]; rewrite Hn in Hadd; simpl in Hadd.
    + by rewrite py_add_None_l in Hadd.
    + by rewrite py_add_None_r in Hadd.
  - exists x. split; [done|]. by eapply decoded_event_not_skipped.
Qed.

(** X5. A token count that is present but null, unlike one that is
    missing, raises when the total is computed, and the exception is
    not one handled per event: a fetch that meets a single such event
    on any page returns the empty list and prints the error message,
    whatever the other events held. *)
Theorem null_count_empties_fetch json_loads w days_back c s e pages fault ev m :
  boto3_client w = Ok c →
  time_range w days_back = Ok (s, e) →
  paginate c (fetch_params s e) = (pages, fault) →
  ev ∈ input_events pages →
  envelope json_loads ev = Ok m →
  (envelope_field m "input" "inputTokenCount" = Some VNone
   ∨ envelope_field m "output" "outputTokenCount" = Some VNone) →
  ∃ x, get_bedrock_logs json_loads w days_back
       = (Ok [], [FilterLogEvents (fetch_params s e); Printed (on_fault x)]).
Proof.
  intros Hc Ht Hp Hin Hm Hnull.
  destruct (null_count_raises _ _ _ Hm Hnull) as (x & Hx & Hskip).
  by eapply bad_event_empties_fetch.
Qed.

Lemma null_count_empties_fetch_witness :
  envelope more_loads (log_event null_count_text) = Ok null_count
  ∧ envelope_field null_count "input" "inputTokenCount" = Some VNone
  ∧ ∃ x, get_bedrock_logs more_loads null_count_world 7
         = (Ok [], [FilterLogEvents scenario_window; Printed (on_fault x)]).
Proof.
  assert (envelope more_loads (log_event null_count_text) = Ok null_count) as Hm
    by (vm_compute; reflexivity).
  assert (envelope_field null_count "input" "inputTokenCount" = Some VNone) as Hnull
    by (vm_compute; reflexivity).
  split; [exact Hm|]. split; [exact Hnull|].
  refine (null_count_empties_fetch more_loads null_count_world 7 _
            1793188800000 1793793600000 _ None (log_event null_count_text) null_count
            eq_refl _ eq_refl _ Hm (or_introl Hnull)).
  - vm_compute; reflexivity.
  - do 3 apply list_elem_of_further. apply list_elem_of_here.
Defined.

(** * Further properties of the fetcher *)

Section FetchFacts.

Variable json_loads : string → result value.

Lemma event_loop_omap events : ∀ acc logs,
  event_loop json_loads events acc = Ok logs →
  logs = (acc ++ omap (kept_record json_loads) events)%list.
Proof.
  induction events as [|ev rest IH]; intros acc logs H; simpl in H.
  - injection H as <-. by rewrite app_nil_r.
  - simpl. unfold kept_record at 1.
    destruct (process_event json_loads ev) as [r|x].
    + apply IH in H as ->. by rewrite <- app_assoc.
    + apply IH. by destruct x.
Qed.

Lemma event_loop_app evs1 evs2 : ∀ acc,
  event_loop json_loads (evs1 ++ evs2) acc
  = (acc' ← event_loop json_loads evs1 acc; event_loop json_loads evs2 acc').
Proof.
  induction evs1 as [|ev rest IH]; intros acc; simpl; [done|].
  destruct (process_event json_loads ev) as [r|x]; [apply IH|].
  destruct x; try done; apply IH.
Qed.

(** Over readable pages the two nested loops are one loop over the
    events in page order. *)
Lemma page_loop_flat pages : ∀ acc,
  forallb page_readable pages = true →
  page_loop json_loads pages acc = event_loop json_loads (input_events pages) acc.
Proof.
  induction pages as [|page rest IH]; intros acc Hall; simpl; [done|].
  simpl in Hall. apply andb_prop in Hall as [Hpage Hrest].
  unfold page_readable in Hpage.
  destruct (page_events page) as [evs|]; [|discriminate]. simpl.
  rewrite event_loop_app.
  destruct (event_loop json_loads evs acc); simpl; [by apply IH | done].
Qed.

Lemma page_loop_Ok_readable pages acc logs :
  page_loop json_loads pages acc = Ok logs → forallb page_readable pages = true.
Proof.
  intros H. apply forallb_forall. intros page Hin%list_elem_of_In.
  destruct (page_loop_Ok_pages _ _ _ _ H page Hin) as [evs Hevs].
  unfold page_readable. by rewrite Hevs.
Qed.

End FetchFacts.

(** ** X6: a result that is not empty is complete *)

(** X6. When [get_bedrock_logs] returns a list that is not empty, the
    paginator ended without an exception, every page could be read, no
    diagnostic was printed, and the list holds the record of every
    event that yields one, in the order of the events: nothing is
    missing from it. *)
Theorem nonempty_result_is_complete json_loads w days_back c s e pages fault logs trace :
  boto3_client w = Ok c →
  time_range w days_back = Ok (s, e) →
  paginate c (fetch_params s e) = (pages, fault) →
  get_bedrock_logs json_loads w days_back = (Ok logs, trace) →
  logs ≠ [] →
  fault = None
  ∧ forallb page_readable pages = true
  ∧ logs = omap (kept_record json_loads) (input_events pages)
  ∧ trace = [FilterLogEvents (fetch_params s e)].
Proof.
  intros Hc Ht Hp Hrun Hne.
  rewrite (get_bedrock_logs_unfold _ _ _ _ _ _ Hc Ht) in Hrun.
  rewrite (try_fetch_unfold _ _ _ _ _ Hp) in Hrun.
  destruct (page_loop json_loads pages []) as [l|x] eqn:Hloop; simpl in Hrun;
    [|by injection Hrun as <- _].
  destruct fault; [by injection Hrun as <- _|].
  injection Hrun as <- <-. split_and!; try done.
  - by eapply page_loop_Ok_readable.
  - rewrite (page_loop_flat _ _ _ (page_loop_Ok_readable _ _ _ _ Hloop)) in Hloop.
    by apply event_loop_omap in Hloop.
Qed.

Lemma nonempty_result_is_complete_witness :
  get_bedrock_logs example_loads scenario_world 7
  = (Ok scenario_logs, [FilterLogEvents scenario_window])
  ∧ scenario_logs = omap (kept_record example_loads) scenario_events.
Proof.
  assert (get_bedrock_logs example_loads scenario_world 7
          = (Ok scenario_logs, [FilterLogEvents scenario_window])) as Hrun
    by (vm_compute; reflexivity).
  split; [exact Hrun|].
  destruct (nonempty_result_is_complete example_loads scenario_world 7
              (serving [page_of scenario_events] None) 1793188800000 1793793600000
              [page_of scenario_events] None scenario_logs
              [FilterLogEvents scenario_window])
    as (_ & _ & Hlogs & _).
  - reflexivity.
  - vm_compute; reflexivity.
  - reflexivity.
  - exact Hrun.
  - discriminate.
  - rewrite Hlogs. simpl. by rewrite app_nil_r.
Defined.

(** ** X7: page boundaries do not matter *)

(** X7. What [get_bedrock_logs] returns and prints depends on the
    readable pages only through their events in order: two paginations
    that carry the same events, cut into pages differently or with
    pages that have no [events] key in between, and that end the same
    way, give the same result. *)
Theorem paging_does_not_matter json_loads w w' days_back c c' s e pages pages' fault :
  boto3_client w = Ok c → boto3_client w' = Ok c' →
  time_range w days_back = Ok (s, e) → time_range w' days_back = Ok (s, e) →
  paginate c (fetch_params s e) = (pages, fault) →
  paginate c' (fetch_params s e) = (pages', fault) →
  forallb page_readable pages = true →
  forallb page_readable pages' = true →
  input_events pages = input_events pages' →
  get_bedrock_logs json_loads w days_back = get_bedrock_logs json_loads w' days_back.
Proof.
  intros Hc Hc' Ht Ht' Hp Hp' Hr Hr' Hevs.
  rewrite (get_bedrock_logs_unfold _ _ _ _ _ _ Hc Ht).
  rewrite (get_bedrock_logs_unfold _ _ _ _ _ _ Hc' Ht').
  rewrite (try_fetch_unfold _ _ _ _ _ Hp), (try_fetch_unfold _ _ _ _ _ Hp').
  by rewrite (page_loop_flat _ _ _ Hr), (page_loop_flat _ _ _ Hr'), Hevs.
Qed.

Lemma paging_does_not_matter_witness :
  input_events [page_of scenario_events]
  = input_events [page_of [log_event (invocation_text "m1" "10" "5");
                           log_event "not json"];
                  VDict ∅;
                  page_of [log_event (invocation_text "m1" "20" "0")]]
  ∧ get_bedrock_logs example_loads scenario_world 7
    = get_bedrock_logs example_loads scenario_world_repaged 7.
Proof.
  split; [vm_compute; reflexivity|].
  refine (paging_does_not_matter example_loads scenario_world scenario_world_repaged 7
            _ _ 1793188800000 1793793600000 _ _ None
            eq_refl eq_refl _ _ eq_refl eq_refl _ _ _);
    vm_compute; reflexivity.
Defined.

(** * Further properties of the time range *)

(** ** X8: the lookback the datetime arithmetic refuses *)

(** X8. With the client created, a lookback of more than 999999999
    days in either direction, or one that moves the start date before
    year 1 or after year 9999, makes [get_bedrock_logs] raise
    [OverflowError] to its caller; nothing is queried and nothing is
    printed. *)
Theorem days_out_of_range_overflow json_loads w days_back c :
  boto3_client w = Ok c →
  (999999999 < Z.abs days_back
   ∨ ordinal (now w) - days_back < 1
   ∨ max_ordinal < ordinal (now w) - days_back)%Z →
  get_bedrock_logs json_loads w days_back = (Raise OverflowError, []).
Proof.
  intros Hc Hout. unfold get_bedrock_logs. rewrite Hc.
  assert (time_range w days_back = Raise OverflowError) as ->; [|done].
  unfold time_range, timedelta.
  destruct (Z.leb_spec (Z.abs days_back) 999999999) as [Hle|Hgt]; simpl; [|done].
  unfold datetime_sub.
  destruct (Z.leb_spec 1 (ordinal (now w) - days_back)) as [H1|H1]; simpl; [|done].
  destruct (Z.leb_spec (ordinal (now w) - days_back) max_ordinal) as [H2|H2]; simpl;
    [lia | done].
Qed.

Lemma days_out_of_range_overflow_witness :
  (ordinal (now (quiet_world utc)) - 1000000 < 1)%Z
  ∧ get_bedrock_logs example_loads (quiet_world utc) 1000000 = (Raise OverflowError, []).
Proof.
  assert (ordinal (now (quiet_world utc)) - 1000000 < 1)%Z as Hout by (simpl; lia).
  split; [exact Hout|].
  exact (days_out_of_range_overflow example_loads (quiet_world utc) 1000000
           (serving [] None) eq_refl (or_intror (or_introl Hout))).
Defined.

(** ** X9: a lookback of zero days *)

(** X9. With [days_back = 0] and a clock reading whose [fold] is 0, the
    start and the end of the window are the same reading, converted the
    same way: whatever the platform's conversion is, the paginator is
    run with [startTime = endTime].  (A reading in the second pass
    through a repeated hour has [fold = 1], which the subtraction
    resets: see [zero_days_in_repeated_hour].) *)
Theorem zero_days_empty_window json_loads w c s e :
  boto3_client w = Ok c →
  fold (now w) = false →
  time_range w 0 = Ok (s, e) →
  s = e
  ∧ ∃ rest, snd (get_bedrock_logs json_loads w 0)
            = FilterLogEvents (fetch_params e e) :: rest.
Proof.
  intros Hc Hfold Ht.
  assert (s = e) as ->.
  { unfold time_range, timedelta, datetime_sub in Ht. simpl in Ht.
    rewrite Z.sub_0_r in Ht.
    destruct (Z.leb 1 (ordinal (now w)) && Z.leb (ordinal (now w)) max_ordinal);
      [|discriminate].
    simpl in Ht. destruct (now w) as [o u f]; simpl in Ht, Hfold. subst f.
    destruct (epoch_millis w {| ordinal := o; usec := u; fold := false |});
      simpl in Ht; [|discriminate].
    by injection Ht as <- <-. }
  split; [done|].
  rewrite (get_bedrock_logs_unfold _ _ _ _ _ _ Hc Ht).
  destruct (try_fetch json_loads c (fetch_params e e)); simpl; eauto.
Qed.

Lemma zero_days_empty_window_witness :
  time_range (quiet_world us_eastern_autumn_2026) 0
  = Ok (1793811600000, 1793811600000)
  ∧ ∃ rest, snd (get_bedrock_logs example_loads (quiet_world us_eastern_autumn_2026) 0)
            = FilterLogEvents (fetch_params 1793811600000 1793811600000) :: rest.
Proof.
  assert (time_range (quiet_world us_eastern_autumn_2026) 0
          = Ok (1793811600000, 1793811600000)) as Ht by (vm_compute; reflexivity).
  split; [exact Ht|].
  exact (proj2 (zero_days_empty_window example_loads (quiet_world us_eastern_autumn_2026)
                  (serving [] None) 1793811600000 1793811600000 eq_refl eq_refl Ht)).
Defined.

(** In the second pass through the hour that US Eastern time repeats on
    1 November 2026, zero days back is an hour back. *)
Example zero_days_in_repeated_hour :
  time_range repeated_hour_world 0 = Ok (1793511000000, 1793514600000).
Proof. vm_compute; reflexivity. Qed.

(** ** X10: a negative lookback *)

Lemma time_range_same_offset w days_back start off :
  (Z.abs days_back ≤ 999999999)%Z →
  datetime_sub (now w) days_back = Ok start →
  epoch_millis w start = Ok (wall_millis start - off) →
  epoch_millis w (now w) = Ok (wall_millis (now w) - off) →
  time_range w days_back = Ok (wall_millis start - off, wall_millis (now w) - off)
  ∧ (wall_millis (now w) - wall_millis start = days_back * 86400000)%Z.
Proof.
  intros Hmax Hsub Hs He. split.
  - unfold time_range, timedelta.
    replace (Z.leb (Z.abs days_back) 999999999) with true
      by (symmetry; by apply Z.leb_le).
    simpl. rewrite Hsub. simpl. rewrite Hs. simpl. by rewrite He.
  - unfold datetime_sub in Hsub.
    destruct (Z.leb 1 (ordinal (now w) - days_back)
              && Z.leb (ordinal (now w) - days_back) max_ordinal); [|discriminate].
    injection Hsub as <-. unfold wall_millis. simpl. lia.
Qed.

(** X10. A negative [days_back] is not refused by the fetcher: the
    start of the window lies after its end.  When both ends are
    converted with the same offset, the query is issued with
    [startTime] exactly [-days_back] days after [endTime]. *)
Theorem negative_days_inverted_window json_loads w days_back c start off :
  (days_back < 0)%Z → (-999999999 ≤ days_back)%Z →
  boto3_client w = Ok c →
  datetime_sub (now w) days_back = Ok start →
  epoch_millis w start = Ok (wall_millis start - off) →
  epoch_millis w (now w) = Ok (wall_millis (now w) - off) →
  ∃ q rest,
    snd (get_bedrock_logs json_loads w days_back) = FilterLogEvents q :: rest
    ∧ (startTime q - endTime q = - days_back * 86400000)%Z
    ∧ (endTime q < startTime q)%Z.
Proof.
  intros Hneg Hmin Hc Hsub Hs He.
  destruct (time_range_same_offset w days_back start off) as [Ht Hlen];
    [lia | done | done | done |].
  rewrite (get_bedrock_logs_unfold _ _ _ _ _ _ Hc Ht).
  exists (fetch_params (wall_millis start - off) (wall_millis (now w) - off)).
  destruct (try_fetch json_loads c _); eexists; simpl; split_and!; try done; lia.
Qed.

Lemma negative_days_inverted_window_witness :
  datetime_sub (now (quiet_world utc)) (-1)
  = Ok {| ordinal := 739925; usec := 43200000500; fold := false |}
  ∧ ∃ q rest,
      snd (get_bedrock_logs example_loads (quiet_world utc) (-1))
      = FilterLogEvents q :: rest
      ∧ (startTime q - endTime q = 86400000)%Z.
Proof.
  split; [reflexivity|].
  destruct (negative_days_inverted_window example_loads (quiet_world utc) (-1)
              (serving [] None) {| ordinal := 739925; usec := 43200000500; fold := false |}
              (719163 * 86400000))
    as (q & rest & Hq & Hlen & _).
  - lia.
  - lia.
  - reflexivity.
  - reflexivity.
  - vm_compute; reflexivity.
  - vm_compute; reflexivity.
  - exists q, rest. split; [exact Hq | exact Hlen].
Defined.

(** * Further properties of the records and the tools *)

(** ** X11: the total is never null *)

Lemma py_add_not_None a b v : py_add a b = Ok v → v ≠ VNone.
Proof.
  unfold py_add. intros H ->.
  destruct (as_int a) as [x|], (as_int b) as [y|]; [discriminate| | |].
  - destruct b; try discriminate. by destruct (float_of_int x).
  - destruct a; try discriminate. by destruct (float_of_int y).
  - by destruct a, b.
Qed.

(** X11. In every record [get_bedrock_logs] returns, [totalTokens] is
    never [None], although [inputTokens] and [completionTokens] may
    be; when both of them are [None] the total is the integer 0. *)
Theorem total_tokens_never_null json_loads w days_back logs trace r :
  get_bedrock_logs json_loads w days_back = (Ok logs, trace) →
  r ∈ logs →
  totalTokens r ≠ VNone
  ∧ (inputTokens r = VNone → completionTokens r = VNone → totalTokens r = VInt 0).
Proof.
  intros Hrun Hr.
  destruct (get_bedrock_logs_origin _ _ _ _ _ _ Hrun Hr) as (ev & m & _ & Hf).
  pose proof (filtered_event_total _ _ Hf) as Htot. split.
  - by eapply py_add_not_None.
  - intros Hi Ho. rewrite Hi, Ho in Htot. simpl in Htot. by injection Htot as <-.
Qed.

Lemma total_tokens_never_null_witness :
  ∃ r, get_bedrock_logs example_loads empty_envelope_world 7
       = (Ok [r], [FilterLogEvents scenario_window])
       ∧ inputTokens r = VNone ∧ completionTokens r = VNone
       ∧ totalTokens r = VInt 0.
Proof.
  set (r := {| timestamp := VNone; region := VNone; modelId := VNone; userId := VNone;
               inputTokens := VNone; completionTokens := VNone;
               totalTokens := VInt 0 |}).
  assert (get_bedrock_logs example_loads empty_envelope_world 7
          = (Ok [r], [FilterLogEvents scenario_window])) as Hrun
    by (vm_compute; reflexivity).
  exists r. split; [exact Hrun|]. split; [reflexivity|]. split; [reflexivity|].
  exact (proj2 (total_tokens_never_null example_loads empty_envelope_world 7 [r]
                  [FilterLogEvents scenario_window] r Hrun (list_elem_of_here r []))
           eq_refl eq_refl).
Defined.

(** ** X12: the tools act on the log source through the fetcher only *)

(** ** Columns as pandas stores them *)

Lemma infer_column_length col : length (infer_column col) = length col.
Proof. unfold infer_column. destruct (infer_dtype col); by rewrite ?length_map. Qed.

Lemma infer_column_ints col :
  Forall (fun v => ∃ n, v = VInt n ∧ in_int64 n = true) col → infer_column col = col.
Proof.
  intros Hall. unfold infer_column, infer_dtype. destruct col as [|v col]; [done|].
  assert (forallb is_int64_cell (v :: col) = true) as ->; [|done].
  induction Hall as [|x l (n & -> & Hn) _ IH]; [done|]. simpl. by rewrite Hn.
Qed.

Lemma infer_column_no_number col :
  Forall (fun v => is_number_cell v = false) col → infer_column col = col.
Proof.
  intros Hall. unfold infer_column, infer_dtype. destruct col as [|v col]; [done|].
  assert (forallb is_int64_cell (v :: col) = false) as ->.
  { inversion Hall as [|? ? Hv _]. simpl. by destruct v. }
  assert (existsb is_number_cell (v :: col) = false) as ->.
  { induction Hall as [|x l Hx _ IH]; [done|]. simpl. by rewrite Hx. }
  rewrite andb_false_r. by destruct (forallb is_bool_cell (v :: col)).
Qed.

Lemma infer_column_ints_and_none col :
  Forall (fun v => v = VNone ∨ ∃ n, v = VInt n ∧ in_int64 n = true) col →
  VNone ∈ col → (∃ n, VInt n ∈ col) →
  infer_column col = map float64_cell col.
Proof.
  intros Hall Hnone [n Hn]. unfold infer_column, infer_dtype.
  destruct col as [|v col]; [done|].
  assert (forallb is_int64_cell (v :: col) = false) as ->.
  { apply not_true_is_false. intros H. rewrite forallb_forall in H.
    by specialize (H VNone (proj1 (list_elem_of_In _ _) Hnone)). }
  assert (forallb is_bool_cell (v :: col) = false) as ->.
  { apply not_true_is_false. intros H. rewrite forallb_forall in H.
    by specialize (H VNone (proj1 (list_elem_of_In _ _) Hnone)). }
  assert (forallb is_float_cell (v :: col) = true) as ->.
  { clear Hnone Hn. induction Hall as [|x l Hx _ IH]; [done|]. simpl. rewrite IH.
    destruct Hx as [-> | (m & -> & Hm)]; [done|]. simpl. by rewrite Hm. }
  assert (existsb is_number_cell (v :: col) = true) as ->; [|done].
  apply existsb_exists. exists (VInt n). split; [by apply list_elem_of_In | done].
Qed.

Section ToolFacts.

Variable json_loads : string → result value.
Variable to_datetime : list value → result (list value).
Variable groupby_agg_round : agg_request → DataFrame → result DataFrame.

Lemma get_bedrock_logs_df_trace w params :
  snd (get_bedrock_logs_df json_loads to_datetime w params)
  = snd (get_bedrock_logs json_loads w (days params)).
Proof.
  unfold get_bedrock_logs_df.
  by destruct (get_bedrock_logs json_loads w (days params)).
Qed.

Lemma run_tool_trace t w params :
  snd (run_tool json_loads to_datetime groupby_agg_round t w params)
  = snd (get_bedrock_logs json_loads w (days params)).
Proof.
  rewrite <- get_bedrock_logs_df_trace.
  destruct t; simpl; [done| | |];
    unfold get_model_usage_stats, get_user_usage_stats, get_daily_usage_stats;
    by destruct (get_bedrock_logs_df json_loads to_datetime w params).
Qed.

Lemma get_bedrock_logs_df_of_logs w params logs trace :
  get_bedrock_logs json_loads w (days params) = (Ok logs, trace) →
  logs ≠ [] →
  get_bedrock_logs_df json_loads to_datetime w params
  = (col ← to_datetime (infer_column (map timestamp logs));
     Ok (("timestamp", col)
         :: [("region", infer_column (map region logs));
             ("modelId", infer_column (map modelId logs));
             ("userId", infer_column (map userId logs));
             ("inputTokens", infer_column (map inputTokens logs));
             ("completionTokens", infer_column (map completionTokens logs));
             ("totalTokens", infer_column (map totalTokens logs))]),
     trace).
Proof.
  intros Hrun Hne. unfold get_bedrock_logs_df. rewrite Hrun. simpl.
  destruct logs as [|r rest]; [done|].
  assert (df_empty (pd_DataFrame (r :: rest)) = false) as ->.
  { unfold pd_DataFrame, df_empty. by rewrite infer_column_length. }
  cbn -[infer_column map].
  by destruct (to_datetime (infer_column (map timestamp (r :: rest)))).
Qed.

End ToolFacts.

(** X12. A tool does to the log source what the fetcher does for the
    same [days], and nothing else: the effects of a tool call are those
    of [get_bedrock_logs]; an exception the fetcher raises is raised by
    the tool; and a call rejected by validation has no effect. *)
Theorem tools_act_through_fetcher json_loads to_datetime groupby_agg_round int_of_str t w :
  (∀ params,
     snd (run_tool json_loads to_datetime groupby_agg_round t w params)
     = snd (get_bedrock_logs json_loads w (days params)))
  ∧ (∀ params e,
       fst (get_bedrock_logs json_loads w (days params)) = Raise e →
       fst (run_tool json_loads to_datetime groupby_agg_round t w params) = Raise e)
  ∧ (∀ i e,
       validate_DaysParam int_of_str i = Raise e →
       call_tool json_loads to_datetime groupby_agg_round int_of_str t w i
       = (Raise e, [])).
Proof.
  split_and!.
  - intros params. apply run_tool_trace.
  - intros params e He.
    destruct t; simpl;
      unfold get_model_usage_stats, get_user_usage_stats, get_daily_usage_stats,
             get_bedrock_logs_df;
      destruct (get_bedrock_logs json_loads w (days params)) as [r trace];
      simpl in *; by rewrite He.
  - intros i e He. unfold call_tool. by rewrite He.
Qed.

Lemma tools_act_through_fetcher_witness :
  fst (get_bedrock_logs example_loads (quiet_world utc) 10000000000)
  = Raise OverflowError
  ∧ fst (run_tool example_loads no_to_datetime no_groupby GetDailyUsageStats
           (quiet_world utc) {| days := 10000000000 |})
    = Raise OverflowError.
Proof.
  assert (fst (get_bedrock_logs example_loads (quiet_world utc) 10000000000)
          = Raise OverflowError) as He by (vm_compute; reflexivity).
  split; [exact He|].
  exact (proj1 (proj2 (tools_act_through_fetcher example_loads no_to_datetime no_groupby
                         example_int_of_str GetDailyUsageStats (quiet_world utc)))
           {| days := 10000000000 |} OverflowError He).
Defined.

(** ** X13: a timestamp pandas cannot convert *)

(** X13. When the fetch returned records and [pd.to_datetime] raises on
    their timestamps, every one of the four tools raises that
    exception, the per-model and per-user statistics included, which
    do not use the timestamps; the grouping is not reached. *)
Theorem unconvertible_timestamp_fails_every_tool
    json_loads to_datetime groupby_agg_round t w params logs trace e :
  get_bedrock_logs json_loads w (days params) = (Ok logs, trace) →
  logs ≠ [] →
  to_datetime (infer_column (map timestamp logs)) = Raise e →
  run_tool json_loads to_datetime groupby_agg_round t w params = (Raise e, trace).
Proof.
  intros Hrun Hne Hconv.
  pose proof (get_bedrock_logs_df_of_logs json_loads to_datetime w params logs trace
                Hrun Hne) as Hdf.
  rewrite Hconv in Hdf. simpl in Hdf.
  destruct t; simpl; [done| | |];
    unfold get_model_usage_stats, get_user_usage_stats, get_daily_usage_stats;
    by rewrite Hdf.
Qed.

Lemma unconvertible_timestamp_fails_every_tool_witness :
  get_bedrock_logs example_loads scenario_world 7
  = (Ok scenario_logs, [FilterLogEvents scenario_window])
  ∧ run_tool example_loads no_to_datetime no_groupby GetModelUsageStats
      scenario_world {| days := 7 |}
    = (Raise (OtherError "to_datetime"), [FilterLogEvents scenario_window]).
Proof.
  assert (get_bedrock_logs example_loads scenario_world 7
          = (Ok scenario_logs, [FilterLogEvents scenario_window])) as Hrun
    by (vm_compute; reflexivity).
  split; [exact Hrun|].
  refine (unconvertible_timestamp_fails_every_tool example_loads no_to_datetime
            no_groupby GetModelUsageStats scenario_world {| days := 7 |}
            scenario_logs [FilterLogEvents scenario_window]
            (OtherError "to_datetime") Hrun _ eq_refl).
  discriminate.
Defined.

(** ** X14: the columns of the data frame *)

(** X14. When the fetch returned records and their timestamps convert,
    [get_bedrock_logs_df] returns a frame with the seven columns
    [timestamp], [region], [modelId], [userId], [inputTokens],
    [completionTokens], [totalTokens] in this order, one row per record
    in the order of the records.  The timestamp column is the converted
    one; every other column holds that field of the records as pandas
    stores it: unchanged when all its values are 64-bit ints, or when
    none is a number; as float64, the ints converted and each [None]
    turned into NaN, when it mixes 64-bit ints with [None]. *)
Theorem frame_columns_are_record_fields json_loads to_datetime w params logs trace col :
  get_bedrock_logs json_loads w (days params) = (Ok logs, trace) →
  logs ≠ [] →
  to_datetime (infer_column (map timestamp logs)) = Ok col →
  (∃ df,
    get_bedrock_logs_df json_loads to_datetime w params = (Ok df, trace)
    ∧ map fst df = ["timestamp"; "region"; "modelId"; "userId"; "inputTokens";
                    "completionTokens"; "totalTokens"]
    ∧ df_column df "timestamp" = Ok col
    ∧ df_column df "region" = Ok (infer_column (map region logs))
    ∧ df_column df "modelId" = Ok (infer_column (map modelId logs))
    ∧ df_column df "userId" = Ok (infer_column (map userId logs))
    ∧ df_column df "inputTokens" = Ok (infer_column (map inputTokens logs))
    ∧ df_column df "completionTokens" = Ok (infer_column (map completionTokens logs))
    ∧ df_column df "totalTokens" = Ok (infer_column (map totalTokens logs)))
  ∧ (∀ cells, Forall (fun v => ∃ n, v = VInt n ∧ in_int64 n = true) cells →
              infer_column cells = cells)
  ∧ (∀ cells, Forall (fun v => is_number_cell v = false) cells →
              infer_column cells = cells)
  ∧ (∀ cells, Forall (fun v => v = VNone ∨ ∃ n, v = VInt n ∧ in_int64 n = true) cells →
              VNone ∈ cells → (∃ n, VInt n ∈ cells) →
              infer_column cells = map float64_cell cells).
Proof.
  intros Hrun Hne Hconv.
  pose proof (get_bedrock_logs_df_of_logs json_loads to_datetime w params logs trace
                Hrun Hne) as Hdf.
  rewrite Hconv in Hdf. simpl in Hdf.
  split_and!.
  - eexists. split; [exact Hdf|]. by split_and!.
  - apply infer_column_ints.
  - apply infer_column_no_number.
  - apply infer_column_ints_and_none.
Qed.

Lemma frame_columns_are_record_fields_witness :
  get_bedrock_logs example_loads missing_count_world 7
  = (Ok [usage "m1" 10 5; null_usage], [FilterLogEvents scenario_window])
  ∧ ∃ df,
      get_bedrock_logs_df example_loads keep_timestamps missing_count_world
        {| days := 7 |}
      = (Ok df, [FilterLogEvents scenario_window])
      ∧ df_column df "inputTokens"
        = Ok [VFloat (S754_finite false 5629499534213120 (-49)); VFloat S754_nan]
      ∧ df_column df "totalTokens" = Ok [VInt 15; VInt 0]
      ∧ df_column df "modelId" = Ok [VStr "m1"; VNone].
Proof.
  assert (get_bedrock_logs example_loads missing_count_world 7
          = (Ok [usage "m1" 10 5; null_usage], [FilterLogEvents scenario_window]))
    as Hrun by (vm_compute; reflexivity).
  split; [exact Hrun|].
  destruct (frame_columns_are_record_fields example_loads keep_timestamps
              missing_count_world {| days := 7 |} [usage "m1" 10 5; null_usage]
              [FilterLogEvents scenario_window]
              (map timestamp [usage "m1" 10 5; null_usage]) Hrun)
    as ((df & Hdf & _ & _ & _ & Hmodel & _ & Hin & _ & Htot) & _).
  - discriminate.
  - reflexivity.
  - exists df. split; [exact Hdf|]. split; [exact Hin|]. split; [exact Htot | exact Hmodel].
Defined.
(** * C7: the statistics of a group *)

(** ** Binary64 arithmetic on whole numbers *)

Lemma digits2_pos_bounds (p : positive) :
  2 ^ (Z.pos (digits2_pos p) - 1) <= Z.pos p < 2 ^ Z.pos (digits2_pos p).
Proof.
  induction p as [p IH|p IH|]; simpl digits2_pos.
  - rewrite Pos2Z.inj_succ.
    replace (Z.succ (Z.pos (digits2_pos p)) - 1) with (Z.succ (Z.pos (digits2_pos p) - 1)) by lia.
    rewrite !Z.pow_succ_r by lia. lia.
  - rewrite Pos2Z.inj_succ.
    replace (Z.succ (Z.pos (digits2_pos p)) - 1) with (Z.succ (Z.pos (digits2_pos p) - 1)) by lia.
    rewrite !Z.pow_succ_r by lia. lia.
  - simpl. lia.
Qed.

Lemma pow2_lt_inv (a b : Z) : 0 <= b -> 2 ^ a < 2 ^ b -> a < b.
Proof.
  intros Hb H. destruct (Z.lt_ge_cases a b) as [|Hge]; [done|].
  exfalso. assert (2 ^ b <= 2 ^ a) by (apply Z.pow_le_mono_r; lia). lia.
Qed.

Lemma digits_unique (z d d' : Z) :
  2 ^ (d - 1) <= z < 2 ^ d -> 2 ^ (d' - 1) <= z < 2 ^ d' -> 1 <= d -> 1 <= d' -> d = d'.
Proof.
  intros [H1 H2] [H3 H4] Hd Hd'.
  assert (d - 1 < d') by (apply pow2_lt_inv; lia).
  assert (d' - 1 < d) by (apply pow2_lt_inv; lia).
  lia.
Qed.

Lemma Zdigits2_unique (z d : Z) :
  0 < z -> 2 ^ (d - 1) <= z < 2 ^ d -> Zdigits2 z = d.
Proof.
  intros Hz Hd. destruct z as [|p|p]; try lia.
  simpl. symmetry. apply (digits_unique (Z.pos p)); try done; try lia.
  - apply digits2_pos_bounds.
  - destruct (Z.le_gt_cases 1 d) as [|Hlt]; [done|].
    exfalso. assert (d <= 0) as Hd0 by lia.
    destruct Hd as [_ Hd]. 
    destruct (Z.eq_dec d 0) as [->|]; [simpl in Hd; lia|].
    rewrite Z.pow_neg_r in Hd by lia. lia.
Qed.

Lemma digits_exist (z : Z) :
  0 < z -> exists d, 1 <= d /\ 2 ^ (d - 1) <= z < 2 ^ d.
Proof.
  intros Hz. exists (Z.log2 z + 1).
  pose proof (Z.log2_nonneg z). pose proof (Z.log2_spec z Hz) as Hs.
  replace (Z.log2 z + 1 - 1) with (Z.log2 z) by lia.
  replace (Z.log2 z + 1) with (Z.succ (Z.log2 z)) by lia. lia.
Qed.

Lemma digits_scale (z d k : Z) :
  0 <= k -> 1 <= d -> 2 ^ (d - 1) <= z < 2 ^ d ->
  2 ^ (d + k - 1) <= z * 2 ^ k < 2 ^ (d + k).
Proof.
  intros Hk Hd [H1 H2].
  replace (d + k - 1) with ((d - 1) + k) by lia.
  rewrite !Z.pow_add_r by lia.
  assert (0 < 2 ^ k) by (apply Z.pow_pos_nonneg; lia).
  nia.
Qed.

Lemma shr_1_even (z : Z) :
  0 <= z ->
  shr_1 {| shr_m := 2 * z; shr_r := false; shr_s := false |}
  = {| shr_m := z; shr_r := false; shr_s := false |}.
Proof. by destruct z. Qed.

Lemma iter_pos_shr_1 (p : positive) (z : Z) :
  0 <= z ->
  SpecFloat.iter_pos shr_1 p {| shr_m := z * 2 ^ Z.pos p; shr_r := false; shr_s := false |}
  = {| shr_m := z; shr_r := false; shr_s := false |}.
Proof.
  revert z. induction p as [p IH|p IH|]; intros z Hz; cbn [SpecFloat.iter_pos].
  - replace (z * 2 ^ Z.pos p~1) with (2 * ((z * 2 ^ Z.pos p) * 2 ^ Z.pos p)).
    2:{ replace (Z.pos p~1) with (Z.pos p + Z.pos p + 1) by lia.
        rewrite !Z.pow_add_r by lia. replace (2 ^ 1) with 2 by done. lia. }
    assert (0 < 2 ^ Z.pos p) by (apply Z.pow_pos_nonneg; lia).
    rewrite shr_1_even by nia. rewrite IH by nia. by apply IH.
  - replace (z * 2 ^ Z.pos p~0) with ((z * 2 ^ Z.pos p) * 2 ^ Z.pos p).
    2:{ replace (Z.pos p~0) with (Z.pos p + Z.pos p) by lia.
        rewrite Z.pow_add_r by lia. lia. }
    assert (0 < 2 ^ Z.pos p) by (apply Z.pow_pos_nonneg; lia).
    rewrite IH by nia. by apply IH.
  - replace (z * 2 ^ 1) with (2 * z) by lia. by apply shr_1_even.
Qed.

Lemma pos_iter_xO (m d : positive) :
  Z.pos (Pos.iter xO m d) = Z.pos m * 2 ^ Z.pos d.
Proof.
  rewrite <- Z.shiftl_mul_pow2 by lia. simpl.
  by rewrite (Pos.iter_swap_gen _ _ Z.pos xO (Z.mul 2)).
Qed.

Lemma shr_fexp_exact (z d k : Z) :
  2 ^ (d - 1) <= z < 2 ^ d -> 1 <= d <= 53 -> 53 - d <= k ->
  shr_fexp prec emax (z * 2 ^ k) (- k) loc_Exact
  = ({| shr_m := z * 2 ^ (53 - d); shr_r := false; shr_s := false |}, d - 53).
Proof.
  intros Hz Hd Hk.
  assert (0 < z) as Hpos.
  { assert (0 < 2 ^ (d - 1)) by (apply Z.pow_pos_nonneg; lia). lia. }
  assert (0 < 2 ^ k) by (apply Z.pow_pos_nonneg; lia).
  unfold shr_fexp.
  rewrite (Zdigits2_unique (z * 2 ^ k) (d + k)); [|nia|apply digits_scale; lia].
  replace (fexp prec emax (d + k + - k) - - k) with (d - 53 + k)
    by (unfold fexp, emin, prec, emax; lia).
  cbn [shr_record_of_loc].
  destruct (d - 53 + k) as [|p|p] eqn:Hn; try lia.
  - simpl. f_equal; [|lia]. f_equal. f_equal. f_equal. lia.
  - cbn [shr]. f_equal; [|lia].
    replace (z * 2 ^ k) with ((z * 2 ^ (53 - d)) * 2 ^ Z.pos p).
    2:{ rewrite <- Z.mul_assoc, <- Z.pow_add_r by lia. do 2 f_equal. lia. }
    apply iter_pos_shr_1.
    assert (0 < 2 ^ (53 - d)) by (apply Z.pow_pos_nonneg; lia). nia.
Qed.

Lemma binary_round_aux_exact (s : bool) (z d k : Z) :
  2 ^ (d - 1) <= z < 2 ^ d -> 1 <= d <= 53 -> 53 - d <= k ->
  binary_round_aux prec emax s (z * 2 ^ k) (- k) loc_Exact
  = S754_finite s (Z.to_pos (z * 2 ^ (53 - d))) (d - 53).
Proof.
  intros Hz Hd Hk.
  assert (0 < z) as Hpos.
  { assert (0 < 2 ^ (d - 1)) by (apply Z.pow_pos_nonneg; lia). lia. }
  assert (0 < 2 ^ (53 - d)) by (apply Z.pow_pos_nonneg; lia).
  unfold binary_round_aux.
  rewrite (shr_fexp_exact z d k) by done.
  cbn [shr_m loc_of_shr_record round_nearest_even].
  replace (d - 53) with (- (53 - d)) at 1 by lia.
  rewrite (shr_fexp_exact z d (53 - d)) by (done || lia).
  cbn [shr_m].
  destruct (z * 2 ^ (53 - d)) as [|m|m] eqn:Hm; try nia.
  replace (Z.leb (d - 53) (emax - prec)) with true; [done|].
  symmetry. apply Z.leb_le. unfold emax, prec. lia.
Qed.

Lemma binary_round_exact (s : bool) (m : positive) (e z d : Z) :
  e <= 0 -> Z.pos m = z * 2 ^ (- e) ->
  2 ^ (d - 1) <= z < 2 ^ d -> 1 <= d <= 53 ->
  binary_round prec emax s m e
  = S754_finite s (Z.to_pos (z * 2 ^ (53 - d))) (d - 53).
Proof.
  intros He Hm Hz Hd.
  assert (0 < z) as Hpos.
  { assert (0 < 2 ^ (d - 1)) by (apply Z.pow_pos_nonneg; lia). lia. }
  unfold binary_round.
  change (Z.pos (digits2_pos m)) with (Zdigits2 (Z.pos m)).
  rewrite Hm.
  rewrite (Zdigits2_unique (z * 2 ^ (- e)) (d + - e)).
  2:{ assert (0 < 2 ^ (- e)) by (apply Z.pow_pos_nonneg; lia). nia. }
  2:{ apply digits_scale; lia. }
  replace (fexp prec emax (d + - e + e)) with (d - 53)
    by (unfold fexp, emin, prec, emax; lia).
  unfold shl_align.
  destruct (d - 53 - e) as [|p|p] eqn:Hn.
  - rewrite Hm. replace e with (- (- e)) at 2 by lia.
    apply binary_round_aux_exact; (done || lia).
  - rewrite Hm. replace e with (- (- e)) at 2 by lia.
    apply binary_round_aux_exact; (done || lia).
  - rewrite pos_iter_xO, Hm.
    replace (z * 2 ^ (- e) * 2 ^ Z.pos p) with (z * 2 ^ (53 - d)).
    2:{ rewrite <- Z.mul_assoc, <- Z.pow_add_r by lia. do 2 f_equal. lia. }
    replace (d - 53) with (- (53 - d)) at 1 by lia.
    apply binary_round_aux_exact; (done || lia).
Qed.

(** The binary64 number of a whole number below [2 ^ 53]. *)
Lemma to_float64_pos (n d : Z) :
  2 ^ (d - 1) <= n < 2 ^ d -> 1 <= d <= 53 ->
  to_float64 n = S754_finite false (Z.to_pos (n * 2 ^ (53 - d))) (d - 53).
Proof.
  intros Hn Hd.
  assert (0 < n) as Hpos.
  { assert (0 < 2 ^ (d - 1)) by (apply Z.pow_pos_nonneg; lia). lia. }
  unfold to_float64. destruct n as [|m|m]; try lia.
  cbn [binary_normalize].
  apply binary_round_exact; (done || (simpl; lia)).
Qed.

Lemma digits_below (n d : Z) :
  1 <= d -> 2 ^ (d - 1) <= n < 2 ^ d -> n < 2 ^ 53 -> d <= 53.
Proof.
  intros Hd [H1 H2] Hn.
  assert (d - 1 < 53) by (apply pow2_lt_inv; lia). lia.
Qed.

Lemma to_float64_canonical (n : Z) :
  0 < n < 2 ^ 53 ->
  exists d, (1 <= d <= 53 /\ 2 ^ (d - 1) <= n < 2 ^ d)
    /\ to_float64 n = S754_finite false (Z.to_pos (n * 2 ^ (53 - d))) (d - 53).
Proof.
  intros [H0 Hn]. destruct (digits_exist n H0) as (d & Hd & Hb).
  pose proof (digits_below n d Hd Hb Hn).
  exists d. split; [split; [lia|done]|]. apply to_float64_pos; [done|lia].
Qed.

Lemma shl_align_value (m : positive) (e e' : Z) :
  e' <= e -> Z.pos (fst (shl_align m e e')) = Z.pos m * 2 ^ (e - e').
Proof.
  intros He. unfold shl_align.
  destruct (e' - e) as [|p|p] eqn:Hp; try lia; cbn [fst].
  - replace (e - e') with 0 by lia. simpl. lia.
  - rewrite pos_iter_xO. do 2 f_equal. lia.
Qed.

Lemma to_pos_mul_pow (z k : Z) :
  0 < z -> 0 <= k -> Z.pos (Z.to_pos (z * 2 ^ k)) = z * 2 ^ k.
Proof.
  intros Hz Hk. apply Z2Pos.id.
  assert (0 < 2 ^ k) by (apply Z.pow_pos_nonneg; lia). nia.
Qed.

Lemma aligned_value (n d e : Z) :
  0 < n -> 1 <= d <= 53 -> e <= d - 53 ->
  Z.pos (fst (shl_align (Z.to_pos (n * 2 ^ (53 - d))) (d - 53) e)) = n * 2 ^ (- e).
Proof.
  intros Hn Hd He.
  rewrite shl_align_value by done. rewrite to_pos_mul_pow by lia.
  rewrite <- Z.mul_assoc, <- Z.pow_add_r by lia. do 2 f_equal. lia.
Qed.

Lemma SFadd_whole (a b : Z) :
  0 <= a -> 0 <= b -> a + b < 2 ^ 53 ->
  SFadd prec emax (to_float64 a) (to_float64 b) = to_float64 (a + b).
Proof.
  intros Ha Hb Hab.
  destruct (Z.eq_dec a 0) as [->|Ha0].
  { rewrite Z.add_0_l. unfold to_float64 at 1. cbn [binary_normalize].
    destruct (Z.eq_dec b 0) as [->|Hb0]; [done|].
    destruct (to_float64_canonical b) as (d & _ & ->); [lia|]. done. }
  destruct (to_float64_canonical a) as (da & [Hda Hza] & Ea); [lia|].
  destruct (Z.eq_dec b 0) as [->|Hb0].
  { rewrite Z.add_0_r, Ea. done. }
  destruct (to_float64_canonical b) as (db & [Hdb Hzb] & Eb); [lia|].
  destruct (to_float64_canonical (a + b)) as (d & [Hd Hz] & E); [lia|].
  rewrite Ea, Eb, E. cbn [SFadd cond_Zopp].
  rewrite !aligned_value by lia.
  assert (0 < 2 ^ (- Z.min (da - 53) (db - 53))) as Hp by (apply Z.pow_pos_nonneg; lia).
  rewrite <- Z.mul_add_distr_r.
  destruct ((a + b) * 2 ^ (- Z.min (da - 53) (db - 53))) as [|m|m] eqn:Hm; try nia.
  cbn [binary_normalize].
  apply binary_round_exact; (done || lia).
Qed.

Lemma SFsub_whole (a b : Z) :
  0 <= b -> b <= a -> a < 2 ^ 53 ->
  SFsub prec emax (to_float64 a) (to_float64 b) = to_float64 (a - b).
Proof.
  intros Hb Hba Ha.
  destruct (Z.eq_dec b 0) as [->|Hb0].
  { rewrite Z.sub_0_r. unfold to_float64 at 2. cbn [binary_normalize].
    destruct (Z.eq_dec a 0) as [->|Ha0]; [done|].
    destruct (to_float64_canonical a) as (d & _ & ->); [lia|]. done. }
  destruct (to_float64_canonical a) as (da & [Hda Hza] & Ea); [lia|].
  destruct (to_float64_canonical b) as (db & [Hdb Hzb] & Eb); [lia|].
  rewrite Ea, Eb. cbn [SFsub cond_Zopp].
  rewrite !aligned_value by lia.
  assert (0 < 2 ^ (- Z.min (da - 53) (db - 53))) as Hp by (apply Z.pow_pos_nonneg; lia).
  rewrite <- Z.mul_sub_distr_r.
  destruct (Z.eq_dec a b) as [->|Hne].
  { by rewrite Z.sub_diag. }
  destruct (to_float64_canonical (a - b)) as (d & [Hd Hz] & E); [lia|].
  rewrite E.
  destruct ((a - b) * 2 ^ (- Z.min (da - 53) (db - 53))) as [|m|m] eqn:Hm; try nia.
  cbn [binary_normalize].
  apply binary_round_exact; (done || lia).
Qed.

Lemma SFmul_whole (a b : Z) :
  0 < a -> 0 < b -> a * b < 2 ^ 53 ->
  SFmul prec emax (to_float64 a) (to_float64 b) = to_float64 (a * b).
Proof.
  intros Ha Hb Hab.
  destruct (to_float64_canonical a) as (da & [Hda Hza] & Ea); [nia|].
  destruct (to_float64_canonical b) as (db & [Hdb Hzb] & Eb); [nia|].
  destruct (to_float64_canonical (a * b)) as (d & [Hd Hz] & E); [nia|].
  rewrite Ea, Eb, E. cbn [SFmul xorb].
  rewrite Pos2Z.inj_mul, !to_pos_mul_pow by lia.
  replace (a * 2 ^ (53 - da) * (b * 2 ^ (53 - db)))
    with (a * b * 2 ^ (106 - da - db)).
  2:{ replace (106 - da - db) with ((53 - da) + (53 - db)) by lia.
      rewrite Z.pow_add_r by lia. lia. }
  replace (da - 53 + (db - 53)) with (- (106 - da - db)) by lia.
  apply binary_round_aux_exact; try done.
  assert (2 ^ (da - 1 + (db - 1)) < 2 ^ d).
  { rewrite Z.pow_add_r by lia.
    assert (0 < 2 ^ (da - 1)) by (apply Z.pow_pos_nonneg; lia).
    assert (0 < 2 ^ (db - 1)) by (apply Z.pow_pos_nonneg; lia). nia. }
  assert (da - 1 + (db - 1) < d) by (apply pow2_lt_inv; lia). lia.
Qed.

Lemma SFdiv_whole (a b : Z) :
  0 < a -> 0 < b -> a * b < 2 ^ 53 ->
  SFdiv prec emax (to_float64 (a * b)) (to_float64 b) = to_float64 a.
Proof.
  intros Ha Hb Hab.
  destruct (to_float64_canonical a) as (da & [Hda Hza] & Ea); [nia|].
  destruct (to_float64_canonical b) as (db & [Hdb Hzb] & Eb); [nia|].
  destruct (to_float64_canonical (a * b)) as (d & [Hd Hz] & E); [nia|].
  rewrite Ea, Eb, E. cbn [SFdiv xorb]. unfold SFdiv_core_binary.
  rewrite !to_pos_mul_pow by nia.
  rewrite (Zdigits2_unique (a * b * 2 ^ (53 - d)) 53).
  2:{ assert (0 < 2 ^ (53 - d)) by (apply Z.pow_pos_nonneg; lia). nia. }
  2:{ replace 53 with (d + (53 - d)) at 1 4 by lia. apply digits_scale; lia. }
  rewrite (Zdigits2_unique (b * 2 ^ (53 - db)) 53).
  2:{ assert (0 < 2 ^ (53 - db)) by (apply Z.pow_pos_nonneg; lia). nia. }
  2:{ replace 53 with (db + (53 - db)) at 1 4 by lia. apply digits_scale; lia. }
  replace (Z.min (fexp prec emax (53 + (d - 53) - (53 + (db - 53)))) (d - 53 - (db - 53)))
    with (d - db - 53) by (unfold fexp, emin, prec, emax; lia).
  replace (d - 53 - (db - 53) - (d - db - 53)) with 53 by lia.
  cbv iota.
  rewrite Z.shiftl_mul_pow2 by lia.
  assert (0 < 2 ^ (53 - db)) by (apply Z.pow_pos_nonneg; lia).
  assert (a * b * 2 ^ (53 - d) * 2 ^ 53 = (a * 2 ^ (53 - d + db)) * (b * 2 ^ (53 - db))) as Hq.
  { replace (53 - d + db) with ((53 - d) + db) by lia.
    rewrite Z.pow_add_r by lia.
    replace (2 ^ 53) with (2 ^ db * 2 ^ (53 - db)).
    2:{ rewrite <- Z.pow_add_r by lia. f_equal. lia. }
    lia. }
  rewrite Hq.
  destruct (Z.div_eucl _ _) as [q r] eqn:Hdiv.
  assert (q = a * 2 ^ (53 - d + db)) as ->.
  { pose proof (Z.div_mul (a * 2 ^ (53 - d + db)) (b * 2 ^ (53 - db))) as Hd1.
    unfold Z.div in Hd1. rewrite Hdiv in Hd1. apply Hd1. nia. }
  assert (r = 0) as ->.
  { pose proof (Z.mod_mul (a * 2 ^ (53 - d + db)) (b * 2 ^ (53 - db))) as Hd1.
    unfold Z.modulo in Hd1. rewrite Hdiv in Hd1. apply Hd1. nia. }
  replace (new_location (b * 2 ^ (53 - db)) 0) with loc_Exact.
  2:{ unfold new_location, new_location_even, new_location_odd.
      by destruct (Z.even _). }
  replace (d - db - 53) with (- (53 - d + db)) by lia.
  apply binary_round_aux_exact; try done.
  assert (2 ^ (d - 1) < 2 ^ (da + db)).
  { rewrite Z.pow_add_r by lia.
    assert (0 < 2 ^ da) by (apply Z.pow_pos_nonneg; lia).
    assert (0 < 2 ^ db) by (apply Z.pow_pos_nonneg; lia). nia. }
  assert (d - 1 < da + db) by (apply pow2_lt_inv; lia). lia.
Qed.

Lemma SFrint_whole (n : Z) :
  0 <= n < 2 ^ 53 -> SFrint (to_float64 n) = to_float64 n.
Proof.
  intros [H0 Hn].
  destruct (Z.eq_dec n 0) as [->|Hn0]; [done|].
  destruct (to_float64_canonical n) as (d & [Hd Hz] & E); [lia|].
  rewrite E. unfold SFrint.
  destruct (Z.leb 0 (d - 53)) eqn:He; [done|].
  apply Z.leb_gt in He.
  rewrite to_pos_mul_pow by lia.
  replace (- (d - 53)) with (53 - d) by lia.
  rewrite Z.mod_mul; [done|].
  assert (0 < 2 ^ (53 - d)) by (apply Z.pow_pos_nonneg; lia). lia.
Qed.

Lemma np_round_whole (n : Z) :
  0 <= n -> 100 * n < 2 ^ 53 -> np_round 2 (to_float64 n) = to_float64 n.
Proof.
  intros H0 Hn. unfold np_round.
  replace (Z.leb 0 2) with true by done.
  replace (10 ^ 2) with 100 by done.
  destruct (Z.eq_dec n 0) as [->|Hn0]; [done|].
  rewrite SFmul_whole by lia.
  rewrite SFrint_whole by lia.
  apply SFdiv_whole; lia.
Qed.

Lemma kahan_step_whole (s n : Z) :
  0 <= s -> 0 <= n -> s + n < 2 ^ 53 ->
  kahan_step (to_float64 s, S754_zero false) (to_float64 n)
  = (to_float64 (s + n), S754_zero false).
Proof.
  intros Hs Hn Hb. unfold kahan_step. cbn [fst snd].
  change (S754_zero false) with (to_float64 0).
  rewrite (SFsub_whole n 0), Z.sub_0_r by lia.
  rewrite SFadd_whole by lia.
  rewrite (SFsub_whole (s + n) s) by lia.
  replace (s + n - s) with n by lia.
  rewrite SFsub_whole, Z.sub_diag by lia.
  done.
Qed.

Lemma to_float64_not_nan (n : Z) :
  0 <= n < 2 ^ 53 -> is_nan (to_float64 n) = false.
Proof.
  intros [H0 Hn]. destruct (Z.eq_dec n 0) as [->|]; [done|].
  by destruct (to_float64_canonical n) as (d & _ & ->); [lia|].
Qed.

Lemma Z_sum_cons (n : Z) (ns : list Z) : Z_sum (n :: ns) = n + Z_sum ns.
Proof. done. Qed.

Lemma Z_sum_nonneg (ns : list Z) : Forall (fun n => 0 <= n) ns -> 0 <= Z_sum ns.
Proof.
  induction 1 as [|n ns Hn _ IH]; [done|]. rewrite Z_sum_cons. lia.
Qed.

Lemma kahan_fold_whole (ns : list Z) (s : Z) :
  Forall (fun n => 0 <= n) ns -> 0 <= s -> s + Z_sum ns < 2 ^ 53 ->
  fold_left kahan_step (map to_float64 ns) (to_float64 s, S754_zero false)
  = (to_float64 (s + Z_sum ns), S754_zero false).
Proof.
  intros Hall. revert s.
  induction Hall as [|n ns Hn Hns IH]; intros s Hs Hb.
  - by rewrite Z.add_0_r.
  - rewrite Z_sum_cons in *. pose proof (Z_sum_nonneg ns Hns).
    cbn [map fold_left]. rewrite kahan_step_whole by lia.
    rewrite IH by lia. do 2 f_equal. lia.
Qed.

Lemma kahan_sum_whole (ns : list Z) :
  Forall (fun n => 0 <= n) ns -> Z_sum ns < 2 ^ 53 ->
  kahan_sum (map to_float64 ns) = to_float64 (Z_sum ns).
Proof.
  intros Hall Hb. unfold kahan_sum.
  change (S754_zero false, S754_zero false) with (to_float64 0, S754_zero false).
  by rewrite kahan_fold_whole.
Qed.

Lemma mean_of_whole (ns : list Z) :
  Forall (fun n => 0 <= n) ns -> Z_sum ns < 2 ^ 53 ->
  mean_of (map to_float64 ns)
  = if Z.eqb (Z.of_nat (length ns)) 0 then S754_nan
    else SFdiv prec emax (to_float64 (Z_sum ns)) (to_float64 (Z.of_nat (length ns))).
Proof.
  intros Hall Hb. destruct ns as [|n ns]; [done|].
  unfold mean_of. cbn [map]. rewrite <- (map_cons to_float64).
  rewrite kahan_sum_whole, length_map by done.
  by destruct (Z.eqb_spec (Z.of_nat (length (n :: ns))) 0) as [Hz|_]; [simpl in Hz; lia|].
Qed.

(** ** The rows of a group *)

Lemma select_cons {A : Type} (key : value) (keys : list value) (k : value)
    (x : A) (col : list A) :
  select (key :: keys) k (x :: col)
  = if key_eqb k key then x :: select keys k col else select keys k col.
Proof. unfold select. simpl. by destruct (key_eqb k key). Qed.

Lemma select_nil_r {A : Type} (keys : list value) (k : value) :
  select keys k (@nil A) = [].
Proof. by destruct keys. Qed.

Lemma select_map {A B : Type} (f : A → B) (keys : list value) (k : value) (col : list A) :
  select keys k (map f col) = map f (select keys k col).
Proof.
  revert col. induction keys as [|key keys IH]; intros [|x col]; try done.
  cbn [map]. rewrite !select_cons, IH. by destruct (key_eqb k key).
Qed.

Lemma select_Forall {A : Type} (P : A → Prop) (keys : list value) (k : value)
    (col : list A) :
  Forall P col → Forall P (select keys k col).
Proof.
  revert col. induction keys as [|key keys IH]; intros [|x col] Hall; try done.
  rewrite select_cons. inversion Hall as [|? ? Hx Hcol]; subst.
  destruct (key_eqb k key); [constructor|]; auto.
Qed.

Lemma Z_sum_select_le {A : Type} (g : A → Z) (keys : list value) (k : value)
    (col : list A) :
  Forall (fun x => 0 <= g x) col →
  Z_sum (map g (select keys k col)) <= Z_sum (map g col).
Proof.
  revert col. induction keys as [|key keys IH]; intros [|x col] Hall; try done.
  - change (select [] k (x :: col)) with (@nil A).
    apply (Z_sum_nonneg (map g (x :: col))). by apply Forall_map.
  - rewrite select_cons. inversion Hall as [|? ? Hx Hcol]; subst.
    specialize (IH col Hcol). cbn [map]. rewrite Z_sum_cons.
    destruct (key_eqb k key); cbn [map]; rewrite ?Z_sum_cons; lia.
Qed.

(** ** Loops over a list *)

Lemma traverse_cons_Ok {A B : Type} (f : A → result B) (x : A) (l : list A)
    (out : list B) :
  traverse f (x :: l) = Ok out →
  ∃ y ys, f x = Ok y ∧ traverse f l = Ok ys ∧ out = y :: ys.
Proof.
  cbn [traverse]. intros H.
  apply bind_Ok in H as (y & Hy & H).
  apply bind_Ok in H as (ys & Hys & H).
  exists y, ys. split_and!; [done..|]. by injection H.
Qed.

Lemma traverse_nil_Ok {A B : Type} (f : A → result B) (out : list B) :
  traverse f [] = Ok out → out = [].
Proof. cbn. by intros [= <-]. Qed.

Lemma traverse_lookup {A B : Type} (f : A → result B) (l : list A) (out : list B)
    (i : nat) (x : A) :
  traverse f l = Ok out → l !! i = Some x →
  ∃ y, f x = Ok y ∧ out !! i = Some y.
Proof.
  revert out i. induction l as [|a l IH]; intros out i Hrun Hi; [done|].
  apply traverse_cons_Ok in Hrun as (y & ys & Hy & Hys & ->).
  destruct i as [|i]; simpl in Hi.
  - injection Hi as ->. by exists y.
  - destruct (IH ys i Hys Hi) as (y' & ? & ?). by exists y'.
Qed.

Lemma agg_column_cell (decimals : Z) (keys index col : list value) (fn : agg_fn)
    (cells : list value) (i : nat) (k : value) :
  agg_column decimals keys index col fn = Ok cells →
  index !! i = Some k →
  ∃ v, agg_cell fn (infer_dtype col) (select keys k col) = Ok v
       ∧ cells !! i = Some (round_result decimals fn (infer_dtype col) v).
Proof.
  intros Hrun Hi. unfold agg_column in Hrun.
  destruct (traverse_lookup _ _ _ _ _ Hrun Hi) as (y & Hy & Hcell).
  apply bind_Ok in Hy as (v & Hv & [= <-]). by exists v.
Qed.

(** ** The distinct values of a list *)

Lemma NoDup_List_filter {A : Type} (f : A → bool) (l : list A) :
  NoDup l → NoDup (List.filter f l).
Proof.
  induction 1 as [|x l Hx Hl IH]; simpl; [constructor|].
  destruct (f x); [|done]. constructor; [|done].
  rewrite list_elem_of_In, List.filter_In, <- list_elem_of_In. tauto.
Qed.

Lemma key_eqb_model_id (a b : value) :
  is_model_id a = true → is_model_id b = true → key_eqb a b = true ↔ a = b.
Proof.
  destruct a, b; try done; simpl; intros _ _.
  rewrite String.eqb_eq. split; congruence.
Qed.

Lemma distinct_model_ids (l : list value) :
  Forall (fun v => is_model_id v = true) l →
  NoDup (distinct l) ∧ ∀ v, v ∈ distinct l ↔ v ∈ l.
Proof.
  induction 1 as [|a l Ha Hl [IHn IHm]]; simpl.
  - split; [constructor | done].
  - assert (∀ v, v ∈ List.filter (fun x => negb (key_eqb a x)) (distinct l)
                 ↔ v ∈ l ∧ v ≠ a) as Hfilter.
    { intros v. rewrite list_elem_of_In, List.filter_In, <- list_elem_of_In, IHm.
      split.
      - intros [Hv Hne]. split; [done|]. intros ->.
        rewrite (proj2 (key_eqb_model_id a a Ha Ha)) in Hne; done.
      - intros [Hv Hne]. split; [done|].
        apply negb_true_iff, not_true_is_false. intros Heq.
        apply key_eqb_model_id in Heq; [congruence|done|].
        by eapply (proj1 (Forall_forall _ _) Hl). }
    split.
    + constructor.
      * rewrite Hfilter. tauto.
      * by apply NoDup_List_filter.
    + intros v. rewrite !elem_of_cons, Hfilter. split; [tauto|].
      intros [->|Hv]; [by left|].
      assert (is_model_id v = true) as Hid
        by by eapply (proj1 (Forall_forall _ _) Hl).
      destruct (key_eqb v a) eqn:Heq.
      * left. by apply key_eqb_model_id in Heq.
      * right. split; [done|]. intros ->.
        by rewrite (proj2 (key_eqb_model_id a a Ha Ha)) in Heq.
Qed.

(** ** A column of token counts *)

Lemma count_value_nonneg (cells : list value) :
  token_cells cells → Forall (fun v => 0 <= count_value v) cells.
Proof.
  intros Hall. eapply Forall_impl; [exact Hall|].
  intros v; destruct v; simpl; try done. lia.
Qed.

Lemma token_cells_sum_nonneg (cells : list value) :
  token_cells cells → 0 <= Z_sum (map count_value cells).
Proof.
  intros Hall. apply Z_sum_nonneg, Forall_map.
  by apply count_value_nonneg.
Qed.

Lemma present_sum (cells : list value) :
  Z_sum (present cells) = Z_sum (map count_value cells).
Proof.
  induction cells as [|v cells IH]; [done|].
  cbn [map]. rewrite Z_sum_cons, <- IH. by destruct v.
Qed.

Lemma present_nonneg (cells : list value) :
  token_cells cells → Forall (fun n => 0 <= n) (present cells).
Proof.
  induction 1 as [|v cells Hv _ IH]; [constructor|].
  destruct v; try done. simpl. constructor; [|done]. simpl in Hv. lia.
Qed.

Lemma present_length (cells : list value) :
  token_cells cells → length (present cells) = length (non_missing cells).
Proof.
  induction 1 as [|v cells Hv _ IH]; [done|].
  destruct v; try done; simpl; by rewrite IH.
Qed.

Lemma int_cells_tokens (cells : list value) :
  token_cells cells → int_cells cells = map count_value cells.
Proof.
  induction 1 as [|v cells Hv _ IH]; [done|].
  unfold int_cells in *. cbn [map]. rewrite IH. by destruct v.
Qed.

Lemma float_cells_tokens (cells : list value) :
  token_cells cells → Z_sum (map count_value cells) < 2 ^ 53 →
  float_cells (map float64_cell cells) = map to_float64 (present cells).
Proof.
  induction 1 as [|v cells Hv Hcells IH]; intros Hb; [done|].
  cbn [map] in Hb. rewrite Z_sum_cons in Hb.
  pose proof (token_cells_sum_nonneg cells Hcells).
  assert (0 <= count_value v) by (destruct v; simpl in *; try done; lia).
  destruct v; try done.
  - simpl. apply IH. simpl in *. lia.
  - simpl in *. rewrite to_float64_not_nan by lia. simpl. f_equal. apply IH. lia.
Qed.

Lemma non_missing_float64 (cells : list value) :
  token_cells cells → Z_sum (map count_value cells) < 2 ^ 53 →
  length (non_missing (map float64_cell cells)) = length (non_missing cells).
Proof.
  induction 1 as [|v cells Hv Hcells IH]; intros Hb; [done|].
  cbn [map] in Hb. rewrite Z_sum_cons in Hb.
  pose proof (token_cells_sum_nonneg cells Hcells).
  assert (0 <= count_value v) by (destruct v; simpl in *; try done; lia).
  destruct v; try done.
  - simpl. apply IH. simpl in *. lia.
  - simpl in *. rewrite to_float64_not_nan by lia. simpl. f_equal. apply IH. lia.
Qed.

Lemma all_ints_no_missing (cells : list value) :
  Forall (fun v => ∃ n, v = VInt n) cells →
  non_missing cells = cells ∧ present cells = map count_value cells.
Proof.
  induction 1 as [|v cells [n ->] _ [IH1 IH2]]; [done|].
  simpl. rewrite IH2. split; [|done]. f_equal. exact IH1.
Qed.

Lemma all_none_missing (cells : list value) :
  Forall (fun v => v = VNone) cells →
  non_missing cells = [] ∧ Z_sum (map count_value cells) = 0.
Proof.
  induction 1 as [|v cells -> _ [IH1 IH2]]; [done|].
  cbn [map]. rewrite Z_sum_cons, IH2. split; [|done]. simpl. apply IH1.
Qed.

Lemma wrap_int64_small (n : Z) : 0 <= n < 2 ^ 53 → wrap_int64 n = n.
Proof.
  intros Hn. unfold wrap_int64.
  assert (2 ^ 53 < 2 ^ 63) by done. assert (2 ^ 63 + 2 ^ 63 = 2 ^ 64) by done.
  rewrite Z.mod_small; lia.
Qed.

(** The type pandas gives a column of token counts: int64 when every
    count is there, object when none is, float64 otherwise. *)
Lemma token_column_dtype (col : list value) :
  col ≠ [] → token_cells col → Z_sum (map count_value col) < 2 ^ 53 →
  (infer_dtype (infer_column col) = Int64 ∧ infer_column col = col
   ∧ Forall (fun v => ∃ n, v = VInt n) col)
  ∨ (infer_dtype (infer_column col) = Object ∧ infer_column col = col
     ∧ Forall (fun v => v = VNone) col)
  ∨ (infer_dtype (infer_column col) = Float64
     ∧ infer_column col = map float64_cell col).
Proof.
  intros Hne Hall Hb.
  destruct col as [|v col]; [done|]. clear Hne.
  assert (forallb is_bool_cell (v :: col) = false) as Hbool.
  { inversion Hall as [|? ? Hv _]. simpl. by destruct v. }
  assert (forallb is_float_cell (v :: col) = true) as Hfloat.
  { assert (∀ l, token_cells l → Z_sum (map count_value l) < 2 ^ 53 →
                 forallb is_float_cell l = true) as Hgen; [|by apply Hgen].
    clear. induction 1 as [|x l Hx Hl IH]; intros Hb; [done|].
    cbn [map] in Hb. rewrite Z_sum_cons in Hb.
    pose proof (token_cells_sum_nonneg l Hl).
    assert (0 <= count_value x) by (destruct x; simpl in *; try done; lia).
    simpl. rewrite IH by lia. rewrite andb_true_r.
    destruct x; try done. simpl in *. unfold in_int64.
    assert (2 ^ 53 < 2 ^ 63) by done.
    apply andb_true_intro. split; [apply Z.leb_le | apply Z.ltb_lt]; lia. }
  destruct (forallb is_int64_cell (v :: col)) eqn:Hint.
  - left.
    assert (infer_column (v :: col) = v :: col) as Hcol.
    { unfold infer_column, infer_dtype. by rewrite Hint. }
    rewrite Hcol. split_and!; [|done|].
    + unfold infer_dtype. by rewrite Hint.
    + rewrite forallb_forall in Hint. apply Forall_forall. intros x Hx.
      apply list_elem_of_In, Hint in Hx. destruct x; try done. by eexists.
  - destruct (existsb is_number_cell (v :: col)) eqn:Hnum.
    + right. right.
      assert (infer_column (v :: col) = map float64_cell (v :: col)) as Hcol.
      { unfold infer_column, infer_dtype. by rewrite Hint, Hbool, Hfloat, Hnum. }
      rewrite Hcol. split; [|done].
      assert (∀ l, token_cells l →
                 Forall (fun x => ∃ f, x = VFloat f) (map float64_cell l)) as Hfl.
      { clear. induction 1 as [|x l Hx _ IH]; [constructor|].
        cbn [map]. constructor; [|done]. destruct x; try done; by eexists. }
      specialize (Hfl _ Hall). cbn [map] in *.
      inversion Hfl as [|? ? [f Hf] Hrest]; subst.
      unfold infer_dtype. rewrite Hf.
      assert (∀ l, Forall (fun x => ∃ f, x = VFloat f) l →
                 forallb is_float_cell l = true) as Hgen.
      { clear. induction 1 as [|x l [f ->] _ IH]; [done|]. simpl. by rewrite IH. }
      cbn [forallb existsb is_int64_cell is_bool_cell is_float_cell is_number_cell andb orb].
      by rewrite (Hgen _ Hrest).
    + right. left.
      assert (infer_column (v :: col) = v :: col) as Hcol.
      { unfold infer_column, infer_dtype. by rewrite Hint, Hbool, Hfloat, Hnum. }
      rewrite Hcol. split_and!; [|done|].
      * unfold infer_dtype. by rewrite Hint, Hbool, Hfloat, Hnum.
      * apply Forall_forall. intros x Hx.
        assert (is_number_cell x = false) as Hx1.
        { apply not_true_is_false. intros Hx1.
          assert (existsb is_number_cell (v :: col) = true); [|congruence].
          apply existsb_exists. exists x. split; [by apply list_elem_of_In|done]. }
        assert (is_token_count x = true) as Hx2
          by by eapply (proj1 (Forall_forall _ _) Hall).
        by destruct x.
Qed.

Lemma np_round_nan : np_round 2 S754_nan = S754_nan.
Proof. done. Qed.

(** The aggregates of one group over a column of token counts: [cells]
    are the group's cells as the records have them. *)
Lemma agg_cell_token_column (col keys : list value) (k : value) :
  col ≠ [] → token_cells col → 100 * Z_sum (map count_value col) < 2 ^ 53 →
  let dt := infer_dtype (infer_column col) in
  let cells := select keys k col in
  let total := Z_sum (map count_value cells) in
  let count := Z.of_nat (length (non_missing cells)) in
  agg_cell Count dt (select keys k (infer_column col)) = Ok (VInt count)
  ∧ (∃ v, agg_cell Sum dt (select keys k (infer_column col)) = Ok v
          ∧ whole_cell (round_result 2 Sum dt v) total)
  ∧ (∃ v, agg_cell Mean dt (select keys k (infer_column col)) = Ok v
          ∧ round_result 2 Mean dt v = VFloat (mean2 total count)).
Proof.
  intros Hne Hall Hb dt cells total count.
  pose proof (token_cells_sum_nonneg col Hall) as Hpos.
  assert (token_cells cells) as Hcells by by apply select_Forall.
  assert (0 <= total) as Htotal by by apply token_cells_sum_nonneg.
  assert (total <= Z_sum (map count_value col)) as Hle.
  { apply Z_sum_select_le. by apply count_value_nonneg. }
  destruct (token_column_dtype col Hne Hall ltac:(lia))
    as [(Hdt & Hcol & Hints) | [(Hdt & Hcol & Hnone) | (Hdt & Hcol)]];
    subst dt; rewrite Hdt, Hcol.
  - (* int64 *)
    assert (Forall (fun v => ∃ n, v = VInt n) cells) as Hc by by apply select_Forall.
    destruct (all_ints_no_missing cells Hc) as [Hnm Hpr].
    fold cells. cbn [agg_cell round_result].
    rewrite (int_cells_tokens cells Hcells). fold total.
    split_and!; [done| |].
    + eexists. split; [done|]. left. by rewrite wrap_int64_small by lia.
    + eexists. split; [done|]. cbn [round_result]. do 2 f_equal.
      rewrite <- Hpr, mean_of_whole.
      * rewrite present_length by done. fold count.
        rewrite present_sum. by fold total.
      * by apply present_nonneg.
      * rewrite present_sum. fold total. lia.
  - (* object: every count is missing *)
    assert (Forall (fun v => v = VNone) cells) as Hc by by apply select_Forall.
    destruct (all_none_missing cells Hc) as [Hnm Hsum].
    fold cells. cbn [agg_cell]. subst count total. rewrite Hnm, Hsum.
    split_and!; [done| |]; eexists; (split; [done|]); [by left | done].
  - (* float64 *)
    rewrite select_map. fold cells. cbn [agg_cell].
    rewrite (float_cells_tokens cells Hcells) by (fold total; lia).
    rewrite (non_missing_float64 cells Hcells) by (fold total; lia).
    pose proof (present_nonneg cells Hcells) as Hnn.
    assert (Z_sum (present cells) = total) as Hsum by apply present_sum.
    split_and!; [done| |].
    + eexists. split; [done|]. right. cbn [round_result].
      rewrite kahan_sum_whole, Hsum by (done || lia).
      by rewrite np_round_whole by lia.
    + eexists. split; [done|]. cbn [round_result]. do 2 f_equal.
      rewrite mean_of_whole by (done || lia).
      by rewrite present_length, Hsum.
Qed.

(** ** The table of a statistics tool *)

Lemma col_sum_cells (f : UsageRecord → value) (l : list UsageRecord) :
  col_sum f l = Z_sum (map count_value (map f l)).
Proof. unfold col_sum. by rewrite map_map. Qed.

Lemma col_count_cells (f : UsageRecord → value) (l : list UsageRecord) :
  col_count f l = Z.of_nat (length (non_missing (map f l))).
Proof.
  unfold col_count, non_missing. f_equal.
  induction l as [|r l IH]; [done|]. simpl.
  destruct (negb (is_na (f r))); simpl; by rewrite IH.
Qed.

Lemma usage_ok_columns (logs : list UsageRecord) :
  forallb usage_ok logs = true →
  token_cells (map inputTokens logs)
  ∧ token_cells (map completionTokens logs)
  ∧ token_cells (map totalTokens logs)
  ∧ Forall (fun v => is_model_id v = true) (map modelId logs).
Proof.
  intros Hall. rewrite forallb_forall in Hall. unfold token_cells.
  split_and!; apply Forall_map, Forall_forall; intros r Hr;
    apply list_elem_of_In, Hall in Hr; unfold usage_ok in Hr;
    repeat (apply andb_prop in Hr as [Hr ?]); done.
Qed.

(** The three aggregates of a column of token counts, in terms of the
    records of the group. *)
Lemma group_token_cells (f : UsageRecord → value) (logs : list UsageRecord)
    (keys : list value) (k : value) (vc vs vm : value) :
  logs ≠ [] → token_cells (map f logs) → 100 * col_sum f logs < 2 ^ 53 →
  let col := infer_column (map f logs) in
  let group := select keys k logs in
  (agg_cell Count (infer_dtype col) (select keys k col) = Ok vc →
   round_result 2 Count (infer_dtype col) vc = VInt (col_count f group))
  ∧ (agg_cell Sum (infer_dtype col) (select keys k col) = Ok vs →
     whole_cell (round_result 2 Sum (infer_dtype col) vs) (col_sum f group))
  ∧ (agg_cell Mean (infer_dtype col) (select keys k col) = Ok vm →
     round_result 2 Mean (infer_dtype col) vm
     = VFloat (mean2 (col_sum f group) (col_count f group))).
Proof.
  intros Hne Hall Hb col group.
  rewrite col_sum_cells in Hb.
  destruct (agg_cell_token_column (map f logs) keys k) as (Hc & (v1 & Hs & Hs') & (v2 & Hm & Hm'));
    [by destruct logs | done | done |].
  rewrite select_map in Hc, Hs', Hm'.
  fold group in Hc, Hs', Hm'.
  rewrite <- col_sum_cells in Hs', Hm'. rewrite <- col_count_cells in Hc, Hm'.
  fold col in Hc, Hs, Hs', Hm, Hm'.
  split_and!.
  - rewrite Hc. by intros [= <-].
  - rewrite Hs. by intros [= <-].
  - rewrite Hm. by intros [= <-].
Qed.

Lemma agg_columns_inv1 (d : Z) (df : DataFrame) (keys index : list value)
    (c : string) (f1 : agg_fn) (out : list (string * list value)) :
  agg_columns d df keys index (c, [f1]) = Ok out →
  ∃ col x1, df_column df c = Ok col
    ∧ agg_column d keys index col f1 = Ok x1
    ∧ out = [(metric_name c f1, x1)].
Proof.
  unfold agg_columns. cbn [fst snd]. intros H.
  apply bind_Ok in H as (col & Hcol & H).
  apply traverse_cons_Ok in H as (y1 & ys & H1 & H & ->).
  apply traverse_nil_Ok in H as ->.
  apply bind_Ok in H1 as (x1 & Hx1 & [= <-]).
  by exists col, x1.
Qed.

Lemma agg_columns_inv2 (d : Z) (df : DataFrame) (keys index : list value)
    (c : string) (f1 f2 : agg_fn) (out : list (string * list value)) :
  agg_columns d df keys index (c, [f1; f2]) = Ok out →
  ∃ col x1 x2, df_column df c = Ok col
    ∧ agg_column d keys index col f1 = Ok x1
    ∧ agg_column d keys index col f2 = Ok x2
    ∧ out = [(metric_name c f1, x1); (metric_name c f2, x2)].
Proof.
  unfold agg_columns. cbn [fst snd]. intros H.
  apply bind_Ok in H as (col & Hcol & H).
  apply traverse_cons_Ok in H as (y1 & ys & H1 & H & ->).
  apply traverse_cons_Ok in H as (y2 & ys' & H2 & H & ->).
  apply traverse_nil_Ok in H as ->.
  apply bind_Ok in H1 as (x1 & Hx1 & [= <-]).
  apply bind_Ok in H2 as (x2 & Hx2 & [= <-]).
  by exists col, x1, x2.
Qed.

Lemma agg_columns_inv3 (d : Z) (df : DataFrame) (keys index : list value)
    (c : string) (f1 f2 f3 : agg_fn) (out : list (string * list value)) :
  agg_columns d df keys index (c, [f1; f2; f3]) = Ok out →
  ∃ col x1 x2 x3, df_column df c = Ok col
    ∧ agg_column d keys index col f1 = Ok x1
    ∧ agg_column d keys index col f2 = Ok x2
    ∧ agg_column d keys index col f3 = Ok x3
    ∧ out = [(metric_name c f1, x1); (metric_name c f2, x2); (metric_name c f3, x3)].
Proof.
  unfold agg_columns. cbn [fst snd]. intros H.
  apply bind_Ok in H as (col & Hcol & H).
  apply traverse_cons_Ok in H as (y1 & ys & H1 & H & ->).
  apply traverse_cons_Ok in H as (y2 & ys' & H2 & H & ->).
  apply traverse_cons_Ok in H as (y3 & ys'' & H3 & H & ->).
  apply traverse_nil_Ok in H as ->.
  apply bind_Ok in H1 as (x1 & Hx1 & [= <-]).
  apply bind_Ok in H2 as (x2 & Hx2 & [= <-]).
  apply bind_Ok in H3 as (x3 & Hx3 & [= <-]).
  by exists col, x1, x2, x3.
Qed.

(** The token columns of a table, whatever else it aggregates. *)
Lemma token_metrics_inv (df : DataFrame) (keys index : list value)
    (extra : list (string * list agg_fn)) (cols : list (list (string * list value))) :
  traverse (agg_columns 2 df keys index) (token_metrics ++ extra) = Ok cols →
  ∃ ci co ct xc xs xm ys ym zs zm rest,
    df_column df "inputTokens" = Ok ci
    ∧ df_column df "completionTokens" = Ok co
    ∧ df_column df "totalTokens" = Ok ct
    ∧ agg_column 2 keys index ci Count = Ok xc
    ∧ agg_column 2 keys index ci Sum = Ok xs
    ∧ agg_column 2 keys index ci Mean = Ok xm
    ∧ agg_column 2 keys index co Sum = Ok ys
    ∧ agg_column 2 keys index co Mean = Ok ym
    ∧ agg_column 2 keys index ct Sum = Ok zs
    ∧ agg_column 2 keys index ct Mean = Ok zm
    ∧ traverse (agg_columns 2 df keys index) extra = Ok rest
    ∧ concat cols
      = ([("inputTokens.count", xc); ("inputTokens.sum", xs); ("inputTokens.mean", xm);
          ("completionTokens.sum", ys); ("completionTokens.mean", ym);
          ("totalTokens.sum", zs); ("totalTokens.mean", zm)] ++ concat rest)%list.
Proof.
  unfold token_metrics. cbn [app]. intros H.
  apply traverse_cons_Ok in H as (c1 & r1 & H1 & H & ->).
  apply traverse_cons_Ok in H as (c2 & r2 & H2 & H & ->).
  apply traverse_cons_Ok in H as (c3 & rest & H3 & H & ->).
  apply agg_columns_inv3 in H1 as (ci & xc & xs & xm & ? & ? & ? & ? & ->).
  apply agg_columns_inv2 in H2 as (co & ys & ym & ? & ? & ? & ->).
  apply agg_columns_inv2 in H3 as (ct & zs & zm & ? & ? & ? & ->).
  by exists ci, co, ct, xc, xs, xm, ys, ym, zs, zm, rest.
Qed.

Lemma reports_of_columns (logs : list UsageRecord) (keys index : list value)
    (xc xs xm ys ym zs zm : list value) (table : DataFrame) (i : nat) (k : value) :
  logs ≠ [] → forallb usage_ok logs = true → within_double logs →
  agg_column 2 keys index (infer_column (map inputTokens logs)) Count = Ok xc →
  agg_column 2 keys index (infer_column (map inputTokens logs)) Sum = Ok xs →
  agg_column 2 keys index (infer_column (map inputTokens logs)) Mean = Ok xm →
  agg_column 2 keys index (infer_column (map completionTokens logs)) Sum = Ok ys →
  agg_column 2 keys index (infer_column (map completionTokens logs)) Mean = Ok ym →
  agg_column 2 keys index (infer_column (map totalTokens logs)) Sum = Ok zs →
  agg_column 2 keys index (infer_column (map totalTokens logs)) Mean = Ok zm →
  df_column table "inputTokens.count" = Ok xc →
  df_column table "inputTokens.sum" = Ok xs →
  df_column table "inputTokens.mean" = Ok xm →
  df_column table "completionTokens.sum" = Ok ys →
  df_column table "completionTokens.mean" = Ok ym →
  df_column table "totalTokens.sum" = Ok zs →
  df_column table "totalTokens.mean" = Ok zm →
  index !! i = Some k →
  reports table i (select keys k logs).
Proof.
  intros Hne Hok (Hbi & Hbo & Hbt) Hxc Hxs Hxm Hys Hym Hzs Hzm
         Exc Exs Exm Eys Eym Ezs Ezm Hi.
  destruct (usage_ok_columns logs Hok) as (Hti & Hto & Htt & _).
  destruct (agg_column_cell _ _ _ _ _ _ _ _ Hxc Hi) as (vc & Hvc & Hcc).
  destruct (agg_column_cell _ _ _ _ _ _ _ _ Hxs Hi) as (vs & Hvs & Hcs).
  destruct (agg_column_cell _ _ _ _ _ _ _ _ Hxm Hi) as (vm & Hvm & Hcm).
  destruct (agg_column_cell _ _ _ _ _ _ _ _ Hys Hi) as (ws & Hws & Hds).
  destruct (agg_column_cell _ _ _ _ _ _ _ _ Hym Hi) as (wm & Hwm & Hdm).
  destruct (agg_column_cell _ _ _ _ _ _ _ _ Hzs Hi) as (us & Hus & Hes).
  destruct (agg_column_cell _ _ _ _ _ _ _ _ Hzm Hi) as (um & Hum & Hem).
  destruct (group_token_cells inputTokens logs keys k vc vs vm Hne Hti Hbi)
    as (Hi1 & Hi2 & Hi3).
  destruct (group_token_cells completionTokens logs keys k VNone ws wm Hne Hto Hbo)
    as (_ & Ho2 & Ho3).
  destruct (group_token_cells totalTokens logs keys k VNone us um Hne Htt Hbt)
    as (_ & Ht2 & Ht3).
  unfold reports, table_cell.
  rewrite Exc, Exs, Exm, Eys, Eym, Ezs, Ezm.
  rewrite Hcc, Hcs, Hcm, Hds, Hdm, Hes, Hem.
  rewrite (Hi1 Hvc), (Hi3 Hvm), (Ho3 Hwm), (Ht3 Hum).
  split_and!; try done; eexists; (split; [done|]); auto.
Qed.

Lemma models_of_column (logs : list UsageRecord) (keys index cells : list value)
    (table : DataFrame) (i : nat) (k : value) :
  forallb usage_ok logs = true →
  agg_column 2 keys index (infer_column (map modelId logs)) ListOfSet = Ok cells →
  df_column table "modelId.<lambda>" = Ok cells →
  index !! i = Some k →
  reports_models table i (select keys k logs).
Proof.
  intros Hok Hcells Etable Hi.
  destruct (usage_ok_columns logs Hok) as (_ & _ & _ & Hids).
  assert (infer_column (map modelId logs) = map modelId logs) as Hcol.
  { apply infer_column_no_number. eapply Forall_impl; [exact Hids|].
    intros v; by destruct v. }
  rewrite Hcol in Hcells.
  destruct (agg_column_cell _ _ _ _ _ _ _ _ Hcells Hi) as (v & Hv & Hcell).
  rewrite select_map in Hv. cbn [agg_cell] in Hv.
  destruct (forallb hashable _); [|done]. injection Hv as <-.
  assert (Forall (fun v => is_model_id v = true) (map modelId (select keys k logs))) as Hgrp.
  { rewrite <- select_map. by apply select_Forall. }
  destruct (distinct_model_ids _ Hgrp) as [Hnodup Hmem].
  exists (distinct (map modelId (select keys k logs))).
  unfold table_cell. rewrite Etable, Hcell. done.
Qed.

Lemma stats_table dt_date (key : group_key) (with_models : bool)
    (logs : list UsageRecord) (timestamps : list value) (table : DataFrame) :
  key_name key = "modelId" ∨ key_name key = "userId" ∨ key_name key = "timestamp" →
  logs ≠ [] → forallb usage_ok logs = true → within_double logs →
  pandas_groupby_agg_round dt_date
    {| by_key := key;
       agg := token_metrics
              ++ (if with_models then [("modelId", [ListOfSet])] else []);
       round_decimals := 2 |} (usage_frame logs timestamps) = Ok table →
  ∃ keys index,
    key_column dt_date (usage_frame logs timestamps) key = Ok keys
    ∧ group_index keys = Ok index
    ∧ df_column table (key_name key) = Ok index
    ∧ ∀ i k, index !! i = Some k →
        reports table i (select keys k logs)
        ∧ if with_models then reports_models table i (select keys k logs)
          else df_column table "modelId.<lambda>" = Raise KeyError.
Proof.
  intros Hname Hne Hok Hb H.
  unfold pandas_groupby_agg_round in H. cbn [by_key agg round_decimals] in H.
  apply bind_Ok in H as (keys & Hkeys & H).
  apply bind_Ok in H as (index & Hindex & H).
  apply bind_Ok in H as (cols & Hcols & [= <-]).
  apply token_metrics_inv in Hcols
    as (ci & co & ct & xc & xs & xm & ys & ym & zs & zm & rest
        & Hci & Hco & Hct & Hxc & Hxs & Hxm & Hys & Hym & Hzs & Hzm & Hrest & ->).
  change (Ok (infer_column (map inputTokens logs)) = Ok ci) in Hci.
  change (Ok (infer_column (map completionTokens logs)) = Ok co) in Hco.
  change (Ok (infer_column (map totalTokens logs)) = Ok ct) in Hct.
  injection Hci as <-. injection Hco as <-. injection Hct as <-.
  exists keys, index. split_and!; [done | done | |].
  { cbn [df_column]. by rewrite String.eqb_refl. }
  intros i k Hi. split.
  - eapply reports_of_columns; try eassumption;
      destruct Hname as [-> | [-> | ->]]; reflexivity.
  - destruct with_models.
    + apply traverse_cons_Ok in Hrest as (c & r & Hc & Hr & ->).
      apply traverse_nil_Ok in Hr as ->.
      apply agg_columns_inv1 in Hc as (col & cells & Hcol & Hcells & ->).
      change (Ok (infer_column (map modelId logs)) = Ok col) in Hcol.
      injection Hcol as <-.
      eapply models_of_column; try eassumption.
      destruct Hname as [-> | [-> | ->]]; reflexivity.
    + apply traverse_nil_Ok in Hrest as ->.
      destruct Hname as [-> | [-> | ->]]; reflexivity.
Qed.



(** The scenario of the specification, per model: two records of
    [m1] with 10 + 20 input tokens and 5 + 0 completion tokens. *)
Example scenario_model_table :
  fst (run_tool example_loads keep_timestamps (pandas_groupby_agg_round iso_date)
         GetModelUsageStats scenario_world {| days := 7 |})
  = Ok [("modelId", [VStr "m1"]);
        ("inputTokens.count", [VInt 2]);
        ("inputTokens.sum", [VInt 30]);
        ("inputTokens.mean", [VFloat (S754_finite false 8444249301319680 (-49))]);
        ("completionTokens.sum", [VInt 5]);
        ("completionTokens.mean", [VFloat (S754_finite false 5629499534213120 (-51))]);
        ("totalTokens.sum", [VInt 35]);
        ("totalTokens.mean", [VFloat (S754_finite false 4925812092436480 (-48))])].
Proof. vm_compute. reflexivity. Qed.

(** Per caller, with a count that is missing: the column of input
    counts is a float64 column, [bob]'s group has no input count, so
    its count is 0, its sum 0.0 and its mean NaN. *)
Example three_calls_by_user :
  pandas_groupby_agg_round iso_date
    {| by_key := ByColumn "userId";
       agg := token_metrics ++ [("modelId", [ListOfSet])];
       round_decimals := 2 |} (pd_DataFrame three_calls)
  = Ok [("userId", [VStr "alice"; VStr "bob"]);
        ("inputTokens.count", [VInt 2; VInt 0]);
        ("inputTokens.sum",
         [VFloat (S754_finite false 8725724278030336 (-48)); VFloat (S754_zero false)]);
        ("inputTokens.mean",
         [VFloat (S754_finite false 8725724278030336 (-49)); VFloat S754_nan]);
        ("completionTokens.sum", [VInt 5; VInt 7]);
        ("completionTokens.mean",
         [VFloat (S754_finite false 5629499534213120 (-51));
          VFloat (S754_finite false 7881299347898368 (-50))]);
        ("totalTokens.sum", [VInt 36; VInt 7]);
        ("totalTokens.mean",
         [VFloat (S754_finite false 5066549580791808 (-48));
          VFloat (S754_finite false 7881299347898368 (-50))]);
        ("modelId.<lambda>", [VList [VStr "m1"; VStr "m2"]; VList [VStr "m2"]])].
Proof. vm_compute. reflexivity. Qed.

(** Per day: the time of day is dropped from the key. *)
Example three_calls_by_day :
  (table ← pandas_groupby_agg_round iso_date
             {| by_key := ByDateOf "timestamp";
                agg := token_metrics ++ [("modelId", [ListOfSet])];
                round_decimals := 2 |} (pd_DataFrame three_calls);
   Ok (df_column table "timestamp", df_column table "totalTokens.sum",
       df_column table "modelId.<lambda>"))
  = Ok (Ok [VStr "2026-11-02"; VStr "2026-11-03"],
        Ok [VInt 15; VInt 28],
        Ok [VList [VStr "m1"]; VList [VStr "m2"]]).
Proof. vm_compute. reflexivity. Qed.

(** A mean that needs rounding: 10 / 3 is reported as 3.33. *)
Example mean_of_ten_over_three :
  mean2 10 3 = S754_finite false 7498493379571876 (-51).
Proof. vm_compute. reflexivity. Qed.
